(** * SocraTask AI Nexus: hardware diagnostic, model recommendation, task routing

    A shallow embedding of the three Python modules of [src/ai_nexus]
    ([hardware_profiler.py], [model_manager.py], [nexus_core.py]) together
    with the properties the design document states about them.

    Modelling conventions.
    - Python [float] values are idealised as exact rationals ([Q]); Python
      [int] values are [Z].  Every arithmetic expression of the source is
      written out with the same operations in the same order.
    - [Optional[T]] is [option T]; Python truthiness ([if x:]) is written
      out explicitly ([None] and [0.0] are both falsy).
    - A [dict] with string keys is an association list in insertion order,
      ["Dict[str, Any]"] values live in the small universe [pyval].
    - A method is a computation over the object it is called on: it may
      read and update [self] and may either return or raise. *)

From Stdlib Require Import String Ascii List Bool ZArith QArith Qminmax Lia Lqa
  Permutation Sorted.
Import ListNotations.
Local Open Scope string_scope.
Local Open Scope list_scope.

(* ===================================================================== *)
(** * Python prelude *)
(* ===================================================================== *)

Module Py.

(** The exceptions the modelled code can raise. *)
Inductive exn : Type :=
| RuntimeError (msg : string)
| AttributeError (msg : string).

(** A call either returns a value or raises. *)
Inductive outcome (A : Type) : Type :=
| Returns (a : A)
| Raises (e : exn).
Arguments Returns {A} a.
Arguments Raises {A} e.

(** A method body over an object of type [S]: the updates made to [self]
    before an exception is raised are kept, as in Python. *)
Definition M (S A : Type) : Type := S -> outcome A * S.

Definition ret {S A} (a : A) : M S A := fun s => (Returns a, s).

Definition bind {S A B} (c : M S A) (k : A -> M S B) : M S B :=
  fun s =>
    match c s with
    | (Returns a, s') => k a s'
    | (Raises e, s') => (Raises e, s')
    end.

Definition raise {S A} (e : exn) : M S A := fun s => (Raises e, s).
Definition get {S} : M S S := fun s => (Returns s, s).
Definition gets {S A} (f : S -> A) : M S A := fun s => (Returns (f s), s).
Definition modify {S} (f : S -> S) : M S unit := fun s => (Returns tt, f s).

(** An expression that can raise but does not touch [self]. *)
Definition lift {S A} (o : outcome A) : M S A := fun s => (o, s).

(** Run a method of a component object stored in a field of [self]. *)
Definition zoom {S T A} (proj : S -> T) (upd : T -> S -> S) (c : M T A) : M S A :=
  fun s => let (r, t') := c (proj s) in (r, upd t' s).

Definition obind {A B} (o : outcome A) (k : A -> outcome B) : outcome B :=
  match o with
  | Returns a => k a
  | Raises e => Raises e
  end.

(** ** Numbers *)

Definition Qlt_bool (x y : Q) : bool := negb (Qle_bool y x).

(** [max(a, b)] returns [a] unless [b > a]; [min(a, b)] returns [a] unless
    [b < a]. *)
Definition max (a b : Q) : Q := if Qlt_bool a b then b else a.
Definition min (a b : Q) : Q := if Qlt_bool b a then b else a.

(** Truthiness of an [Optional[float]]: [None] and [0.0] are falsy. *)
Definition truthy (o : option Q) : bool :=
  match o with
  | Some x => negb (Qeq_bool x 0)
  | None => false
  end.

(** [o or 0] for an [Optional[float]]. *)
Definition or_zero (o : option Q) : Q :=
  match o with
  | Some x => if Qeq_bool x 0 then 0%Q else x
  | None => 0%Q
  end.

(** [o and o >= bound] used as a condition. *)
Definition truthy_and_ge (o : option Q) (bound : Q) : bool :=
  match o with
  | Some x => negb (Qeq_bool x 0) && Qle_bool bound x
  | None => false
  end.

(** ** Strings *)

(** [needle in hay] for strings. *)
Fixpoint contains (needle hay : string) : bool :=
  String.prefix needle hay ||
  match hay with
  | EmptyString => false
  | String _ hay' => contains needle hay'
  end.

Definition lower_ascii (c : ascii) : ascii :=
  let n := nat_of_ascii c in
  if ((65 <=? n)%nat && (n <=? 90)%nat)%bool then ascii_of_nat (n + 32) else c.

(** [s.lower()] on ASCII text. *)
Fixpoint lower (s : string) : string :=
  match s with
  | EmptyString => EmptyString
  | String c s' => String (lower_ascii c) (lower s')
  end.

(** [x in l] for a list of strings. *)
Definition str_in_list (x : string) (l : list string) : bool :=
  existsb (String.eqb x) l.

(** ** Iteration *)

(** [next((m for m in l if p(m)), default)]: the default expression is
    evaluated by the caller before the generator is advanced. *)
Definition next_or {A} (p : A -> bool) (l : list A) (default : option A) : option A :=
  match find p l with
  | Some x => Some x
  | None => default
  end.

(** [l[1:4]]. *)
Definition slice_1_4 {A} (l : list A) : list A := firstn 3 (skipn 1 l).

(** [l.sort(key=key, reverse=True)]: descending by key, and stable
    (elements with equal keys keep their relative order, also with
    [reverse=True]). *)
Section Sort.
Context {A : Type} (key : A -> Q).

(** [x] goes after every element whose key is at least its own. *)
Fixpoint insert_desc (x : A) (l : list A) : list A :=
  match l with
  | [] => [x]
  | y :: l' =>
      if Qle_bool (key x) (key y) then y :: insert_desc x l'
      else x :: y :: l'
  end.

Definition sort_desc (l : list A) : list A :=
  fold_left (fun acc x => insert_desc x acc) l [].

(** The order the sort establishes: descending by key. *)
Definition desc (x y : A) : Prop := (key y <= key x)%Q.
End Sort.

(** ** Dictionaries with string keys, and the values stored in them *)

#[warnings="-register-all"] Inductive pyval : Type :=
| PInt (z : Z)
| PStr (s : string)
| PList (l : list pyval)
| PDict (d : list (string * pyval)).

Definition dict := list (string * pyval).

Fixpoint dict_get {V} (k : string) (d : list (string * V)) : option V :=
  match d with
  | [] => None
  | (k', v) :: d' => if String.eqb k k' then Some v else dict_get k d'
  end.

(** [d[k1][k2]...] through nested dictionaries. *)
Fixpoint path_get (ks : list string) (v : pyval) : option pyval :=
  match ks with
  | [] => Some v
  | k :: ks' =>
      match v with
      | PDict d =>
          match dict_get k d with
          | Some v' => path_get ks' v'
          | None => None
          end
      | _ => None
      end
  end.

End Py.

Declare Scope py_scope.
Delimit Scope py_scope with py.
Notation "x <- c ;; k" := (Py.bind c (fun x => k))
  (at level 61, c at next level, right associativity) : py_scope.
Notation "c ;;; k" := (Py.bind c (fun _ => k))
  (at level 61, right associativity) : py_scope.
Notation "x <~ o ;; k" := (Py.obind o (fun x => k))
  (at level 61, o at next level, right associativity) : py_scope.

(* ===================================================================== *)
(** * Python prelude, continued: dynamic values and further exceptions *)
(* ===================================================================== *)

Module PyMore.

(** The exceptions of [Py.exn] and the built-in ones raised by the code
    modelled further down. *)
Inductive exn : Type :=
| Earlier (e : Py.exn)
| ValueError (msg : string)
| KeyError (key : string)
| TypeError.

Inductive outcome (A : Type) : Type :=
| Returns (a : A)
| Raises (e : exn).
Arguments Returns {A} a.
Arguments Raises {A} e.

Definition M (S A : Type) : Type := S -> outcome A * S.

Definition ret {S A} (a : A) : M S A := fun s => (Returns a, s).

Definition bind {S A B} (c : M S A) (k : A -> M S B) : M S B :=
  fun s =>
    match c s with
    | (Returns a, s') => k a s'
    | (Raises e, s') => (Raises e, s')
    end.

Definition raise {S A} (e : exn) : M S A := fun s => (Raises e, s).

(** An expression that can raise but does not touch the state. *)
Definition lift {S A} (o : outcome A) : M S A := fun s => (o, s).

(** A computation that only raises exceptions of [Py.exn]. *)
Definition of_py {S A} (c : Py.M S A) : M S A :=
  fun s =>
    match c s with
    | (Py.Returns a, s') => (Returns a, s')
    | (Py.Raises e, s') => (Raises (Earlier e), s')
    end.

(** Truthiness of a value: [0], [""], [[]] and [{}] are falsy. *)
Definition truthy (v : Py.pyval) : bool :=
  match v with
  | Py.PInt z => negb (z =? 0)%Z
  | Py.PStr s => negb (String.eqb s "")
  | Py.PList l => match l with [] => false | _ => true end
  | Py.PDict d => match d with [] => false | _ => true end
  end.

(** [k == v] for a string [k]: a string equals only strings. *)
Definition str_eq (k : string) (v : Py.pyval) : bool :=
  match v with
  | Py.PStr s => String.eqb k s
  | _ => false
  end.

(** [k in v] for a string [k]. *)
Definition contains (k : string) (v : Py.pyval) : outcome bool :=
  match v with
  | Py.PDict d => Returns (match Py.dict_get k d with Some _ => true | None => false end)
  | Py.PStr s => Returns (Py.contains k s)
  | Py.PList l => Returns (existsb (str_eq k) l)
  | Py.PInt _ => Raises TypeError
  end.

(** [v[k]] for a string [k]. *)
Definition subscript (v : Py.pyval) (k : string) : outcome Py.pyval :=
  match v with
  | Py.PDict d =>
      match Py.dict_get k d with
      | Some x => Returns x
      | None => Raises (KeyError k)
      end
  | _ => Raises TypeError
  end.

Fixpoint characters (s : string) : list Py.pyval :=
  match s with
  | EmptyString => []
  | String c s' => Py.PStr (String c EmptyString) :: characters s'
  end.

(** The values [for x in v] runs through. *)
Definition iterate (v : Py.pyval) : outcome (list Py.pyval) :=
  match v with
  | Py.PList l => Returns l
  | Py.PStr s => Returns (characters s)
  | Py.PDict d => Returns (map (fun kv => Py.PStr (fst kv)) d)
  | Py.PInt _ => Raises TypeError
  end.

(** [d[k] = v]: an existing key keeps its place. *)
Fixpoint dict_set {V} (k : string) (v : V) (d : list (string * V)) : list (string * V) :=
  match d with
  | [] => [(k, v)]
  | (k', v') :: d' =>
      if String.eqb k k' then (k, v) :: d' else (k', v') :: dict_set k v d'
  end.

(** [del d[k]] for a key that is present. *)
Fixpoint dict_del {V} (k : string) (d : list (string * V)) : list (string * V) :=
  match d with
  | [] => []
  | (k', v') :: d' =>
      if String.eqb k k' then d' else (k', v') :: dict_del k d'
  end.

(** [k in d] for a dictionary. *)
Definition dict_has {V} (k : string) (d : list (string * V)) : bool :=
  match Py.dict_get k d with
  | Some _ => true
  | None => false
  end.

End PyMore.

Declare Scope pymore_scope.
Delimit Scope pymore_scope with pymore.
Notation "x <- c ;; k" := (PyMore.bind c (fun x => k))
  (at level 61, c at next level, right associativity) : pymore_scope.

(* ===================================================================== *)
(** * hardware_profiler.py *)
(* ===================================================================== *)

Module hardware_profiler.
Local Open Scope py_scope.

(** [@dataclass HardwareCapabilityVector] *)
Record HardwareCapabilityVector : Type := {
  architecture : string;
  cpu_cores : Z;
  cpu_threads : Z;
  cpu_speed : Q;
  ram_gb : Q;
  gpu_name : option string;
  gpu_vram_gb : option Q;
  storage_tier : string;
  thermal_profile : string;
  special_instructions : option (list string)
}.

(** The attributes of a [HardwareProfiler]. *)
Record HardwareProfiler : Type := {
  capability_vector : option HardwareCapabilityVector;
  profiles : Py.dict
}.

Definition __init__ : HardwareProfiler :=
  {| capability_vector := None; profiles := [] |}.

(** What the platform reports during one diagnostic run: the answers of
    [platform], [psutil], [cpuinfo], [GPUtil], the file system and the
    clock, on a host where the census probes answer.  Sizes are given
    after the unit conversion and [round(_, 2)] of the source. *)
Record Host : Type := {
  machine : string;                      (* platform.machine() *)
  system : string;                       (* platform.system() *)
  flags : list string;                   (* cpu_info.get('flags', []) *)
  physical_cores : Z;                    (* psutil.cpu_count(logical=False) *)
  logical_cores : Z;                     (* psutil.cpu_count(logical=True) *)
  cpu_freq_max : Q;                      (* psutil.cpu_freq().max, MHz *)
  memory_total_gb : Q;
  gpus : list (string * Q);              (* GPUtil.getGPUs(): name, VRAM in GB *)
  rotational : option string;            (* stripped content of the rotational
                                            flag file, [None] if unreadable *)
  write_time : option Q;                 (* seconds taken by the 1 MiB write,
                                            [None] if it fails *)
  initial_reading : option Q;            (* first [_get_system_temperature()] *)
  tick_readings : list (option Q);       (* one [_get_system_temperature()] per
                                            iteration of the polling loop *)
  test_elapsed : Q;                      (* end_time - start_time *)
  latency_time : Q;
  memory_start : Z;                      (* rss before, bytes *)
  memory_end : Z;                        (* rss after, bytes *)
  parallel_time : Q
}.

(** The keys of [census_data] that [_create_capability_vector] reads. *)
Record CensusData : Type := {
  census_cpu_architecture : string;
  census_cpu_cores : Z;
  census_cpu_threads : Z;
  census_cpu_max_freq : Q;
  census_special_instructions : list string;
  census_ram_gb : Q;
  census_gpu_name : option string;
  census_gpu_vram_gb : option Q;
  census_storage_tier : string
}.

(** [thermal_data] *)
Record ThermalData : Type := {
  initial_temp : option Q;
  test_duration : Q;
  max_temp : Q;
  temp_delta : Q;
  temp_readings : list Q;
  thermal_data_profile : string          (* thermal_data['thermal_profile'] *)
}.

(** [benchmark_data] *)
Record BenchmarkData : Type := {
  latency_ms_per_token : Q;
  memory_pressure_mb : Q;
  parallel_performance : Q;
  overall_score : Q
}.

(** [HardwareProfiler._detect_special_instructions] *)
Definition _detect_special_instructions (host : Host) : list string :=
  let instructions := [] in
  let instructions :=
    if Py.str_in_list "avx" (flags host) then instructions ++ ["AVX"] else instructions in
  let instructions :=
    if Py.str_in_list "avx2" (flags host) then instructions ++ ["AVX2"] else instructions in
  let instructions :=
    if Py.str_in_list "avx512f" (flags host) then instructions ++ ["AVX-512"] else instructions in
  let instructions :=
    if Py.str_in_list "neon" (flags host) then instructions ++ ["NEON"] else instructions in
  if String.eqb (system host) "Darwin" then instructions ++ ["AMX"] else instructions.

(** [HardwareProfiler._assess_storage_tier]: any failure inside the [try]
    gives ["Unknown"]. *)
Definition _assess_storage_tier (host : Host) : string :=
  if String.eqb (system host) "Linux" then
    match rotational host with
    | Some content => if String.eqb content "1" then "Slow" else "Fast"
    | None => "Unknown"
    end
  else
    match write_time host with
    | Some t => if Py.Qlt_bool t 0.1 then "Fast" else "Slow"
    | None => "Unknown"
    end.

(** [HardwareProfiler._hardware_census] *)
Definition _hardware_census (host : Host) : CensusData :=
  let gpu := hd_error (gpus host) in
  {| census_cpu_architecture := machine host;
     census_cpu_cores := physical_cores host;
     census_cpu_threads := logical_cores host;
     census_cpu_max_freq := cpu_freq_max host / 1000.0;
     census_special_instructions := _detect_special_instructions host;
     census_ram_gb := memory_total_gb host;
     census_gpu_name := option_map fst gpu;
     census_gpu_vram_gb := option_map snd gpu;
     census_storage_tier := _assess_storage_tier host |}.

(** The thresholds at the end of [_thermal_characterization]. *)
Definition classify_thermal (temp_delta : Q) : string :=
  if Py.Qlt_bool temp_delta 10 then "Excellent"
  else if Py.Qlt_bool temp_delta 20 then "Good"
  else if Py.Qlt_bool temp_delta 30 then "Balanced"
  else "Limited".

(** One iteration of the polling loop, on [(max_temp, temp_readings)]. *)
Definition poll (st : Q * list Q) (current_temp : option Q) : Q * list Q :=
  let (max_temp, temp_readings) := st in
  let max_temp :=
    match current_temp with
    | Some t => if negb (Qeq_bool t 0) && Py.Qlt_bool max_temp t then t else max_temp
    | None => max_temp
    end in
  let temp_readings :=
    match current_temp with
    | Some t => if negb (Qeq_bool t 0) then temp_readings ++ [t] else temp_readings
    | None => temp_readings
    end in
  (max_temp, temp_readings).

(** [HardwareProfiler._thermal_characterization]: the load thread runs for
    a fixed duration, so the polling loop runs finitely often, once per
    element of [tick_readings]; the stage then returns. *)
Definition _thermal_characterization (host : Host) : ThermalData :=
  let initial_temp := initial_reading host in
  let max_temp := Py.or_zero initial_temp in
  let (max_temp, temp_readings) :=
    fold_left poll (tick_readings host) (max_temp, []) in
  let temp_delta := max_temp - Py.or_zero initial_temp in
  {| initial_temp := initial_temp;
     test_duration := test_elapsed host;
     max_temp := max_temp;
     temp_delta := temp_delta;
     temp_readings := temp_readings;
     thermal_data_profile := classify_thermal temp_delta |}.

(** [HardwareProfiler._calculate_overall_score] *)
Definition _calculate_overall_score (latency memory_pressure parallel_time : Q) : Q :=
  let latency_score := Py.max 0 (100 - (latency / 10)) in
  let memory_score := Py.max 0 (100 - (memory_pressure / 10)) in
  let parallel_score := Py.max 0 (100 - (parallel_time * 1000)) in
  let overall_score :=
    (latency_score * 0.4) + (memory_score * 0.3) + (parallel_score * 0.3) in
  Py.min 100 (Py.max 0 overall_score).

(** [HardwareProfiler._baseline_ai_benchmarking] *)
Definition _baseline_ai_benchmarking (host : Host) : BenchmarkData :=
  let latency_ms_per_token := latency_time host * 1000 in
  let memory_pressure_mb :=
    inject_Z (memory_end host - memory_start host) / inject_Z (1024 * 1024) in
  let parallel_performance := parallel_time host in
  {| latency_ms_per_token := latency_ms_per_token;
     memory_pressure_mb := memory_pressure_mb;
     parallel_performance := parallel_performance;
     overall_score :=
       _calculate_overall_score latency_ms_per_token memory_pressure_mb
         parallel_performance |}.

(** [HardwareProfiler._create_capability_vector] *)
Definition _create_capability_vector (hardware_data : CensusData)
    (thermal_data : ThermalData) (benchmark_data : BenchmarkData)
    : HardwareCapabilityVector :=
  {| architecture := census_cpu_architecture hardware_data;
     cpu_cores := census_cpu_cores hardware_data;
     cpu_threads := census_cpu_threads hardware_data;
     cpu_speed := census_cpu_max_freq hardware_data;
     ram_gb := census_ram_gb hardware_data;
     gpu_name := census_gpu_name hardware_data;
     gpu_vram_gb := census_gpu_vram_gb hardware_data;
     storage_tier := census_storage_tier hardware_data;
     thermal_profile := thermal_data_profile thermal_data;
     special_instructions := Some (census_special_instructions hardware_data) |}.

(** A progress callback is a callable of the caller: it receives
    [(percent, message)] and acts on the caller's own state [C]. *)
Definition callback (C : Type) : Type := Z -> string -> C -> C.

(** [if progress_callback: progress_callback(percent, message)], on a
    state made of [self] and the caller's state. *)
Definition notify {S C} (progress_callback : option (callback C))
    (percent : Z) (message : string) : Py.M (S * C) unit :=
  match progress_callback with
  | Some f => Py.modify (fun st => (fst st, f percent message (snd st)))
  | None => Py.ret tt
  end.

(** [HardwareProfiler.run_full_diagnostic] *)
Definition run_full_diagnostic {C} (host : Host)
    (progress_callback : option (callback C))
    : Py.M (HardwareProfiler * C) HardwareCapabilityVector :=
  (* Stage 1: Hardware Census *)
  let hardware_data := _hardware_census host in
  notify progress_callback 30 "Hardware census complete" ;;;
  (* Stage 2: Thermal & Power Characterization *)
  let thermal_data := _thermal_characterization host in
  notify progress_callback 60 "Thermal characterization complete" ;;;
  (* Stage 3: Baseline AI Benchmarking *)
  let benchmark_data := _baseline_ai_benchmarking host in
  notify progress_callback 90 "Benchmarking complete" ;;;
  let vector := _create_capability_vector hardware_data thermal_data benchmark_data in
  Py.modify (fun st =>
    ({| capability_vector := Some vector; profiles := profiles (fst st) |}, snd st)) ;;;
  Py.ret vector.

(** The fields of the dictionary [HardwareProfiler.get_recommendations]
    returns that name a model and a strategy. *)
Record TextRecommendation : Type := {
  text_primary_model : string;
  text_gpu_layers : string;
  text_strategy : string
}.

(** [HardwareProfiler.get_recommendations] (the textual recommendation;
    its fixed ['profiles'] entry is omitted). *)
Definition get_recommendations (capability_vector : HardwareCapabilityVector)
    : TextRecommendation :=
  let ram := ram_gb capability_vector in
  let vram := gpu_vram_gb capability_vector in
  if Qle_bool 32 ram && Py.truthy_and_ge vram 8 then
    {| text_primary_model := "Qwen2.5-32B (Q8_0)";
       text_gpu_layers := "All layers";
       text_strategy := "Power User - Full GPU acceleration" |}
  else if Qle_bool 16 ram && Py.truthy_and_ge vram 4 then
    {| text_primary_model := "Qwen2.5-7B (Q6_K)";
       text_gpu_layers := "20-30 layers";
       text_strategy := "Balanced Performance" |}
  else if Qle_bool 8 ram then
    {| text_primary_model := "Qwen2.5-1.5B (Q4_K_M)";
       text_gpu_layers := "5-10 layers if GPU available";
       text_strategy := "Efficient Operation" |}
  else
    {| text_primary_model := "Qwen2.5-0.5B (IQ4_XS)";
       text_gpu_layers := "None (CPU only)";
       text_strategy := "Minimal Resource Usage" |}.

End hardware_profiler.

(* ===================================================================== *)
(** * model_manager.py *)
(* ===================================================================== *)

Module model_manager.
Import hardware_profiler(HardwareCapabilityVector, architecture, cpu_cores, cpu_threads,
  cpu_speed, ram_gb, gpu_name, gpu_vram_gb, storage_tier, thermal_profile,
  special_instructions).
Local Open Scope py_scope.

(** [@dataclass ModelSpec] *)
Record ModelSpec : Type := {
  name : string;
  family : string;
  size : string;
  variant : string;
  quantization : string;
  disk_size_gb : Q;
  ram_requirement_gb : Q;
  recommended_hardware : string;
  description : string;
  download_url : string;
  checksum : string
}.

(** One entry of [self.orchestration_rules]. *)
Record Rule : Type := {
  condition : string;
  action : string;
  priority : Z;
  id : Z
}.

(** The attributes of a [ModelManager]. *)
Record ModelManager : Type := {
  models_dir : string;
  downloaded_models : list ModelSpec;
  active_models : Py.dict;
  model_catalog : list ModelSpec;
  orchestration_rules : list Rule
}.

(** [ModelManager._initialize_model_catalog] *)
Definition _initialize_model_catalog : list ModelSpec := [
  {| name := "qwen2.5-0.5b-q4_k_m.gguf";
     family := "Qwen2.5"; size := "0.5B"; variant := "Qwen2.5";
     quantization := "Q4_K_M";
     disk_size_gb := 0.3; ram_requirement_gb := 0.5;
     recommended_hardware := "8GB+ RAM";
     description := "General purpose model, efficient quantization";
     download_url := "https://huggingface.co/Qwen/Qwen2.5-0.5B-Instruct-GGUF/resolve/main/qwen2.5-0.5b-instruct-q4_k_m.gguf";
     checksum := "checksum_placeholder_0.5b_q4" |};
  {| name := "qwen2.5-1.5b-q4_k_m.gguf";
     family := "Qwen2.5"; size := "1.5B"; variant := "Qwen2.5";
     quantization := "Q4_K_M";
     disk_size_gb := 0.9; ram_requirement_gb := 1.2;
     recommended_hardware := "8GB+ RAM";
     description := "General purpose model with good capabilities";
     download_url := "https://huggingface.co/Qwen/Qwen2.5-1.5B-Instruct-GGUF/resolve/main/qwen2.5-1.5b-instruct-q4_k_m.gguf";
     checksum := "checksum_placeholder_1.5b_q4" |};
  {| name := "qwen2.5-7b-q6_k.gguf";
     family := "Qwen2.5"; size := "7B"; variant := "Qwen2.5";
     quantization := "Q6_K";
     disk_size_gb := 5.2; ram_requirement_gb := 6.5;
     recommended_hardware := "16GB+ RAM, 4GB+ VRAM recommended";
     description := "Balanced general purpose model";
     download_url := "https://huggingface.co/Qwen/Qwen2.5-7B-Instruct-GGUF/resolve/main/qwen2.5-7b-instruct-q6_k.gguf";
     checksum := "checksum_placeholder_7b_q6" |};
  {| name := "qwen2.5-32b-q8_0.gguf";
     family := "Qwen2.5"; size := "32B"; variant := "Qwen2.5";
     quantization := "Q8_0";
     disk_size_gb := 24.0; ram_requirement_gb := 32.0;
     recommended_hardware := "32GB+ RAM, 8GB+ VRAM recommended";
     description := "High capability general purpose model";
     download_url := "https://huggingface.co/Qwen/Qwen2.5-32B-Instruct-GGUF/resolve/main/qwen2.5-32b-instruct-q8_0.gguf";
     checksum := "checksum_placeholder_32b_q8" |};
  {| name := "qwen2.5-coder-1.5b-q4_k_m.gguf";
     family := "Qwen2.5-Coder"; size := "1.5B"; variant := "Qwen2.5-Coder";
     quantization := "Q4_K_M";
     disk_size_gb := 0.9; ram_requirement_gb := 1.2;
     recommended_hardware := "8GB+ RAM";
     description := "Specialized for code generation and debugging";
     download_url := "https://huggingface.co/Qwen/Qwen2.5-Coder-1.5B-Instruct-GGUF/resolve/main/qwen2.5-coder-1.5b-instruct-q4_k_m.gguf";
     checksum := "checksum_placeholder_coder_1.5b_q4" |};
  {| name := "qwen2.5-coder-7b-q6_k.gguf";
     family := "Qwen2.5-Coder"; size := "7B"; variant := "Qwen2.5-Coder";
     quantization := "Q6_K";
     disk_size_gb := 5.2; ram_requirement_gb := 6.5;
     recommended_hardware := "16GB+ RAM, 4GB+ VRAM recommended";
     description := "Advanced code generation and debugging model";
     download_url := "https://huggingface.co/Qwen/Qwen2.5-Coder-7B-Instruct-GGUF/resolve/main/qwen2.5-coder-7b-instruct-q6_k.gguf";
     checksum := "checksum_placeholder_coder_7b_q6" |};
  {| name := "qwen2.5-math-1.5b-q4_k_m.gguf";
     family := "Qwen2.5-Math"; size := "1.5B"; variant := "Qwen2.5-Math";
     quantization := "Q4_K_M";
     disk_size_gb := 0.9; ram_requirement_gb := 1.2;
     recommended_hardware := "8GB+ RAM";
     description := "Specialized for mathematical reasoning";
     download_url := "https://huggingface.co/Qwen/Qwen2.5-Math-1.5B-Instruct-GGUF/resolve/main/qwen2.5-math-1.5b-instruct-q4_k_m.gguf";
     checksum := "checksum_placeholder_math_1.5b_q4" |};
  {| name := "qwen2.5-math-7b-q6_k.gguf";
     family := "Qwen2.5-Math"; size := "7B"; variant := "Qwen2.5-Math";
     quantization := "Q6_K";
     disk_size_gb := 5.2; ram_requirement_gb := 6.5;
     recommended_hardware := "16GB+ RAM, 4GB+ VRAM recommended";
     description := "Advanced mathematical reasoning model";
     download_url := "https://huggingface.co/Qwen/Qwen2.5-Math-7B-Instruct-GGUF/resolve/main/qwen2.5-math-7b-instruct-q6_k.gguf";
     checksum := "checksum_placeholder_math_7b_q6" |};
  {| name := "qwen2.5-vl-2b-q4_k_m.gguf";
     family := "Qwen2.5-VL"; size := "2B"; variant := "Qwen2.5-VL";
     quantization := "Q4_K_M";
     disk_size_gb := 1.5; ram_requirement_gb := 2.0;
     recommended_hardware := "8GB+ RAM, 4GB+ VRAM recommended";
     description := "Vision-language model for image analysis";
     download_url := "https://huggingface.co/Qwen/Qwen2.5-VL-2B-Instruct-GGUF/resolve/main/qwen2.5-vl-2b-instruct-q4_k_m.gguf";
     checksum := "checksum_placeholder_vl_2b_q4" |}
]%Q.

(** [ModelManager.__init__] (the directory is created on disk, which is
    outside this model). *)
Definition __init__ (models_dir : string) : ModelManager :=
  {| models_dir := models_dir;
     downloaded_models := [];
     active_models := [];
     model_catalog := _initialize_model_catalog;
     orchestration_rules := [] |}.

(** The dictionary [get_model_recommendations] returns: it always has the
    three keys ['primary_model'], ['alternative_models'], ['profiles']. *)
Record Recommendations : Type := {
  primary_model : option ModelSpec;
  alternative_models : list ModelSpec;
  profiles : Py.dict
}.

(** [model.size in ["7B", "32B"]] *)
Definition size_in_7B_32B (model : ModelSpec) : bool :=
  Py.str_in_list (size model) ["7B"; "32B"].

(** The body of the filtering loop of [get_model_recommendations]:
    [true] when [model] is appended to [suitable_models]. *)
Definition appended (capability_vector : HardwareCapabilityVector)
    (model : ModelSpec) : bool :=
  if Qle_bool (ram_requirement_gb model) (ram_gb capability_vector) then
    if Py.truthy (gpu_vram_gb capability_vector) && size_in_7B_32B model then
      match gpu_vram_gb capability_vector with
      | Some vram => Qle_bool (ram_requirement_gb model * 0.7) vram
      | None => false
      end
    else if negb (size_in_7B_32B model) then true
    else false
  else false.

(** The filtering loop: [for model in self.model_catalog: ... append]. *)
Definition suitable_models_loop (capability_vector : HardwareCapabilityVector)
    (catalog : list ModelSpec) : list ModelSpec :=
  fold_left
    (fun suitable_models model =>
       if appended capability_vector model
       then suitable_models ++ [model] else suitable_models)
    catalog [].

(** The loop followed by
    [suitable_models.sort(key=lambda m: m.ram_requirement_gb, reverse=True)]. *)
Definition ranked_models (capability_vector : HardwareCapabilityVector)
    (catalog : list ModelSpec) : list ModelSpec :=
  Py.sort_desc ram_requirement_gb (suitable_models_loop capability_vector catalog).

(** [m.name] where [m] may be [None]. *)
Definition name_of (m : option ModelSpec) : Py.outcome string :=
  match m with
  | Some spec => Py.Returns (name spec)
  | None => Py.Raises (Py.AttributeError "'NoneType' object has no attribute 'name'")
  end.

(** [a.name if a else b.name] *)
Definition name_or (a b : option ModelSpec) : Py.outcome string :=
  match a with
  | Some spec => Py.Returns (name spec)
  | None => name_of b
  end.

(** [ModelManager._generate_ai_profiles] *)
Definition _generate_ai_profiles (capability_vector : HardwareCapabilityVector)
    (suitable_models : list ModelSpec) : Py.outcome Py.dict :=
  let vram := gpu_vram_gb capability_vector in
  let tiny_model :=
    Py.next_or (fun m => String.eqb (size m) "0.5B") suitable_models
      (Py.next_or (fun m => Py.contains "0.5" (size m)) suitable_models
         (hd_error suitable_models)) in
  let small_model :=
    Py.next_or (fun m => String.eqb (size m) "1.5B") suitable_models
      (Py.next_or (fun m => Py.contains "1.5" (size m)) suitable_models
         tiny_model) in
  let medium_model :=
    Py.next_or (fun m => String.eqb (size m) "7B") suitable_models
      (Py.next_or (fun m => Py.contains "7" (size m)) suitable_models
         small_model) in
  (* Profile 1: Balanced Daily Driver *)
  balanced_name <~ name_or medium_model small_model ;;
  let balanced_daily_driver := Py.PDict [
    ("name", Py.PStr "Balanced Daily Driver");
    ("description", Py.PStr "A single capable model for all tasks");
    ("recommended_model", Py.PStr balanced_name);
    ("configuration", Py.PDict [
       ("context_window", Py.PInt 4096);
       ("gpu_layers", Py.PInt (if Py.truthy_and_ge vram 4 then 20 else 0));
       ("threads", Py.PInt (cpu_cores capability_vector))])] in
  (* Profile 2: Specialist Ensemble *)
  let coder_model :=
    Py.next_or (fun m => Py.contains "Coder" (variant m)) suitable_models small_model in
  let math_model :=
    Py.next_or (fun m => Py.contains "Math" (variant m)) suitable_models small_model in
  let general_model :=
    Py.next_or (fun m => String.eqb "Qwen2.5" (variant m)) suitable_models small_model in
  coder_name <~ name_of coder_model ;;
  math_name <~ name_of math_model ;;
  general_name <~ name_of general_model ;;
  let specialist_ensemble := Py.PDict [
    ("name", Py.PStr "Specialist Ensemble");
    ("description", Py.PStr "Multiple smaller, fine-tuned models with automatic routing");
    ("recommended_models",
       Py.PList [Py.PStr coder_name; Py.PStr math_name; Py.PStr general_name]);
    ("configuration", Py.PDict [
       ("routing_rules", Py.PList [
          Py.PDict [("task", Py.PStr "coding"); ("model", Py.PStr coder_name)];
          Py.PDict [("task", Py.PStr "math"); ("model", Py.PStr math_name)];
          Py.PDict [("task", Py.PStr "general"); ("model", Py.PStr general_name)]]);
       ("context_window", Py.PInt 4096);
       ("gpu_layers", Py.PInt (if Py.truthy_and_ge vram 4 then 10 else 0))])] in
  (* Profile 3: Speed Demon *)
  speed_name <~ name_or tiny_model small_model ;;
  fallback_name <~ name_or medium_model small_model ;;
  let speed_demon := Py.PDict [
    ("name", Py.PStr "Speed Demon");
    ("description",
       Py.PStr "Tiny model for near-instant responses, with option for larger models");
    ("recommended_model", Py.PStr speed_name);
    ("configuration", Py.PDict [
       ("context_window", Py.PInt 2048);
       ("gpu_layers", Py.PInt 0);
       ("threads", Py.PInt (cpu_cores capability_vector));
       ("fallback_model", Py.PStr fallback_name)])] in
  (* Profile 4: Power User Config *)
  power_name <~
    (if Qle_bool 16 (ram_gb capability_vector) && Py.truthy_and_ge vram 4
     then name_of medium_model else name_of small_model) ;;
  let power_user_config := Py.PDict [
    ("name", Py.PStr "Power User Config");
    ("description", Py.PStr "Manual control to define everything");
    ("recommended_model", Py.PStr power_name);
    ("configuration", Py.PDict [
       ("context_window",
          Py.PInt (if Qle_bool 16 (ram_gb capability_vector) then 8192 else 4096));
       ("gpu_layers",
          Py.PInt (if Py.truthy_and_ge vram 8 then 30
                   else if Py.truthy_and_ge vram 4 then 20 else 5));
       ("threads", Py.PInt (cpu_threads capability_vector));
       ("custom_rules", Py.PList [])])] in
  Py.Returns [
    ("balanced_daily_driver", balanced_daily_driver);
    ("specialist_ensemble", specialist_ensemble);
    ("speed_demon", speed_demon);
    ("power_user_config", power_user_config)].

(** [ModelManager.get_model_recommendations] *)
Definition get_model_recommendations
    (capability_vector : HardwareCapabilityVector)
    : Py.M ModelManager Recommendations :=
  catalog <- Py.gets model_catalog ;;
  let suitable_models := ranked_models capability_vector catalog in
  match suitable_models with
  | [] =>
      Py.ret {| primary_model := None; alternative_models := []; profiles := [] |}
  | first :: _ =>
      profiles <- Py.lift (_generate_ai_profiles capability_vector suitable_models) ;;
      Py.ret {| primary_model := Some first;
                alternative_models := Py.slice_1_4 suitable_models;
                profiles := profiles |}
  end.

(** [ModelManager.add_orchestration_rule] *)
Definition add_orchestration_rule (condition action : string) (priority : Z)
    : Py.M ModelManager unit :=
  Py.modify (fun self =>
    let rule := {| condition := condition;
                   action := action;
                   priority := priority;
                   id := Z.of_nat (length (orchestration_rules self)) |} in
    {| models_dir := models_dir self;
       downloaded_models := downloaded_models self;
       active_models := active_models self;
       model_catalog := model_catalog self;
       orchestration_rules := orchestration_rules self ++ [rule] |}).

(** [ModelManager.get_model_by_name] *)
Definition get_model_by_name (name' : string) : Py.M ModelManager (option ModelSpec) :=
  catalog <- Py.gets model_catalog ;;
  Py.ret (Py.next_or (fun m => String.eqb (name m) name') catalog None).

End model_manager.

(* ===================================================================== *)
(** * model_manager.py, continued: downloads, loading, configuration *)
(* ===================================================================== *)

Module model_storage.
Import model_manager.
Import hardware_profiler(callback).

(** The model files that exist, by path. *)
Definition Disk : Type := list string.

(** [path.exists()] *)
Definition file_exists (path : string) (disk : Disk) : bool :=
  Py.str_in_list path disk.

(** [open(path, 'wb')] on a directory that accepts the file. *)
Definition create (path : string) (disk : Disk) : Disk :=
  if file_exists path disk then disk else disk ++ [path].

(** [path.unlink()] *)
Definition unlink (path : string) (disk : Disk) : Disk :=
  filter (fun p => negb (String.eqb path p)) disk.

(** The [content-length] header of a response. *)
Inductive content_length : Type :=
| Absent
| Digits (n : Z)
| Malformed.

(** What happens during one transfer from a URL into a file. *)
Record Transfer : Type := {
  status_ok : bool;              (* [requests.get] returns and
                                    [raise_for_status] passes *)
  length_header : content_length;
  file_opens : bool;             (* [open(model_path, 'wb')] succeeds *)
  chunks : list nat;             (* length of each chunk [iter_content]
                                    yields before it stops *)
  stream_completes : bool        (* the loop ends normally; [false] if the
                                    stream or a write raises after the
                                    chunks above *)
}.

(** What the network answers for each URL. *)
Definition Network : Type := string -> Transfer.

Definition set_downloaded_models (l : list ModelSpec) (self : ModelManager) : ModelManager :=
  {| models_dir := models_dir self;
     downloaded_models := l;
     active_models := active_models self;
     model_catalog := model_catalog self;
     orchestration_rules := orchestration_rules self |}.

Definition set_active_models (d : Py.dict) (self : ModelManager) : ModelManager :=
  {| models_dir := models_dir self;
     downloaded_models := downloaded_models self;
     active_models := d;
     model_catalog := model_catalog self;
     orchestration_rules := orchestration_rules self |}.

(** [ModelManager._verify_model_checksum]: the placeholder accepts every
    file. *)
Definition _verify_model_checksum (model_path expected_checksum : string) : bool :=
  true.

(** The body of the download loop for one chunk, on
    [(downloaded, caller state)]. *)
Definition receive {C} (total_size : Z) (progress_callback : option (callback C))
    (model_name : string) (st : Z * C) (chunk : nat) : Z * C :=
  let (downloaded, c) := st in
  if (chunk =? 0)%nat then st
  else
    let downloaded := (downloaded + Z.of_nat chunk)%Z in
    match progress_callback with
    | Some f =>
        if (total_size =? 0)%Z then (downloaded, c)
        else
          let progress := Z.quot (100 * downloaded) total_size in
          (downloaded, f progress ("Downloading " ++ model_name)%string c)
    | None => (downloaded, c)
    end.

(** [ModelManager.get_available_models] *)
Definition get_available_models : Py.M ModelManager (list ModelSpec) :=
  Py.gets model_catalog.

(** [ModelManager.get_downloaded_models] *)
Definition get_downloaded_models : Py.M ModelManager (list ModelSpec) :=
  Py.gets downloaded_models.

(** [ModelManager.get_active_models] *)
Definition get_active_models : Py.M ModelManager Py.dict :=
  Py.gets active_models.

(** [ModelManager.unload_model] *)
Definition unload_model (model_name : string) : Py.M ModelManager bool :=
  fun self =>
    if PyMore.dict_has model_name (active_models self) then
      (Py.Returns true,
       set_active_models (PyMore.dict_del model_name (active_models self)) self)
    else (Py.Returns false, self).

(** [ModelConfigurationWizard._suggest_context_window] *)
Definition _suggest_context_window (model_spec : ModelSpec) : Z :=
  if Py.contains "32B" (size model_spec) then 8192
  else if Py.contains "7B" (size model_spec) then 4096
  else 2048.

(** [ModelConfigurationWizard._suggest_gpu_layers] *)
Definition _suggest_gpu_layers (model_spec : ModelSpec) : Z :=
  if Py.contains "32B" (size model_spec) then 30
  else if Py.contains "7B" (size model_spec) then 20
  else 5.

(** [ModelConfigurationWizard._suggest_thread_count], given what
    [psutil.cpu_count(logical=True)] answers. *)
Definition _suggest_thread_count (cpu_count : Z) : Z :=
  if (16 <? cpu_count)%Z then 16 else cpu_count.

(** The dictionary [configure_model] builds. *)
Record ModelConfig : Type := {
  model_path : string;
  context_window : Z;
  gpu_layers : Z;
  threads : Z;
  batch_size : Z;
  n_batch : Z;
  temperature : Q;
  top_p : Q;
  repeat_penalty : Q
}.

Section Paths.

(** [str(Path(directory) / file_name)] *)
Variable joinpath : string -> string -> string.

(** The [except Exception] handler of [download_model]. *)
Definition on_exception {C} (self : ModelManager) (model_path : string)
    (disk : Disk) (c : C) : Py.outcome bool * (ModelManager * Disk * C) :=
  let disk := if file_exists model_path disk then unlink model_path disk else disk in
  (Py.Returns false, (self, disk, c)).

(** [ModelManager.download_model] *)
Definition download_model {C} (network : Network) (model_name : string)
    (progress_callback : option (callback C))
    : Py.M (ModelManager * Disk * C) bool :=
  fun st =>
    let '(self, disk, c) := st in
    match Py.next_or (fun m => String.eqb (name m) model_name)
            (model_catalog self) None with
    | None => (Py.Returns false, st)
    | Some model_spec =>
        let model_path := joinpath (models_dir self) model_name in
        if file_exists model_path disk
           && _verify_model_checksum model_path (checksum model_spec)
        then (Py.Returns true, st)
        else
          let response := network (download_url model_spec) in
          if negb (status_ok response) then on_exception self model_path disk c
          else
            match length_header response with
            | Malformed => on_exception self model_path disk c
            | header =>
                let total_size :=
                  match header with Digits n => n | _ => 0%Z end in
                if negb (file_opens response) then on_exception self model_path disk c
                else
                  let disk := create model_path disk in
                  let (downloaded, c) :=
                    fold_left (receive total_size progress_callback model_name)
                      (chunks response) (0%Z, c) in
                  if negb (stream_completes response)
                  then on_exception self model_path disk c
                  else if _verify_model_checksum model_path (checksum model_spec)
                  then
                    (Py.Returns true,
                     (set_downloaded_models (downloaded_models self ++ [model_spec]) self,
                      disk, c))
                  else (Py.Returns false, (self, unlink model_path disk, c))
            end
    end.

(** [ModelManager.load_model] *)
Definition load_model (model_name : string) (config : option Py.dict)
    : Py.M (ModelManager * Disk) bool :=
  fun st =>
    let (self, disk) := st in
    let model_path := joinpath (models_dir self) model_name in
    if negb (file_exists model_path disk) then (Py.Returns false, st)
    else
      let entry := Py.PDict [
        ("path", Py.PStr model_path);
        ("config", Py.PDict (match config with Some d => d | None => [] end));
        ("status", Py.PStr "loaded");
        ("load_time", Py.PStr "simulated")] in
      (Py.Returns true,
       (set_active_models (PyMore.dict_set model_name entry (active_models self)) self,
        disk)).

(** [ModelConfigurationWizard.configure_model]; the wizard works on the
    model manager it was given.  [cpu_count] is what
    [psutil.cpu_count(logical=True)] answers. *)
Definition configure_model (cpu_count : Z) (model_name : string)
    : PyMore.M ModelManager ModelConfig :=
  (model_spec <- PyMore.of_py (get_model_by_name model_name) ;;
   match model_spec with
   | None =>
       PyMore.raise (PyMore.ValueError ("Model " ++ model_name ++ " not found")%string)
   | Some model_spec =>
       directory <- PyMore.of_py (Py.gets models_dir) ;;
       PyMore.ret
         {| model_path := joinpath directory model_name;
            context_window := _suggest_context_window model_spec;
            gpu_layers := _suggest_gpu_layers model_spec;
            threads := _suggest_thread_count cpu_count;
            batch_size := 512;
            n_batch := 512;
            temperature := 0.7;
            top_p := 0.9;
            repeat_penalty := 1.1 |}
   end)%pymore.

End Paths.

End model_storage.


(* ===================================================================== *)
(** * nexus_core.py *)
(* ===================================================================== *)

Module nexus_core.
Import hardware_profiler(HardwareCapabilityVector, HardwareProfiler, Host, callback).
Import model_manager(ModelManager, ModelSpec, Recommendations).
Local Open Scope py_scope.

(** The attributes of a [QwenNexus].  [config_wizard] only holds a second
    reference to [model_manager] and has no state of its own. *)
Record QwenNexus : Type := {
  hardware_profiler : HardwareProfiler;
  model_manager : ModelManager;
  capability_vector : option HardwareCapabilityVector;
  initialized : bool;
  privacy_mode : bool;
  trust_store : list string;
  sandboxed_execution : bool
}.

Definition set_hardware_profiler (hp : HardwareProfiler) (self : QwenNexus) : QwenNexus :=
  {| hardware_profiler := hp;
     model_manager := model_manager self;
     capability_vector := capability_vector self;
     initialized := initialized self;
     privacy_mode := privacy_mode self;
     trust_store := trust_store self;
     sandboxed_execution := sandboxed_execution self |}.

Definition set_model_manager (mm : ModelManager) (self : QwenNexus) : QwenNexus :=
  {| hardware_profiler := hardware_profiler self;
     model_manager := mm;
     capability_vector := capability_vector self;
     initialized := initialized self;
     privacy_mode := privacy_mode self;
     trust_store := trust_store self;
     sandboxed_execution := sandboxed_execution self |}.

Definition set_capability_vector (cv : option HardwareCapabilityVector)
    (self : QwenNexus) : QwenNexus :=
  {| hardware_profiler := hardware_profiler self;
     model_manager := model_manager self;
     capability_vector := cv;
     initialized := initialized self;
     privacy_mode := privacy_mode self;
     trust_store := trust_store self;
     sandboxed_execution := sandboxed_execution self |}.

Definition set_initialized (b : bool) (self : QwenNexus) : QwenNexus :=
  {| hardware_profiler := hardware_profiler self;
     model_manager := model_manager self;
     capability_vector := capability_vector self;
     initialized := b;
     privacy_mode := privacy_mode self;
     trust_store := trust_store self;
     sandboxed_execution := sandboxed_execution self |}.

Definition set_trust_store (ts : list string) (self : QwenNexus) : QwenNexus :=
  {| hardware_profiler := hardware_profiler self;
     model_manager := model_manager self;
     capability_vector := capability_vector self;
     initialized := initialized self;
     privacy_mode := privacy_mode self;
     trust_store := ts;
     sandboxed_execution := sandboxed_execution self |}.

(** [QwenNexus.__init__] *)
Definition __init__ (models_dir : string) : QwenNexus :=
  {| hardware_profiler := hardware_profiler.__init__;
     model_manager := model_manager.__init__ models_dir;
     capability_vector := None;
     initialized := false;
     privacy_mode := true;
     trust_store := [];
     sandboxed_execution := true |}.

(** A call on [self.model_manager]. *)
Definition on_model_manager {A} (c : Py.M ModelManager A) : Py.M QwenNexus A :=
  Py.zoom model_manager set_model_manager c.

(** A method that does not use the caller's state, run next to it. *)
Definition aside {S C A} (c : Py.M S A) : Py.M (S * C) A :=
  Py.zoom fst (fun s st => (s, snd st)) c.

(** [set.add]. *)
Definition set_add (x : string) (s : list string) : list string :=
  if Py.str_in_list x s then s else s ++ [x].

(** [QwenNexus._setup_recommended_config] *)
Definition _setup_recommended_config (recommendations : Recommendations)
    : Py.M QwenNexus unit :=
  match model_manager.primary_model recommendations with
  | Some primary_model =>
      Py.modify (fun self =>
        set_trust_store (set_add (model_manager.name primary_model) (trust_store self)) self)
  | None => Py.ret tt
  end.

(** [QwenNexus._setup_default_orchestration_rules] *)
Definition _setup_default_orchestration_rules : Py.M QwenNexus unit :=
  on_model_manager
    (model_manager.add_orchestration_rule
       "user_action == 'writing_email'" "use Qwen2.5-7B" 1) ;;;
  on_model_manager
    (model_manager.add_orchestration_rule
       "user_action == 'debugging_python'" "use Qwen2.5-Coder-7B" 1) ;;;
  on_model_manager
    (model_manager.add_orchestration_rule
       "query_complexity == 'high' AND battery > 50%" "use Qwen2.5-32B" 2).

(** [QwenNexus.initialize] *)
Definition initialize {C} (host : Host) (progress_callback : option (callback C))
    : Py.M (QwenNexus * C) bool :=
  (* Step 1: Run hardware diagnostic *)
  vector <- Py.zoom (fun st => (hardware_profiler (fst st), snd st))
              (fun hc st => (set_hardware_profiler (fst hc) (fst st), snd hc))
              (hardware_profiler.run_full_diagnostic host progress_callback) ;;
  aside (Py.modify (set_capability_vector (Some vector))) ;;;
  (* Step 2: Generate model recommendations *)
  recommendations <-
    aside (on_model_manager (model_manager.get_model_recommendations vector)) ;;
  (* Step 3: Set up recommended configuration based on hardware *)
  aside (_setup_recommended_config recommendations) ;;;
  (* Step 4: Add default orchestration rules *)
  aside _setup_default_orchestration_rules ;;;
  aside (Py.modify (set_initialized true)) ;;;
  Py.ret true.

(** [QwenNexus.get_hardware_profile] *)
Definition get_hardware_profile : Py.M QwenNexus (option HardwareCapabilityVector) :=
  Py.gets capability_vector.

(** What [QwenNexus.get_model_recommendations] returns: the empty
    dictionary [{}] or the three-key dictionary of the model manager. *)
Inductive RecommendationDict : Type :=
| EmptyDict
| FullDict (r : Recommendations).

(** [QwenNexus.get_model_recommendations] *)
Definition get_model_recommendations : Py.M QwenNexus RecommendationDict :=
  cv <- Py.gets capability_vector ;;
  match cv with
  | None => Py.ret EmptyDict
  | Some capability_vector =>
      r <- on_model_manager (model_manager.get_model_recommendations capability_vector) ;;
      Py.ret (FullDict r)
  end.

(** [QwenNexus._select_model_for_task] *)
Definition _select_model_for_task (task_type : string) : Py.M QwenNexus string :=
  let t := Py.lower task_type in
  if Py.contains "code" t || Py.contains "programming" t then
    Py.ret "qwen2.5-coder-7b-q6_k.gguf"
  else if Py.contains "math" t || Py.contains "calculate" t then
    Py.ret "qwen2.5-math-7b-q6_k.gguf"
  else if Py.contains "image" t || Py.contains "vision" t then
    Py.ret "qwen2.5-vl-2b-q4_k_m.gguf"
  else
    Py.ret "qwen2.5-7b-q6_k.gguf".

(** [QwenNexus._simulate_ai_response] *)
Definition _simulate_ai_response (task_type query : string) (context : option Py.dict)
    : Py.M QwenNexus string :=
  Py.ret ("Simulated response for " ++ task_type ++ " task: "
            ++ String.substring 0 50 query ++ "...")%string.

(** [QwenNexus.execute_task] *)
Definition execute_task (task_type query : string) (context : option Py.dict)
    : Py.M QwenNexus string :=
  ready <- Py.gets initialized ;;
  if negb ready then
    Py.raise (Py.RuntimeError "QwenNexus not initialized. Call initialize() first.")
  else
    model_name <- _select_model_for_task task_type ;;
    response <- _simulate_ai_response task_type query context ;;
    Py.ret response.

(** [QwenNexus.add_custom_orchestration_rule] *)
Definition add_custom_orchestration_rule (condition action : string) (priority : Z)
    : Py.M QwenNexus unit :=
  on_model_manager (model_manager.add_orchestration_rule condition action priority).

(** A sequence of [add_custom_orchestration_rule] calls. *)
Fixpoint add_custom_orchestration_rules (rules : list (string * string * Z))
    : Py.M QwenNexus unit :=
  match rules with
  | [] => Py.ret tt
  | (condition, action, priority) :: rules' =>
      add_custom_orchestration_rule condition action priority ;;;
      add_custom_orchestration_rules rules'
  end.

End nexus_core.

(* ===================================================================== *)
(** * nexus_core.py, continued: downloads and status *)
(* ===================================================================== *)

Module nexus_more.
Import nexus_core.
Import model_storage(Disk, Network).

(** The dictionary [get_system_status] returns; ['capability_vector'] holds
    the fields of the vector, or [None]. *)
Record SystemStatus : Type := {
  status_initialized : bool;
  status_privacy_mode : bool;
  status_sandboxed_execution : bool;
  status_capability_vector : option hardware_profiler.HardwareCapabilityVector;
  downloaded_models_count : Z;
  active_models_count : Z;
  orchestration_rules_count : Z;
  trust_store_size : Z
}.

(** [QwenNexus.get_system_status] *)
Definition get_system_status : Py.M QwenNexus SystemStatus :=
  (self <- Py.get ;;
   downloaded <- on_model_manager model_storage.get_downloaded_models ;;
   active <- on_model_manager model_storage.get_active_models ;;
   Py.ret
     {| status_initialized := initialized self;
        status_privacy_mode := privacy_mode self;
        status_sandboxed_execution := sandboxed_execution self;
        status_capability_vector := capability_vector self;
        downloaded_models_count := Z.of_nat (length downloaded);
        active_models_count := Z.of_nat (length active);
        orchestration_rules_count :=
          Z.of_nat (length (model_manager.orchestration_rules (model_manager self)));
        trust_store_size := Z.of_nat (length (trust_store self)) |})%py.

Section Paths.

(** [str(Path(directory) / file_name)] *)
Variable joinpath : string -> string -> string.

(** [self.model_manager.download_model(model_name)] for a value taken from
    a profile: catalog names are strings, so a value of another type is not
    found in the catalog. *)
Definition download_value (network : Network) (model_name : Py.pyval)
    : Py.M (QwenNexus * Disk) bool :=
  match model_name with
  | Py.PStr model_name =>
      Py.zoom
        (fun st : QwenNexus * Disk => (model_manager (fst st), snd st, tt))
        (fun t st => (set_model_manager (fst (fst t)) (fst st), snd (fst t)))
        (model_storage.download_model joinpath network model_name None)
  | _ => Py.ret false
  end.

(** The loop over [profile['recommended_models']]. *)
Fixpoint download_each (network : Network) (model_names : list Py.pyval)
    (success : bool) : Py.M (QwenNexus * Disk) bool :=
  match model_names with
  | [] => Py.ret success
  | model_name :: rest =>
      (ok <- download_value network model_name ;;
       download_each network rest (if ok then success else false))%py
  end.

(** [QwenNexus.download_recommended_models] *)
Definition download_recommended_models (network : Network) (profile_name : string)
    : PyMore.M (QwenNexus * Disk) bool :=
  (recommendations <- PyMore.of_py (aside get_model_recommendations) ;;
   let profile :=
     match recommendations with
     | EmptyDict => None
     | FullDict r => Py.dict_get profile_name (model_manager.profiles r)
     end in
   match profile with
   | None => PyMore.ret false
   | Some profile =>
       if negb (PyMore.truthy profile) then PyMore.ret false
       else
         single <- PyMore.lift (PyMore.contains "recommended_model" profile) ;;
         if single then
           model_name <- PyMore.lift (PyMore.subscript profile "recommended_model") ;;
           PyMore.of_py (download_value network model_name)
         else
           several <- PyMore.lift (PyMore.contains "recommended_models" profile) ;;
           if several then
             value <- PyMore.lift (PyMore.subscript profile "recommended_models") ;;
             model_names <- PyMore.lift (PyMore.iterate value) ;;
             PyMore.of_py (download_each network model_names true)
           else PyMore.ret false
   end)%pymore.

End Paths.

(** The default of the [profile_name] argument. *)
Definition default_profile_name : string := "balanced_daily_driver".

End nexus_more.

(* ===================================================================== *)
(** * The design document's formulas, for comparison with the code *)
(* ===================================================================== *)

Module design.

(** [clip(x, lo, hi)] *)
Definition clip (x lo hi : Q) : Q := Qmin hi (Qmax lo x).

(** The weighted benchmark formula as the design document writes it. *)
Definition overall_score (latency_ms mem_mb parallel_s : Q) : Q :=
  clip (0.4 * clip (100 - latency_ms / 10) 0 100
        + 0.3 * clip (100 - mem_mb / 10) 0 100
        + 0.3 * clip (100 - parallel_s * 1000) 0 100) 0 100.

(** The suitability condition as the design document writes it. *)
Definition suitable (V : hardware_profiler.HardwareCapabilityVector)
    (D : model_manager.ModelSpec) : Prop :=
  model_manager.ram_requirement_gb D <= hardware_profiler.ram_gb V /\
  (~ In (model_manager.size D) ["7B"; "32B"] \/
   exists vram, hardware_profiler.gpu_vram_gb V = Some vram /\
                model_manager.ram_requirement_gb D * 0.7 <= vram).

End design.


(* ===================================================================== *)
(** * Scenarios used below *)
(* ===================================================================== *)

Module scenario.
Import hardware_profiler model_manager.

(** The capability vector [{ram_gb: 16, gpu_vram_gb: 4, cpu_cores: 8}];
    the remaining fields are left to the caller. *)
Definition vector_16_4_8 (arch : string) (threads : Z) (speed : Q)
    (gpu : option string) (tier thermal : string) (instr : option (list string))
    : HardwareCapabilityVector :=
  {| architecture := arch; cpu_cores := 8; cpu_threads := threads;
     cpu_speed := speed; ram_gb := 16; gpu_name := gpu;
     gpu_vram_gb := Some 4%Q; storage_tier := tier;
     thermal_profile := thermal; special_instructions := instr |}.

(** The third catalog entry, the 7B/Q6_K general model. *)
Definition qwen_7b_q6_k : ModelSpec :=
  {| name := "qwen2.5-7b-q6_k.gguf";
     family := "Qwen2.5"; size := "7B"; variant := "Qwen2.5";
     quantization := "Q6_K";
     disk_size_gb := 5.2; ram_requirement_gb := 6.5;
     recommended_hardware := "16GB+ RAM, 4GB+ VRAM recommended";
     description := "Balanced general purpose model";
     download_url := "https://huggingface.co/Qwen/Qwen2.5-7B-Instruct-GGUF/resolve/main/qwen2.5-7b-instruct-q6_k.gguf";
     checksum := "checksum_placeholder_7b_q6" |}.

(** A vector with less RAM than any catalog entry needs. *)
Definition vector_tiny_ram : HardwareCapabilityVector :=
  {| architecture := "armv7l"; cpu_cores := 1; cpu_threads := 1;
     cpu_speed := 0.9; ram_gb := 0.25; gpu_name := None;
     gpu_vram_gb := None; storage_tier := "Slow";
     thermal_profile := "Unknown"; special_instructions := None |}.

(** A Linux host without any temperature source. *)
Definition host_without_sensor : Host :=
  {| machine := "x86_64"; system := "Linux"; flags := ["avx"; "avx2"];
     physical_cores := 8; logical_cores := 16; cpu_freq_max := 3500;
     memory_total_gb := 16; gpus := [("GPU", 4%Q)];
     rotational := Some "0"; write_time := None;
     initial_reading := None;
     tick_readings := repeat None 20;
     test_elapsed := 20; latency_time := 0.1;
     memory_start := 52428800; memory_end := 41943040;
     parallel_time := 0.05 |}.

(** The same host with a sensor that starts at 40 degrees and peaks at 50. *)
Definition host_warming_10 : Host :=
  {| machine := "x86_64"; system := "Linux"; flags := ["avx"; "avx2"];
     physical_cores := 8; logical_cores := 16; cpu_freq_max := 3500;
     memory_total_gb := 16; gpus := [("GPU", 4%Q)];
     rotational := Some "0"; write_time := None;
     initial_reading := Some 40%Q;
     tick_readings := [Some 42%Q; None; Some 50%Q; Some 47%Q];
     test_elapsed := 20; latency_time := 0.1;
     memory_start := 52428800; memory_end := 41943040;
     parallel_time := 0.05 |}.

(** A progress callback that appends what it receives to a log. *)
Definition recorder : callback (list (Z * string)) :=
  fun percent message log => log ++ [(percent, message)].

(** What the progress callback has done to the caller's state when the
    diagnostic is over. *)
Definition after_callbacks {C} (progress_callback : option (callback C))
    (c : C) : C :=
  match progress_callback with
  | Some f =>
      f 90%Z "Benchmarking complete"
        (f 60%Z "Thermal characterization complete"
           (f 30%Z "Hardware census complete" c))
  | None => c
  end.

(** The percent values the recorder receives during a diagnostic run on
    [host_warming_10], started with an empty log. *)
Definition percents_received : list Z :=
  map fst (snd (snd (run_full_diagnostic host_warming_10 (Some recorder)
                       (hardware_profiler.__init__, [])))).

(** A freshly constructed session and a desktop-class vector. *)
Definition fresh_session : nexus_core.QwenNexus :=
  nexus_core.__init__ "/workspace/models".

Definition vector_desktop : HardwareCapabilityVector :=
  vector_16_4_8 "x86_64" 16 3.5 (Some "GPU") "Fast" "Good" None.

End scenario.

(* ===================================================================== *)
(** * Observations used to state the further properties *)
(* ===================================================================== *)

Module observe.
Import hardware_profiler model_manager.

(** The models a recommendation names: the primary model, then the
    alternatives. *)
Definition recommended (r : Recommendations) : list ModelSpec :=
  match primary_model r with
  | Some p => p :: alternative_models r
  | None => alternative_models r
  end.

(** The strings stored at a path of a profiles dictionary: one for a
    string, the string elements for a list. *)
Definition names_at (path : list string) (profiles : Py.dict) : list string :=
  match Py.path_get path (Py.PDict profiles) with
  | Some (Py.PStr s) => [s]
  | Some (Py.PList l) =>
      flat_map (fun v => match v with Py.PStr s => [s] | _ => [] end) l
  | _ => []
  end.

(** The ['model'] entries of the routing rules of the ensemble profile. *)
Definition routed_models (profiles : Py.dict) : list string :=
  match Py.path_get ["specialist_ensemble"; "configuration"; "routing_rules"]
          (Py.PDict profiles) with
  | Some (Py.PList rules) =>
      flat_map (fun rule =>
                  match Py.path_get ["model"] rule with
                  | Some (Py.PStr s) => [s]
                  | _ => []
                  end) rules
  | _ => []
  end.

(** Every model name a profiles dictionary mentions. *)
Definition mentioned_models (profiles : Py.dict) : list string :=
  names_at ["balanced_daily_driver"; "recommended_model"] profiles
  ++ names_at ["specialist_ensemble"; "recommended_models"] profiles
  ++ routed_models profiles
  ++ names_at ["speed_demon"; "recommended_model"] profiles
  ++ names_at ["speed_demon"; "configuration"; "fallback_model"] profiles
  ++ names_at ["power_user_config"; "recommended_model"] profiles.

(** The readings the polling loop records: those that are available and
    not [0.0]. *)
Definition recorded (readings : list (option Q)) : list Q :=
  flat_map (fun r =>
              match r with
              | Some t => if Qeq_bool t 0 then [] else [t]
              | None => []
              end) readings.

(** A host with other clock and memory measurements during the thermal
    test and the benchmark. *)
Definition with_measurements (elapsed latency parallel : Q) (rss_before rss_after : Z)
    (host : Host) : Host :=
  {| machine := machine host;
     system := system host;
     flags := flags host;
     physical_cores := physical_cores host;
     logical_cores := logical_cores host;
     cpu_freq_max := cpu_freq_max host;
     memory_total_gb := memory_total_gb host;
     gpus := gpus host;
     rotational := rotational host;
     write_time := write_time host;
     initial_reading := initial_reading host;
     tick_readings := tick_readings host;
     test_elapsed := elapsed;
     latency_time := latency;
     memory_start := rss_before;
     memory_end := rss_after;
     parallel_time := parallel |}.

(** The capability vector a diagnostic run on a host assembles. *)
Definition assembled (host : Host) : HardwareCapabilityVector :=
  _create_capability_vector (_hardware_census host)
    (_thermal_characterization host) (_baseline_ai_benchmarking host).

(** The three default rules of [_setup_default_orchestration_rules], for a
    rule list that has [n] entries already. *)
Definition default_rules (n : nat) : list Rule :=
  [{| condition := "user_action == 'writing_email'";
      action := "use Qwen2.5-7B"; priority := 1; id := Z.of_nat n |};
   {| condition := "user_action == 'debugging_python'";
      action := "use Qwen2.5-Coder-7B"; priority := 1; id := Z.of_nat (n + 1) |};
   {| condition := "query_complexity == 'high' AND battery > 50%";
      action := "use Qwen2.5-32B"; priority := 2; id := Z.of_nat (n + 2) |}].

(** The rules a sequence of [add_custom_orchestration_rule] calls appends to
    a rule list that has [n] entries already. *)
Fixpoint custom_rules (n : nat) (calls : list (string * string * Z)) : list Rule :=
  match calls with
  | [] => []
  | (c, a, p) :: calls' =>
      {| condition := c; action := a; priority := p; id := Z.of_nat n |}
      :: custom_rules (S n) calls'
  end.

(** A transfer gets as far as writing and finishing the file. *)
Definition transfer_succeeds (t : model_storage.Transfer) : bool :=
  model_storage.status_ok t
  && match model_storage.length_header t with model_storage.Malformed => false | _ => true end
  && model_storage.file_opens t && model_storage.stream_completes t.

(** The value of [total_size] for a header. *)
Definition total_size_of (h : model_storage.content_length) : Z :=
  match h with model_storage.Digits n => n | _ => 0%Z end.

(** A callback that records the percent values it receives. *)
Definition percent_log : callback (list Z) :=
  fun percent _ log => log ++ [percent].

End observe.

Module scenario_more.
Import hardware_profiler model_manager model_storage.

(** A workstation with plenty of RAM and no GPU. *)
Definition vector_no_gpu : HardwareCapabilityVector :=
  {| architecture := "x86_64"; cpu_cores := 16; cpu_threads := 32;
     cpu_speed := 3.0; ram_gb := 64; gpu_name := None;
     gpu_vram_gb := None; storage_tier := "Fast";
     thermal_profile := "Good"; special_instructions := Some ["AVX"; "AVX2"] |}.

(** The same workstation with 8 GB of RAM. *)
Definition vector_no_gpu_8 : HardwareCapabilityVector :=
  {| architecture := "x86_64"; cpu_cores := 16; cpu_threads := 32;
     cpu_speed := 3.0; ram_gb := 8; gpu_name := None;
     gpu_vram_gb := None; storage_tier := "Fast";
     thermal_profile := "Good"; special_instructions := Some ["AVX"; "AVX2"] |}.

(** The 2B vision model and the 1.5B general model of the catalog. *)
Definition qwen_vl_2b : ModelSpec :=
  {| name := "qwen2.5-vl-2b-q4_k_m.gguf";
     family := "Qwen2.5-VL"; size := "2B"; variant := "Qwen2.5-VL";
     quantization := "Q4_K_M";
     disk_size_gb := 1.5; ram_requirement_gb := 2.0;
     recommended_hardware := "8GB+ RAM, 4GB+ VRAM recommended";
     description := "Vision-language model for image analysis";
     download_url := "https://huggingface.co/Qwen/Qwen2.5-VL-2B-Instruct-GGUF/resolve/main/qwen2.5-vl-2b-instruct-q4_k_m.gguf";
     checksum := "checksum_placeholder_vl_2b_q4" |}.

Definition qwen_1_5b : ModelSpec :=
  {| name := "qwen2.5-1.5b-q4_k_m.gguf";
     family := "Qwen2.5"; size := "1.5B"; variant := "Qwen2.5";
     quantization := "Q4_K_M";
     disk_size_gb := 0.9; ram_requirement_gb := 1.2;
     recommended_hardware := "8GB+ RAM";
     description := "General purpose model with good capabilities";
     download_url := "https://huggingface.co/Qwen/Qwen2.5-1.5B-Instruct-GGUF/resolve/main/qwen2.5-1.5b-instruct-q4_k_m.gguf";
     checksum := "checksum_placeholder_1.5b_q4" |}.

(** A host whose sensor is not readable at the start and reads 45 and 47
    degrees during the load test. *)
Definition host_late_sensor : Host :=
  {| machine := "x86_64"; system := "Linux"; flags := ["avx"; "avx2"];
     physical_cores := 8; logical_cores := 16; cpu_freq_max := 3500;
     memory_total_gb := 16; gpus := [];
     rotational := Some "0"; write_time := None;
     initial_reading := None;
     tick_readings := [None; Some 45%Q; Some 47%Q];
     test_elapsed := 20; latency_time := 0.1;
     memory_start := 41943040; memory_end := 52428800;
     parallel_time := 0.05 |}.

(** Path joining on a POSIX system, for a plain file name. *)
Definition posix_join (directory file_name : string) : string :=
  (directory ++ "/" ++ file_name)%string.

(** A transfer of 300 bytes in three chunks that completes. *)
Definition transfer_complete : Transfer :=
  {| status_ok := true; length_header := Digits 300; file_opens := true;
     chunks := [100; 0; 100; 100]%nat; stream_completes := true |}.

(** A transfer that breaks off after the first chunk. *)
Definition transfer_broken : Transfer :=
  {| status_ok := true; length_header := Digits 300; file_opens := true;
     chunks := [100]%nat; stream_completes := false |}.

Definition network_up : Network := fun _ => transfer_complete.
Definition network_flaky : Network := fun _ => transfer_broken.

(** A model manager for the directory ["/workspace/models"]. *)
Definition manager : ModelManager := model_manager.__init__ "/workspace/models".


(** A disk that already holds the 1.5B general model. *)
Definition disk_with_1_5b : Disk :=
  ["/workspace/models/qwen2.5-1.5b-q4_k_m.gguf"].

End scenario_more.

(* ===================================================================== *)
(** * Facts about the prelude *)
(* ===================================================================== *)

Section PreludeFacts.

Lemma Qlt_bool_iff (x y : Q) : Py.Qlt_bool x y = true <-> x < y.
Proof.
  unfold Py.Qlt_bool. rewrite negb_true_iff.
  split.
  - intros H. apply Qnot_le_lt. intros Hle.
    apply Qle_bool_iff in Hle. congruence.
  - intros H. destruct (Qle_bool y x) eqn:E; [|reflexivity].
    apply Qle_bool_iff in E. exfalso. exact (Qlt_not_le _ _ H E).
Qed.

Lemma Qlt_bool_false_iff (x y : Q) : Py.Qlt_bool x y = false <-> y <= x.
Proof.
  unfold Py.Qlt_bool. rewrite negb_false_iff. apply Qle_bool_iff.
Qed.

Lemma Qle_bool_false_iff (x y : Q) : Qle_bool x y = false <-> y < x.
Proof.
  rewrite <- Qlt_bool_iff. unfold Py.Qlt_bool.
  destruct (Qle_bool x y); simpl; intuition congruence.
Qed.

Lemma py_max_spec (a b : Q) : Py.max a b == Qmax a b.
Proof.
  unfold Py.max. destruct (Py.Qlt_bool a b) eqn:E.
  - apply Qlt_bool_iff in E. symmetry. apply Q.max_r. apply Qlt_le_weak, E.
  - apply Qlt_bool_false_iff in E. symmetry. apply Q.max_l, E.
Qed.

Lemma py_min_spec (a b : Q) : Py.min a b == Qmin a b.
Proof.
  unfold Py.min. destruct (Py.Qlt_bool b a) eqn:E.
  - apply Qlt_bool_iff in E. symmetry. apply Q.min_r. apply Qlt_le_weak, E.
  - apply Qlt_bool_false_iff in E. symmetry. apply Q.min_l, E.
Qed.

Lemma str_in_list_In (x : string) (l : list string) :
  Py.str_in_list x l = true <-> In x l.
Proof.
  unfold Py.str_in_list. rewrite existsb_exists. split.
  - intros [y [Hy He]]. apply String.eqb_eq in He. subst. exact Hy.
  - intros H. exists x. split; [exact H | apply String.eqb_refl].
Qed.

Lemma filter_none {A} (p : A -> bool) (l : list A) :
  (forall z, In z l -> p z = false) -> filter p l = [].
Proof.
  induction l as [|a l IH]; intros H; simpl; [reflexivity|].
  rewrite (H a (or_introl eq_refl)). apply IH.
  intros z Hz. apply H. right. exact Hz.
Qed.

Lemma next_or_default_some {A} (p : A -> bool) (l : list A) (d : A) :
  exists x, Py.next_or p l (Some d) = Some x.
Proof.
  unfold Py.next_or. destruct (find p l) as [x|]; eauto.
Qed.

End PreludeFacts.

(** ** The sort: a stable descending rearrangement *)

Section SortFacts.
Context {A : Type} (key : A -> Q).

Lemma insert_desc_perm (x : A) (l : list A) :
  Permutation (x :: l) (Py.insert_desc key x l).
Proof.
  induction l as [|y l IH]; simpl.
  - apply Permutation_refl.
  - destruct (Qle_bool (key x) (key y)).
    + eapply perm_trans; [apply perm_swap | apply perm_skip, IH].
    + apply Permutation_refl.
Qed.

Lemma fold_insert_perm (l acc : list A) :
  Permutation (acc ++ l)
    (fold_left (fun acc x => Py.insert_desc key x acc) l acc).
Proof.
  revert acc. induction l as [|x l IH]; intros acc; simpl.
  - rewrite app_nil_r. apply Permutation_refl.
  - eapply perm_trans; [| apply IH].
    eapply perm_trans; [apply Permutation_sym, Permutation_middle |].
    exact (Permutation_app_tail l (insert_desc_perm x acc)).
Qed.

Lemma sort_desc_perm (l : list A) : Permutation l (Py.sort_desc key l).
Proof. exact (fold_insert_perm l []). Qed.

Lemma sort_desc_In (l : list A) (x : A) : In x (Py.sort_desc key l) <-> In x l.
Proof.
  split; apply Permutation_in;
    [apply Permutation_sym |]; apply sort_desc_perm.
Qed.

Lemma sort_desc_nil (l : list A) : Py.sort_desc key l = [] <-> l = [].
Proof.
  split; intros H.
  - apply Permutation_nil. rewrite <- H. apply Permutation_sym, sort_desc_perm.
  - subst. reflexivity.
Qed.

Lemma insert_desc_sorted (x : A) (l : list A) :
  StronglySorted (Py.desc key) l -> StronglySorted (Py.desc key) (Py.insert_desc key x l).
Proof.
  induction 1 as [|y l Hs IH Hall]; simpl.
  - constructor; constructor.
  - destruct (Qle_bool (key x) (key y)) eqn:E.
    + constructor; [exact IH|].
      apply Qle_bool_iff in E.
      eapply Permutation_Forall; [apply insert_desc_perm|].
      constructor; assumption.
    + apply Qle_bool_false_iff in E.
      constructor; [constructor; assumption|].
      constructor.
      * unfold Py.desc. apply Qlt_le_weak, E.
      * eapply Forall_impl; [|exact Hall].
        intros z Hz. unfold Py.desc in *.
        eapply Qle_trans; [exact Hz | apply Qlt_le_weak, E].
Qed.

Lemma fold_insert_sorted (l acc : list A) :
  StronglySorted (Py.desc key) acc ->
  StronglySorted (Py.desc key) (fold_left (fun acc x => Py.insert_desc key x acc) l acc).
Proof.
  revert acc. induction l as [|x l IH]; intros acc H; simpl.
  - exact H.
  - apply IH, insert_desc_sorted, H.
Qed.

Lemma sort_desc_sorted (l : list A) : StronglySorted (Py.desc key) (Py.sort_desc key l).
Proof. apply fold_insert_sorted. constructor. Qed.

(** Stability: the elements sharing a given key keep their order. *)
Lemma insert_desc_filter (k : Q) (x : A) (l : list A) :
  StronglySorted (Py.desc key) l ->
  filter (fun a => Qeq_bool (key a) k) (Py.insert_desc key x l)
  = filter (fun a => Qeq_bool (key a) k) l
    ++ (if Qeq_bool (key x) k then [x] else []).
Proof.
  induction 1 as [|y l Hs IH Hall]; simpl.
  - destruct (Qeq_bool (key x) k); reflexivity.
  - destruct (Qle_bool (key x) (key y)) eqn:E; simpl.
    + rewrite IH. destruct (Qeq_bool (key y) k); reflexivity.
    + apply Qle_bool_false_iff in E.
      destruct (Qeq_bool (key x) k) eqn:Ex.
      * apply Qeq_bool_iff in Ex.
        assert (Hy : Qeq_bool (key y) k = false).
        { destruct (Qeq_bool (key y) k) eqn:Ey; [|reflexivity].
          apply Qeq_bool_iff in Ey. rewrite Ex, Ey in E.
          exfalso. exact (Qlt_irrefl _ E). }
        rewrite Hy.
        assert (Hl : filter (fun a => Qeq_bool (key a) k) l = []).
        { apply filter_none. intros z Hz.
          rewrite Forall_forall in Hall. specialize (Hall z Hz).
          unfold Py.desc in Hall.
          destruct (Qeq_bool (key z) k) eqn:Ez; [|reflexivity].
          apply Qeq_bool_iff in Ez. rewrite Ez in Hall. rewrite Ex in E.
          exfalso. exact (Qlt_not_le _ _ E Hall). }
        rewrite Hl. reflexivity.
      * rewrite app_nil_r. reflexivity.
Qed.

Lemma fold_insert_filter (k : Q) (l acc : list A) :
  StronglySorted (Py.desc key) acc ->
  filter (fun a => Qeq_bool (key a) k)
    (fold_left (fun acc x => Py.insert_desc key x acc) l acc)
  = filter (fun a => Qeq_bool (key a) k) acc
    ++ filter (fun a => Qeq_bool (key a) k) l.
Proof.
  revert acc. induction l as [|x l IH]; intros acc H; simpl.
  - rewrite app_nil_r. reflexivity.
  - rewrite IH by (apply insert_desc_sorted, H).
    rewrite insert_desc_filter by exact H.
    rewrite <- app_assoc. f_equal.
    destruct (Qeq_bool (key x) k); reflexivity.
Qed.

Lemma sort_desc_stable (k : Q) (l : list A) :
  filter (fun a => Qeq_bool (key a) k) (Py.sort_desc key l)
  = filter (fun a => Qeq_bool (key a) k) l.
Proof. apply (fold_insert_filter k l []). constructor. Qed.

End SortFacts.

(* ===================================================================== *)
(** * Facts about the recommendation engine *)
(* ===================================================================== *)

Section RecommendationFacts.
Import hardware_profiler model_manager.

Lemma size_in_7B_32B_In (D : ModelSpec) :
  size_in_7B_32B D = true <-> In (size D) ["7B"; "32B"].
Proof. apply str_in_list_In. Qed.

(** The filtering loop is a [filter]. *)
Lemma fold_append_filter (V : HardwareCapabilityVector) (catalog acc : list ModelSpec) :
  fold_left
    (fun suitable_models model =>
       if appended V model then suitable_models ++ [model] else suitable_models)
    catalog acc
  = acc ++ filter (appended V) catalog.
Proof.
  revert acc. induction catalog as [|D catalog IH]; intros acc; simpl.
  - rewrite app_nil_r. reflexivity.
  - rewrite IH. destruct (appended V D); [|reflexivity].
    rewrite <- app_assoc. reflexivity.
Qed.

Lemma suitable_models_loop_filter (V : HardwareCapabilityVector) (catalog : list ModelSpec) :
  suitable_models_loop V catalog = filter (appended V) catalog.
Proof. apply (fold_append_filter V catalog []). Qed.

Lemma suitable_models_loop_In V catalog D :
  In D (suitable_models_loop V catalog) <-> In D catalog /\ appended V D = true.
Proof. rewrite suitable_models_loop_filter. apply filter_In. Qed.

Lemma ranked_models_In V catalog D :
  In D (ranked_models V catalog) <-> In D catalog /\ appended V D = true.
Proof.
  unfold ranked_models. rewrite sort_desc_In. apply suitable_models_loop_In.
Qed.

Lemma ranked_models_nil V catalog :
  ranked_models V catalog = [] <-> (forall D, In D catalog -> appended V D = false).
Proof.
  unfold ranked_models. rewrite sort_desc_nil, suitable_models_loop_filter.
  split.
  - intros H D HD. destruct (appended V D) eqn:E; [|reflexivity].
    assert (Hin : In D (filter (appended V) catalog)) by (apply filter_In; auto).
    rewrite H in Hin. destruct Hin.
  - apply filter_none.
Qed.

(** The ranked list is in descending order of RAM requirement, and entries
    with the same requirement stay in catalog order. *)
Lemma ranked_models_sorted V catalog :
  StronglySorted (Py.desc ram_requirement_gb) (ranked_models V catalog).
Proof. apply sort_desc_sorted. Qed.

Lemma ranked_models_stable V catalog (k : Q) :
  filter (fun m => Qeq_bool (ram_requirement_gb m) k) (ranked_models V catalog)
  = filter (fun m => Qeq_bool (ram_requirement_gb m) k) (filter (appended V) catalog).
Proof.
  unfold ranked_models. rewrite sort_desc_stable, suitable_models_loop_filter.
  reflexivity.
Qed.

(** Less RAM than a descriptor needs: the loop skips it. *)
Lemma appended_needs_ram V D :
  ram_gb V < ram_requirement_gb D -> appended V D = false.
Proof.
  intros H. unfold appended.
  apply Qle_bool_false_iff in H. rewrite H. reflexivity.
Qed.

(** The loop condition against the design document's condition, for a
    descriptor with a positive RAM requirement. *)
Lemma appended_iff_design V D :
  0 < ram_requirement_gb D ->
  (appended V D = true <-> design.suitable V D).
Proof.
  intros Hpos. unfold appended, design.suitable.
  destruct (Qle_bool (ram_requirement_gb D) (ram_gb V)) eqn:Eram.
  2:{ split; [discriminate|]. intros [Hle _].
      apply Qle_bool_iff in Hle. congruence. }
  apply Qle_bool_iff in Eram.
  destruct (size_in_7B_32B D) eqn:Esize.
  - (* a 7B or 32B descriptor *)
    assert (Hin : In (size D) ["7B"; "32B"]) by (apply size_in_7B_32B_In, Esize).
    rewrite andb_true_r. simpl negb. cbv iota.
    destruct (gpu_vram_gb V) as [vram|] eqn:Evram; simpl Py.truthy.
    + destruct (Qeq_bool vram 0) eqn:Ezero; simpl negb; cbv iota.
      * (* VRAM reported as 0.0: falsy in the loop, too small in the document *)
        apply Qeq_bool_iff in Ezero.
        split; [discriminate|].
        intros [_ [Hnot | [v [Hv Hle]]]]; [contradiction|].
        injection Hv as <-. rewrite Ezero in Hle.
        exfalso. apply (Qlt_not_le _ _ Hpos).
        apply Qmult_le_r with (z := 0.7); [reflexivity|].
        rewrite Qmult_0_l. exact Hle.
      * rewrite Qle_bool_iff. split.
        -- intros Hle. split; [exact Eram|]. right. exists vram. auto.
        -- intros [_ [Hnot | [v [Hv Hle]]]]; [contradiction|].
           injection Hv as <-. exact Hle.
    + split; [discriminate|].
      intros [_ [Hnot | [v [Hv _]]]]; [contradiction | discriminate].
  - (* any other size class *)
    rewrite andb_false_r. simpl.
    split; [|reflexivity]. intros _. split; [exact Eram|]. left.
    intros Hin. apply size_in_7B_32B_In in Hin. congruence.
Qed.

Lemma catalog_ram_positive :
  Forall (fun D => 0 < ram_requirement_gb D) _initialize_model_catalog.
Proof. repeat constructor. Qed.

(** Profile generation returns whenever it is given a non-empty list. *)
Lemma _generate_ai_profiles_returns V (first : ModelSpec) (rest : list ModelSpec) :
  exists profiles, _generate_ai_profiles V (first :: rest) = Py.Returns profiles.
Proof.
  unfold _generate_ai_profiles. cbv zeta.
  change (hd_error (first :: rest)) with (Some first).
  set (l := first :: rest).
  destruct (next_or_default_some (fun m => Py.contains "0.5" (size m)) l first)
    as [t0 ->].
  destruct (next_or_default_some (fun m => String.eqb (size m) "0.5B") l t0)
    as [tiny ->].
  destruct (next_or_default_some (fun m => Py.contains "1.5" (size m)) l tiny)
    as [s0 ->].
  destruct (next_or_default_some (fun m => String.eqb (size m) "1.5B") l s0)
    as [small ->].
  destruct (next_or_default_some (fun m => Py.contains "7" (size m)) l small)
    as [m0 ->].
  destruct (next_or_default_some (fun m => String.eqb (size m) "7B") l m0)
    as [medium ->].
  destruct (next_or_default_some (fun m => Py.contains "Coder" (variant m)) l small)
    as [coder ->].
  destruct (next_or_default_some (fun m => Py.contains "Math" (variant m)) l small)
    as [math ->].
  destruct (next_or_default_some (fun m => String.eqb "Qwen2.5" (variant m)) l small)
    as [general ->].
  simpl name_or. simpl name_of. simpl Py.obind.
  destruct (Qle_bool 16 (ram_gb V) && Py.truthy_and_ge (gpu_vram_gb V) 4);
    simpl Py.obind; eexists; reflexivity.
Qed.

(** [get_model_recommendations] always returns and never changes the
    manager. *)
Lemma get_model_recommendations_returns V (self : ModelManager) :
  exists r, get_model_recommendations V self = (Py.Returns r, self).
Proof.
  unfold get_model_recommendations, Py.bind, Py.gets, Py.lift, Py.ret.
  destruct (ranked_models V (model_catalog self)) as [|first rest] eqn:E.
  - eexists; reflexivity.
  - destruct (_generate_ai_profiles_returns V first rest) as [p ->].
    eexists; reflexivity.
Qed.

Lemma get_model_recommendations_state V (self : ModelManager) :
  snd (get_model_recommendations V self) = self.
Proof.
  destruct (get_model_recommendations_returns V self) as [r ->]. reflexivity.
Qed.

(** Adding rules never touches the catalog. *)
Lemma add_orchestration_rule_catalog c a p (self : ModelManager) :
  model_catalog (snd (add_orchestration_rule c a p self)) = model_catalog self.
Proof. reflexivity. Qed.

End RecommendationFacts.

Section RecommendationClaims.
Import hardware_profiler model_manager.

(** The result depends on the manager only through its catalog. *)
Lemma get_model_recommendations_catalog V (self self' : ModelManager) :
  model_catalog self = model_catalog self' ->
  fst (get_model_recommendations V self) = fst (get_model_recommendations V self').
Proof.
  intros H.
  unfold get_model_recommendations, Py.bind, Py.gets, Py.lift, Py.ret.
  rewrite H.
  destruct (ranked_models V (model_catalog self')) as [|first rest]; [reflexivity|].
  destruct (_generate_ai_profiles V (first :: rest)); reflexivity.
Qed.

(** The primary model has the largest RAM requirement of all descriptors
    that pass the filter. *)
Lemma primary_model_is_largest V (self : ModelManager) r p D :
  get_model_recommendations V self = (Py.Returns r, self) ->
  primary_model r = Some p ->
  In D (model_catalog self) -> appended V D = true ->
  ram_requirement_gb D <= ram_requirement_gb p.
Proof.
  unfold get_model_recommendations, Py.bind, Py.gets, Py.lift, Py.ret.
  intros Hrun Hp HD Happ.
  assert (Hin : In D (ranked_models V (model_catalog self)))
    by (apply ranked_models_In; auto).
  pose proof (ranked_models_sorted V (model_catalog self)) as Hs.
  destruct (ranked_models V (model_catalog self)) as [|first rest]; [destruct Hin|].
  destruct (_generate_ai_profiles V (first :: rest)); [|discriminate].
  injection Hrun as <-. simpl in Hp. injection Hp as <-.
  destruct Hin as [<- | Hin]; [apply Qle_refl|].
  apply StronglySorted_inv in Hs. destruct Hs as [_ Hall].
  rewrite Forall_forall in Hall. exact (Hall D Hin).
Qed.

(** C1 (the code departs from the claim).  For the capability vector with
    [ram_gb = 16], [gpu_vram_gb = 4], [cpu_cores = 8] and the built-in
    catalog, [get_model_recommendations] returns the 2B vision descriptor
    [qwen2.5-vl-2b-q4_k_m.gguf] as primary model, not the 7B/Q6_K one:
    [6.5 * 0.7 = 4.55 > 4] removes every 7B descriptor in the filter.  The
    'Balanced Daily Driver' profile does have [gpu_layers = 20], and it
    recommends the 1.5B general model.  The textual recommendation of
    [HardwareProfiler.get_recommendations] names the 7B/Q6_K model for the
    same vector. *)
Theorem scenario_16_4_8_primary_is_not_7b
    (dir arch : string) (threads : Z) (speed : Q) (gpu : option string)
    (tier thermal : string) (instr : option (list string)) :
  let V := scenario.vector_16_4_8 arch threads speed gpu tier thermal instr in
  exists r balanced,
    get_model_recommendations V (model_manager.__init__ dir)
      = (Py.Returns r, model_manager.__init__ dir) /\
    option_map name (primary_model r) = Some "qwen2.5-vl-2b-q4_k_m.gguf" /\
    option_map name (primary_model r) <> Some "qwen2.5-7b-q6_k.gguf" /\
    map name (alternative_models r)
      = ["qwen2.5-1.5b-q4_k_m.gguf"; "qwen2.5-coder-1.5b-q4_k_m.gguf";
         "qwen2.5-math-1.5b-q4_k_m.gguf"] /\
    Py.dict_get "balanced_daily_driver" (profiles r) = Some balanced /\
    Py.path_get ["name"] balanced = Some (Py.PStr "Balanced Daily Driver") /\
    Py.path_get ["configuration"; "gpu_layers"] balanced = Some (Py.PInt 20) /\
    Py.path_get ["recommended_model"] balanced
      = Some (Py.PStr "qwen2.5-1.5b-q4_k_m.gguf") /\
    appended V scenario.qwen_7b_q6_k = false /\
    text_primary_model (get_recommendations V) = "Qwen2.5-7B (Q6_K)".
Proof.
  intros V. subst V.
  eexists. eexists.
  split; [lazy; reflexivity|].
  repeat split; try reflexivity.
  discriminate.
Qed.

(** C2.  For every capability vector [V] and every descriptor [D] of the
    built-in catalog, [D] is in the suitable list that
    [get_model_recommendations] builds (before and after ranking) if and
    only if [D.ram_requirement_gb <= V.ram_gb] and, when [D] is of size
    class 7B or 32B, [V.gpu_vram_gb] is present with
    [D.ram_requirement_gb * 0.7 <= V.gpu_vram_gb]. *)
Theorem catalog_suitable_iff (V : HardwareCapabilityVector) (D : ModelSpec) :
  In D _initialize_model_catalog ->
  (In D (suitable_models_loop V _initialize_model_catalog) <-> design.suitable V D) /\
  (In D (ranked_models V _initialize_model_catalog) <-> design.suitable V D).
Proof.
  intros HD.
  assert (Hpos : 0 < ram_requirement_gb D).
  { pose proof catalog_ram_positive as H. rewrite Forall_forall in H. auto. }
  rewrite ranked_models_In, suitable_models_loop_In.
  rewrite (appended_iff_design V D Hpos). tauto.
Qed.

Lemma catalog_suitable_iff_witness :
  In scenario.qwen_7b_q6_k _initialize_model_catalog /\
  (In scenario.qwen_7b_q6_k
      (ranked_models scenario.vector_desktop _initialize_model_catalog)
   <-> design.suitable scenario.vector_desktop scenario.qwen_7b_q6_k).
Proof.
  assert (H : In scenario.qwen_7b_q6_k _initialize_model_catalog)
    by (right; right; left; reflexivity).
  split;
    [exact H | exact (proj2 (catalog_suitable_iff scenario.vector_desktop _ H))].
Defined.

(** C8.  Whenever no catalog descriptor is suitable -- in particular
    whenever [ram_gb] is below every [ram_requirement_gb] of the catalog,
    which for the built-in catalog means below 0.5 --
    [get_model_recommendations] returns normally with an absent primary
    model, no alternatives and an empty profiles map, and leaves the
    manager as it was. *)
Theorem no_suitable_model_gives_empty_result
    (V : HardwareCapabilityVector) (self : ModelManager) :
  let nothing :=
    {| primary_model := None; alternative_models := []; profiles := [] |} in
  (suitable_models_loop V (model_catalog self) = [] ->
   get_model_recommendations V self = (Py.Returns nothing, self)) /\
  ((forall D, In D (model_catalog self) -> ram_gb V < ram_requirement_gb D) ->
   get_model_recommendations V self = (Py.Returns nothing, self)) /\
  (model_catalog self = _initialize_model_catalog -> ram_gb V < 0.5 ->
   get_model_recommendations V self = (Py.Returns nothing, self)).
Proof.
  intros nothing.
  assert (Hempty : ranked_models V (model_catalog self) = [] ->
                   get_model_recommendations V self = (Py.Returns nothing, self)).
  { intros H. unfold get_model_recommendations, Py.bind, Py.gets.
    rewrite H. reflexivity. }
  assert (Hram : (forall D, In D (model_catalog self) ->
                            ram_gb V < ram_requirement_gb D) ->
                 get_model_recommendations V self = (Py.Returns nothing, self)).
  { intros H. apply Hempty, ranked_models_nil.
    intros D HD. apply appended_needs_ram, H, HD. }
  split; [|split].
  - intros H. apply Hempty. unfold ranked_models. rewrite H. reflexivity.
  - exact Hram.
  - intros Hcat Hlt. apply Hram. rewrite Hcat.
    intros D HD.
    eapply Qlt_le_trans; [exact Hlt|].
    revert D HD. apply Forall_forall.
    repeat constructor; discriminate.
Qed.

Lemma no_suitable_model_gives_empty_result_witness :
  get_model_recommendations scenario.vector_tiny_ram
    (model_manager.__init__ "/workspace/models")
  = (Py.Returns {| primary_model := None; alternative_models := []; profiles := [] |},
     model_manager.__init__ "/workspace/models").
Proof.
  apply (proj2 (proj2 (no_suitable_model_gives_empty_result
                         scenario.vector_tiny_ram
                         (model_manager.__init__ "/workspace/models")))).
  - reflexivity.
  - reflexivity.
Defined.

(** C10.  Calling [get_model_recommendations] twice in a row with the same
    capability vector returns both times, with the same primary model,
    alternatives and profiles, and the manager (catalog included) is the
    same before, between and after the calls. *)
Theorem get_model_recommendations_idempotent
    (V : HardwareCapabilityVector) (self : ModelManager) :
  let first_call := get_model_recommendations V self in
  let second_call := get_model_recommendations V (snd first_call) in
  fst second_call = fst first_call /\
  snd first_call = self /\
  snd second_call = self /\
  exists r, fst first_call = Py.Returns r.
Proof.
  intros first_call second_call. subst first_call second_call.
  destruct (get_model_recommendations_returns V self) as [r Hr].
  rewrite Hr. simpl. rewrite Hr. simpl. eauto.
Qed.

End RecommendationClaims.

(* ===================================================================== *)
(** * Facts about the diagnostic pipeline *)
(* ===================================================================== *)

Section DiagnosticFacts.
Import hardware_profiler.

(** ** Thermal characterization *)

Lemma classify_thermal_excellent (d : Q) :
  d < 10 -> classify_thermal d = "Excellent".
Proof.
  intros H. unfold classify_thermal.
  apply Qlt_bool_iff in H. rewrite H. reflexivity.
Qed.

Lemma classify_thermal_good (d : Q) :
  10 <= d -> d < 20 -> classify_thermal d = "Good".
Proof.
  intros H1 H2. unfold classify_thermal.
  apply Qlt_bool_false_iff in H1. apply Qlt_bool_iff in H2.
  rewrite H1, H2. reflexivity.
Qed.

Lemma classify_thermal_balanced (d : Q) :
  20 <= d -> d < 30 -> classify_thermal d = "Balanced".
Proof.
  intros H1 H2. unfold classify_thermal.
  assert (H0 : 10 <= d) by (eapply Qle_trans; [|exact H1]; discriminate).
  apply Qlt_bool_false_iff in H0, H1. apply Qlt_bool_iff in H2.
  rewrite H0, H1, H2. reflexivity.
Qed.

Lemma classify_thermal_limited (d : Q) :
  30 <= d -> classify_thermal d = "Limited".
Proof.
  intros H2. unfold classify_thermal.
  assert (H1 : 20 <= d) by (eapply Qle_trans; [|exact H2]; discriminate).
  assert (H0 : 10 <= d) by (eapply Qle_trans; [|exact H1]; discriminate).
  apply Qlt_bool_false_iff in H0, H1, H2.
  rewrite H0, H1, H2. reflexivity.
Qed.

(** The classification never answers ["Unknown"]. *)
Lemma classify_thermal_known (d : Q) : classify_thermal d <> "Unknown".
Proof.
  unfold classify_thermal.
  destruct (Py.Qlt_bool d 10); [discriminate|].
  destruct (Py.Qlt_bool d 20); [discriminate|].
  destruct (Py.Qlt_bool d 30); discriminate.
Qed.

(** The stage reports the classification of the delta it reports. *)
Lemma thermal_profile_of_delta (host : Host) :
  thermal_data_profile (_thermal_characterization host)
  = classify_thermal (temp_delta (_thermal_characterization host)).
Proof.
  unfold _thermal_characterization.
  destruct (fold_left poll (tick_readings host)
              (Py.or_zero (initial_reading host), [])).
  reflexivity.
Qed.

(** Polling without any reading changes nothing. *)
Lemma poll_unavailable (ticks : list (option Q)) (st : Q * list Q) :
  Forall (fun r => r = None) ticks -> fold_left poll ticks st = st.
Proof.
  intros H. revert st. induction H as [|r ticks Hr _ IH]; intros st; simpl.
  - reflexivity.
  - subst r. rewrite <- (IH st) at 2. f_equal. destruct st; reflexivity.
Qed.

(** The running maximum dominates the start value and every recorded
    reading. *)
Lemma poll_invariant (ticks : list (option Q)) (m : Q) (rs : list Q) :
  Forall (fun r => r <= m) rs ->
  let st := fold_left poll ticks (m, rs) in
  m <= fst st /\ Forall (fun r => r <= fst st) (snd st).
Proof.
  revert m rs. induction ticks as [|t ticks IH]; intros m rs Hrs; simpl.
  - split; [apply Qle_refl | exact Hrs].
  - destruct t as [t|]; [|apply IH, Hrs].
    destruct (Qeq_bool t 0) eqn:Ez; simpl; [apply IH, Hrs|].
    destruct (Py.Qlt_bool m t) eqn:Elt.
    + apply Qlt_bool_iff in Elt.
      destruct (IH t (rs ++ [t])) as [H1 H2].
      { apply Forall_app. split.
        - eapply Forall_impl; [|exact Hrs]. intros r Hr.
          eapply Qle_trans; [exact Hr | apply Qlt_le_weak, Elt].
        - repeat constructor. apply Qle_refl. }
      split; [|exact H2].
      eapply Qle_trans; [apply Qlt_le_weak, Elt | exact H1].
    + apply Qlt_bool_false_iff in Elt.
      apply IH. apply Forall_app. split; [exact Hrs|].
      repeat constructor. exact Elt.
Qed.

Lemma max_temp_dominates_readings (host : Host) :
  let t := _thermal_characterization host in
  Forall (fun r => r <= max_temp t) (temp_readings t) /\ 0 <= temp_delta t.
Proof.
  unfold _thermal_characterization.
  pose proof (poll_invariant (tick_readings host)
                (Py.or_zero (initial_reading host)) [] (Forall_nil _)) as H.
  destruct (fold_left poll (tick_readings host)
              (Py.or_zero (initial_reading host), [])) as [m rs].
  simpl in *. destruct H as [H1 H2]. split; [exact H2|].
  apply (Qplus_le_l _ _ (Py.or_zero (initial_reading host))).
  ring_simplify. exact H1.
Qed.

(** ** Benchmark score *)

Lemma py_max_cases (a b : Q) :
  (a < b /\ Py.max a b = b) \/ (b <= a /\ Py.max a b = a).
Proof.
  unfold Py.max. destruct (Py.Qlt_bool a b) eqn:E.
  - left. split; [apply Qlt_bool_iff, E | reflexivity].
  - right. split; [apply Qlt_bool_false_iff, E | reflexivity].
Qed.

Lemma py_min_cases (a b : Q) :
  (b < a /\ Py.min a b = b) \/ (a <= b /\ Py.min a b = a).
Proof.
  unfold Py.min. destruct (Py.Qlt_bool b a) eqn:E.
  - left. split; [apply Qlt_bool_iff, E | reflexivity].
  - right. split; [apply Qlt_bool_false_iff, E | reflexivity].
Qed.

Lemma py_max_ge_l (a b : Q) : a <= Py.max a b.
Proof.
  destruct (py_max_cases a b) as [[H ->] | [H ->]];
    [apply Qlt_le_weak, H | apply Qle_refl].
Qed.

(** The final clamp: the score is in [[0, 100]] whatever the inputs. *)
Lemma overall_score_in_range (latency memory_pressure parallel_time : Q) :
  0 <= _calculate_overall_score latency memory_pressure parallel_time <= 100.
Proof.
  unfold _calculate_overall_score. cbv zeta.
  set (s := Py.max 0 _ * 0.4 + Py.max 0 _ * 0.3 + Py.max 0 _ * 0.3).
  pose proof (py_max_ge_l 0 s) as Hmax.
  destruct (py_min_cases 100 (Py.max 0 s)) as [[H ->] | [H ->]].
  - split; [exact Hmax | apply Qlt_le_weak, H].
  - split; [discriminate | apply Qle_refl].
Qed.

Lemma clip_spec (x : Q) : design.clip x 0 100 == Py.min 100 (Py.max 0 x).
Proof.
  unfold design.clip. rewrite py_min_spec.
  apply Q.min_compat; [reflexivity|]. symmetry. apply py_max_spec.
Qed.

#[local] Instance clip_proper :
  Proper (Qeq ==> Qeq ==> Qeq ==> Qeq) design.clip.
Proof.
  intros x x' Hx lo lo' Hlo hi hi' Hhi. unfold design.clip.
  apply Q.min_compat; [exact Hhi|]. apply Q.max_compat; assumption.
Qed.

(** A component score that is at most 100 needs no upper clamp. *)
Lemma clip_below_100 (x : Q) : x <= 100 -> design.clip x 0 100 == Py.max 0 x.
Proof.
  intros H. rewrite clip_spec.
  assert (Hm : Py.max 0 x <= 100).
  { destruct (py_max_cases 0 x) as [[_ ->] | [_ ->]]; [exact H | discriminate]. }
  destruct (py_min_cases 100 (Py.max 0 x)) as [[_ ->] | [H1 ->]].
  - reflexivity.
  - apply Qle_antisym; assumption.
Qed.

(** On non-negative measurements the code computes the design document's
    formula. *)
Lemma overall_score_matches_design (latency memory_pressure parallel_time : Q) :
  0 <= latency -> 0 <= memory_pressure -> 0 <= parallel_time ->
  _calculate_overall_score latency memory_pressure parallel_time
  == design.overall_score latency memory_pressure parallel_time.
Proof.
  intros Hl Hm Hp.
  unfold _calculate_overall_score, design.overall_score. cbv zeta.
  assert (Ha : 100 - latency / 10 <= 100).
  { setoid_replace (latency / 10) with (latency * (1 # 10))
      by (unfold Qdiv; reflexivity). lra. }
  assert (Hb : 100 - memory_pressure / 10 <= 100).
  { setoid_replace (memory_pressure / 10) with (memory_pressure * (1 # 10))
      by (unfold Qdiv; reflexivity). lra. }
  assert (Hc : 100 - parallel_time * 1000 <= 100) by lra.
  rewrite (clip_below_100 _ Ha), (clip_below_100 _ Hb), (clip_below_100 _ Hc).
  rewrite clip_spec.
  set (a := Py.max 0 (100 - latency / 10)).
  set (b := Py.max 0 (100 - memory_pressure / 10)).
  set (c := Py.max 0 (100 - parallel_time * 1000)).
  assert (E : a * 0.4 + b * 0.3 + c * 0.3 == 0.4 * a + 0.3 * b + 0.3 * c) by lra.
  rewrite !py_min_spec, !py_max_spec.
  apply Q.min_compat; [reflexivity|].
  apply Q.max_compat; [reflexivity | exact E].
Qed.

End DiagnosticFacts.

Section DiagnosticClaims.
Import hardware_profiler.

Lemma classify_thermal_compat (d d' : Q) :
  d == d' -> classify_thermal d = classify_thermal d'.
Proof.
  intros H. unfold classify_thermal, Py.Qlt_bool.
  assert (E : forall c, Qle_bool c d = Qle_bool c d')
    by (intros c; rewrite H; reflexivity).
  rewrite !E. reflexivity.
Qed.

(** C3 (the code departs from the claim).  When the initial read and every
    read of the polling loop find no temperature source, the stage still
    returns, with 0 as maximum temperature, 0 as the initial value in the
    delta and a delta of 0 -- and it classifies that delta like any other:
    the reported thermal profile is ["Excellent"], not ["Unknown"], and
    this is the value that reaches the capability vector. *)
Theorem thermal_without_sensor_is_excellent (host : Host) :
  initial_reading host = None ->
  Forall (fun r => r = None) (tick_readings host) ->
  let t := _thermal_characterization host in
  initial_temp t = None /\
  Py.or_zero (initial_temp t) = 0 /\
  max_temp t = 0 /\
  temp_delta t == 0 /\
  temp_readings t = [] /\
  thermal_data_profile t = "Excellent" /\
  thermal_data_profile t <> "Unknown" /\
  thermal_profile
    (_create_capability_vector (_hardware_census host) t
       (_baseline_ai_benchmarking host)) = "Excellent".
Proof.
  intros Hinit Hticks t. subst t.
  unfold _thermal_characterization.
  rewrite (poll_unavailable _ _ Hticks), Hinit. simpl.
  repeat split; try reflexivity. discriminate.
Qed.

Lemma thermal_without_sensor_is_excellent_witness :
  thermal_data_profile (_thermal_characterization scenario.host_without_sensor)
  = "Excellent".
Proof.
  apply (thermal_without_sensor_is_excellent scenario.host_without_sensor).
  - reflexivity.
  - repeat constructor.
Defined.

(** C5 (the code departs from the claim).  The component scores are only
    clamped from below, so a negative measurement pushes a component above
    100.  With a latency of 100 ms, a resident-set change of -10 MB and a
    parallel time of 0.05 s the code returns 81.3 where the formula of the
    design document gives 81; a benchmark run observing these measurements
    reports that score.  (The score is in [[0, 100]] for all inputs, and
    equals the formula on non-negative inputs: [overall_score_in_range],
    [overall_score_matches_design].) *)
Theorem overall_score_negative_memory_pressure :
  _calculate_overall_score 100 (-10) 0.05 == 81.3 /\
  design.overall_score 100 (-10) 0.05 == 81 /\
  ~ _calculate_overall_score 100 (-10) 0.05 == design.overall_score 100 (-10) 0.05 /\
  memory_pressure_mb (_baseline_ai_benchmarking scenario.host_without_sensor) == -10 /\
  overall_score (_baseline_ai_benchmarking scenario.host_without_sensor) == 81.3.
Proof.
  repeat split; vm_compute; try reflexivity; discriminate.
Qed.

(** C6.  The thermal profile the stage reports is a function of the delta
    it reports, with the boundaries: below 10 Excellent, from 10 to below
    20 Good, from 20 to below 30 Balanced, from 30 on Limited; so 9 is
    Excellent, 10 Good, 29 Balanced and 30 Limited. *)
Theorem thermal_profile_boundaries (host : Host) :
  let t := _thermal_characterization host in
  (temp_delta t < 10 -> thermal_data_profile t = "Excellent") /\
  (10 <= temp_delta t -> temp_delta t < 20 -> thermal_data_profile t = "Good") /\
  (20 <= temp_delta t -> temp_delta t < 30 -> thermal_data_profile t = "Balanced") /\
  (30 <= temp_delta t -> thermal_data_profile t = "Limited") /\
  (forall host',
     temp_delta (_thermal_characterization host') == temp_delta t ->
     thermal_data_profile (_thermal_characterization host') = thermal_data_profile t) /\
  thermal_data_profile t = classify_thermal (temp_delta t) /\
  classify_thermal 9 = "Excellent" /\
  classify_thermal 10 = "Good" /\
  classify_thermal 29 = "Balanced" /\
  classify_thermal 30 = "Limited".
Proof.
  intros t. subst t. rewrite thermal_profile_of_delta.
  split; [apply classify_thermal_excellent|].
  split; [apply classify_thermal_good|].
  split; [apply classify_thermal_balanced|].
  split; [apply classify_thermal_limited|].
  split.
  - intros host' H. rewrite thermal_profile_of_delta.
    apply classify_thermal_compat, H.
  - repeat split; reflexivity.
Qed.

Lemma thermal_profile_boundaries_witness :
  temp_delta (_thermal_characterization scenario.host_warming_10) == 10 /\
  thermal_data_profile (_thermal_characterization scenario.host_warming_10) = "Good".
Proof.
  split; [reflexivity|].
  apply (proj1 (proj2 (thermal_profile_boundaries scenario.host_warming_10)));
    vm_compute; [discriminate | reflexivity].
Defined.

(** What a diagnostic run does with a callback: one call after each stage,
    with 30, 60 and 90. *)
Lemma run_full_diagnostic_with_callback {C} (host : Host) (f : callback C)
    (self : HardwareProfiler) (c : C) :
  let vector :=
    _create_capability_vector (_hardware_census host)
      (_thermal_characterization host) (_baseline_ai_benchmarking host) in
  run_full_diagnostic host (Some f) (self, c)
  = (Py.Returns vector,
     ({| capability_vector := Some vector; profiles := profiles self |},
      f 90%Z "Benchmarking complete"
        (f 60%Z "Thermal characterization complete"
           (f 30%Z "Hardware census complete" c)))).
Proof. reflexivity. Qed.

Lemma run_full_diagnostic_without_callback {C} (host : Host)
    (self : HardwareProfiler) (c : C) :
  snd (snd (run_full_diagnostic host None (self, c))) = c.
Proof. reflexivity. Qed.

(** C7 (as amended).  A diagnostic run with a progress callback returns,
    and calls the callback exactly three times, once after each stage,
    with the percent values 30, 60, 90 in this order; 0 and 100 are not
    among them. *)
Theorem progress_checkpoints_30_60_90 (host : Host) (self : HardwareProfiler)
    (log : list (Z * string)) :
  let run := run_full_diagnostic host (Some scenario.recorder) (self, log) in
  (exists vector, fst run = Py.Returns vector) /\
  snd (snd run)
  = log ++ [(30%Z, "Hardware census complete");
            (60%Z, "Thermal characterization complete");
            (90%Z, "Benchmarking complete")] /\
  map fst (snd (snd run)) = map fst log ++ [30; 60; 90]%Z.
Proof.
  intros run. subst run. rewrite run_full_diagnostic_with_callback.
  unfold scenario.recorder. simpl.
  split; [eexists; reflexivity|].
  rewrite <- !app_assoc. simpl. split; [reflexivity|].
  rewrite map_app. reflexivity.
Qed.

(** C7 as stated fails: on a concrete run the percent values received are
    [[30; 60; 90]], which is not the sequence [[0; 30; 60; 90; 100]]. *)
Lemma progress_checkpoints_counterexample :
  scenario.percents_received = [30; 60; 90]%Z /\
  scenario.percents_received <> [0; 30; 60; 90; 100]%Z /\
  ~ In 0%Z scenario.percents_received /\
  ~ In 100%Z scenario.percents_received.
Proof.
  vm_compute. repeat split; try discriminate; intuition discriminate.
Qed.

End DiagnosticClaims.

(* ===================================================================== *)
(** * Facts about the session object *)
(* ===================================================================== *)

Section NexusFacts.
Import nexus_core.

Lemma set_model_manager_same (self : QwenNexus) :
  set_model_manager (model_manager self) self = self.
Proof. destruct self; reflexivity. Qed.

(** [QwenNexus.get_model_recommendations] returns on every session state
    and leaves it as it was. *)
Lemma nexus_get_model_recommendations_returns (self : QwenNexus) :
  exists d, get_model_recommendations self = (Py.Returns d, self).
Proof.
  unfold get_model_recommendations, Py.bind, Py.gets, Py.ret,
    on_model_manager, Py.zoom.
  destruct (capability_vector self) as [cv|]; [|eexists; reflexivity].
  destruct (get_model_recommendations_returns cv (model_manager self)) as [r ->].
  rewrite set_model_manager_same. eexists; reflexivity.
Qed.

(** With a capability vector the answer is the model manager's. *)
Lemma nexus_get_model_recommendations_full (self : QwenNexus) cv :
  capability_vector self = Some cv ->
  exists r,
    model_manager.get_model_recommendations cv (model_manager self)
      = (Py.Returns r, model_manager self) /\
    get_model_recommendations self = (Py.Returns (FullDict r), self).
Proof.
  intros H.
  unfold get_model_recommendations, Py.bind, Py.gets, Py.ret,
    on_model_manager, Py.zoom.
  rewrite H.
  destruct (get_model_recommendations_returns cv (model_manager self)) as [r Hr].
  exists r. rewrite Hr, set_model_manager_same. auto.
Qed.

(** Adding rules changes the rule list of the model manager and nothing
    else. *)
Lemma add_custom_orchestration_rules_frame rules (self : QwenNexus) :
  let self' := snd (add_custom_orchestration_rules rules self) in
  fst (add_custom_orchestration_rules rules self) = Py.Returns tt /\
  hardware_profiler self' = hardware_profiler self /\
  capability_vector self' = capability_vector self /\
  initialized self' = initialized self /\
  trust_store self' = trust_store self /\
  model_manager.model_catalog (model_manager self')
    = model_manager.model_catalog (model_manager self) /\
  length (model_manager.orchestration_rules (model_manager self'))
    = (length (model_manager.orchestration_rules (model_manager self))
       + length rules)%nat.
Proof.
  revert self. induction rules as [|[[c a] p] rules IH]; intros self; simpl.
  - repeat split. lia.
  - unfold Py.bind. simpl.
    specialize (IH (set_model_manager
                      (snd (model_manager.add_orchestration_rule c a p
                              (model_manager self))) self)).
    simpl in IH.
    destruct (add_custom_orchestration_rules rules _) as [o s'].
    simpl in *. destruct IH as (-> & -> & -> & -> & -> & -> & ->).
    repeat split. rewrite length_app. simpl. lia.
Qed.

(** Task execution before initialization raises. *)
Lemma execute_task_requires_initialization task_type query context (self : QwenNexus) :
  initialized self = false ->
  execute_task task_type query context self
  = (Py.Raises (Py.RuntimeError "QwenNexus not initialized. Call initialize() first."),
     self).
Proof.
  intros H. unfold execute_task, Py.bind, Py.gets. rewrite H. reflexivity.
Qed.

Lemma _select_model_for_task_returns task_type (self : QwenNexus) :
  exists model_name,
    _select_model_for_task task_type self = (Py.Returns model_name, self) /\
    In model_name ["qwen2.5-coder-7b-q6_k.gguf"; "qwen2.5-math-7b-q6_k.gguf";
                   "qwen2.5-vl-2b-q4_k_m.gguf"; "qwen2.5-7b-q6_k.gguf"].
Proof.
  unfold _select_model_for_task.
  destruct (_ || _); [eexists; split; [reflexivity | simpl; tauto]|].
  destruct (_ || _); [eexists; split; [reflexivity | simpl; tauto]|].
  destruct (_ || _); eexists; (split; [reflexivity | simpl; tauto]).
Qed.

(** The keyword match is on substrings of the lowered task type: ["coding"]
    does not contain ["code"] and goes to the general model. *)
Example select_code_review :
  fst (_select_model_for_task "Code Review" scenario.fresh_session)
  = Py.Returns "qwen2.5-coder-7b-q6_k.gguf".
Proof. reflexivity. Qed.

Example select_math :
  fst (_select_model_for_task "math" scenario.fresh_session)
  = Py.Returns "qwen2.5-math-7b-q6_k.gguf".
Proof. reflexivity. Qed.

Example select_vision :
  fst (_select_model_for_task "Image captioning" scenario.fresh_session)
  = Py.Returns "qwen2.5-vl-2b-q4_k_m.gguf".
Proof. reflexivity. Qed.

Example select_coding :
  fst (_select_model_for_task "coding" scenario.fresh_session)
  = Py.Returns "qwen2.5-7b-q6_k.gguf".
Proof. reflexivity. Qed.

End NexusFacts.

Section NexusClaims.
Import nexus_core.

(** C4 (as amended).  On a session without a capability vector (the
    diagnostic has not run), [QwenNexus.get_model_recommendations] returns
    the empty dictionary without raising and without consulting the model
    manager, and leaves the session unchanged. *)
Theorem recommendations_before_diagnostic_are_empty (self : QwenNexus) :
  capability_vector self = None ->
  get_model_recommendations self = (Py.Returns EmptyDict, self).
Proof.
  intros H. unfold get_model_recommendations, Py.bind, Py.gets.
  rewrite H. reflexivity.
Qed.

Lemma recommendations_before_diagnostic_are_empty_witness :
  get_model_recommendations scenario.fresh_session
  = (Py.Returns EmptyDict, scenario.fresh_session).
Proof.
  apply (recommendations_before_diagnostic_are_empty scenario.fresh_session).
  reflexivity.
Defined.

(** C4 as stated fails: on a freshly constructed session the call does not
    raise; it returns the empty dictionary. *)
Lemma recommendations_before_diagnostic_counterexample :
  capability_vector scenario.fresh_session = None /\
  initialized scenario.fresh_session = false /\
  fst (get_model_recommendations scenario.fresh_session) = Py.Returns EmptyDict /\
  ~ exists e, fst (get_model_recommendations scenario.fresh_session) = Py.Raises e.
Proof.
  repeat split. intros [e He]. vm_compute in He. discriminate.
Qed.

(** C9.  The selected model depends on [task_type] only: any two session
    states give the same selection, in particular the states before and
    after any sequence of [add_custom_orchestration_rule] calls, and the
    selection step leaves the session as it was. *)
Theorem task_selection_ignores_rules (task_type : string) :
  (forall self1 self2 : QwenNexus,
     fst (_select_model_for_task task_type self1)
     = fst (_select_model_for_task task_type self2)) /\
  (forall (rules : list (string * string * Z)) (self : QwenNexus),
     fst (_select_model_for_task task_type
            (snd (add_custom_orchestration_rules rules self)))
     = fst (_select_model_for_task task_type self)) /\
  (forall self : QwenNexus, snd (_select_model_for_task task_type self) = self) /\
  (forall self : QwenNexus, exists model_name,
     fst (_select_model_for_task task_type self) = Py.Returns model_name).
Proof.
  assert (H : forall self1 self2 : QwenNexus,
            fst (_select_model_for_task task_type self1)
            = fst (_select_model_for_task task_type self2)).
  { intros self1 self2.
    destruct (_select_model_for_task_returns task_type self1) as [m1 [E1 _]].
    destruct (_select_model_for_task_returns task_type self2) as [m2 [E2 _]].
    revert E1 E2. unfold _select_model_for_task.
    destruct (_ || _); [intros; cbn in *; congruence|].
    destruct (_ || _); [intros; cbn in *; congruence|].
    destruct (_ || _); intros; cbn in *; congruence. }
  split; [exact H|].
  split; [intros rules self; apply H|].
  split; intros self;
    destruct (_select_model_for_task_returns task_type self) as [m [E _]];
    rewrite E; simpl; eauto.
Qed.

(** The same for a whole task execution on an initialized session. *)
Lemma execute_task_ignores_rules task_type query context rules (self : QwenNexus) :
  fst (execute_task task_type query context
         (snd (add_custom_orchestration_rules rules self)))
  = fst (execute_task task_type query context self).
Proof.
  destruct (add_custom_orchestration_rules_frame rules self)
    as (_ & _ & _ & Hinit & _).
  unfold execute_task, Py.bind, Py.gets. rewrite Hinit.
  destruct (initialized self); simpl; [|reflexivity].
  destruct (_select_model_for_task_returns task_type self) as [m [-> _]].
  destruct (_select_model_for_task_returns task_type
              (snd (add_custom_orchestration_rules rules self))) as [m' [-> _]].
  reflexivity.
Qed.

End NexusClaims.

Section InitializationFacts.
Import nexus_core.

Lemma run_full_diagnostic_returns {C} (host : hardware_profiler.Host)
    (progress_callback : option (hardware_profiler.callback C))
    (self : hardware_profiler.HardwareProfiler) (c : C) :
  let vector :=
    hardware_profiler._create_capability_vector
      (hardware_profiler._hardware_census host)
      (hardware_profiler._thermal_characterization host)
      (hardware_profiler._baseline_ai_benchmarking host) in
  hardware_profiler.run_full_diagnostic host progress_callback (self, c)
  = (Py.Returns vector,
     ({| hardware_profiler.capability_vector := Some vector;
         hardware_profiler.profiles := hardware_profiler.profiles self |},
      scenario.after_callbacks progress_callback c)).
Proof. destruct progress_callback; reflexivity. Qed.

(** Initialization returns on every host, leaves the session initialized
    with the assembled capability vector and three default rules more,
    and passes the progress callback through to the diagnostic. *)
Lemma initialize_returns {C} (host : hardware_profiler.Host)
    (progress_callback : option (hardware_profiler.callback C))
    (self : QwenNexus) (c : C) :
  let vector :=
    hardware_profiler._create_capability_vector
      (hardware_profiler._hardware_census host)
      (hardware_profiler._thermal_characterization host)
      (hardware_profiler._baseline_ai_benchmarking host) in
  exists self',
    initialize host progress_callback (self, c)
      = (Py.Returns true, (self', scenario.after_callbacks progress_callback c)) /\
    initialized self' = true /\
    capability_vector self' = Some vector /\
    length (model_manager.orchestration_rules (model_manager self'))
      = (length (model_manager.orchestration_rules (model_manager self)) + 3)%nat.
Proof.
  intros vector.
  unfold initialize, Py.bind, Py.zoom at 1.
  cbn [fst snd].
  rewrite run_full_diagnostic_returns. fold vector. cbn [fst snd].
  unfold aside, Py.zoom, on_model_manager, Py.modify, Py.ret. cbn [fst snd].
  unfold Py.zoom.
  cbn [model_manager set_capability_vector set_hardware_profiler fst snd].
  destruct (get_model_recommendations_returns vector (model_manager self))
    as [r ->].
  unfold _setup_recommended_config.
  destruct (model_manager.primary_model r) as [p|];
    (eexists; split; [reflexivity|]);
    cbn; repeat split; rewrite !length_app; simpl; lia.
Qed.

End InitializationFacts.

Section AfterInitialization.
Import nexus_core.

(** Once [initialize] has run, the session answers with the model
    manager's recommendations for the assembled vector. *)
Lemma recommendations_after_initialize {C} (host : hardware_profiler.Host)
    (progress_callback : option (hardware_profiler.callback C))
    (self : QwenNexus) (c : C) :
  let self' := fst (snd (initialize host progress_callback (self, c))) in
  exists r, get_model_recommendations self' = (Py.Returns (FullDict r), self').
Proof.
  intros self'. subst self'.
  destruct (initialize_returns host progress_callback self c)
    as (self' & -> & _ & Hcv & _).
  cbn [fst snd].
  destruct (nexus_get_model_recommendations_full self' _ Hcv) as (r & _ & Hr).
  eauto.
Qed.

End AfterInitialization.

(* ===================================================================== *)
(** * Further properties of the recommendation engine *)
(* ===================================================================== *)

Section RecommendationMore.
Import hardware_profiler model_manager.

Lemma next_or_pick {A} (p : A -> bool) (l : list A) (d : A) :
  In d l -> exists x, Py.next_or p l (Some d) = Some x /\ In x l.
Proof.
  intros Hd. unfold Py.next_or. destruct (find p l) as [x|] eqn:E.
  - exists x. split; [reflexivity|]. apply (find_some _ _ E).
  - exists d. auto.
Qed.

(** What profile generation builds from a non-empty list: four profiles
    under fixed keys, naming ten models, all taken from the list. *)
Lemma _generate_ai_profiles_shape V (first : ModelSpec) (rest : list ModelSpec) :
  exists profiles,
    _generate_ai_profiles V (first :: rest) = Py.Returns profiles /\
    map fst profiles
      = ["balanced_daily_driver"; "specialist_ensemble"; "speed_demon";
         "power_user_config"] /\
    length (observe.mentioned_models profiles) = 10%nat /\
    Forall (fun n => In n (map name (first :: rest)))
      (observe.mentioned_models profiles).
Proof.
  unfold _generate_ai_profiles. cbv zeta.
  change (hd_error (first :: rest)) with (Some first).
  set (l := first :: rest).
  assert (Hfirst : In first l) by (left; reflexivity).
  destruct (next_or_pick (fun m => Py.contains "0.5" (size m)) l first Hfirst)
    as (t0 & -> & Ht0).
  destruct (next_or_pick (fun m => String.eqb (size m) "0.5B") l t0 Ht0)
    as (tiny & -> & Htiny).
  destruct (next_or_pick (fun m => Py.contains "1.5" (size m)) l tiny Htiny)
    as (s0 & -> & Hs0).
  destruct (next_or_pick (fun m => String.eqb (size m) "1.5B") l s0 Hs0)
    as (small & -> & Hsmall).
  destruct (next_or_pick (fun m => Py.contains "7" (size m)) l small Hsmall)
    as (m0 & -> & Hm0).
  destruct (next_or_pick (fun m => String.eqb (size m) "7B") l m0 Hm0)
    as (medium & -> & Hmedium).
  destruct (next_or_pick (fun m => Py.contains "Coder" (variant m)) l small Hsmall)
    as (coder & -> & Hcoder).
  destruct (next_or_pick (fun m => Py.contains "Math" (variant m)) l small Hsmall)
    as (math & -> & Hmath).
  destruct (next_or_pick (fun m => String.eqb "Qwen2.5" (variant m)) l small Hsmall)
    as (general & -> & Hgeneral).
  simpl name_or. simpl name_of. simpl Py.obind.
  assert (Hname : forall x, In x l -> In (name x) (map name l))
    by (intros x Hx; apply in_map, Hx).
  destruct (Qle_bool 16 (ram_gb V) && Py.truthy_and_ge (gpu_vram_gb V) 4);
    simpl Py.obind; eexists; (split; [reflexivity|]);
    (split; [reflexivity|]); (split; [reflexivity|]);
    cbn; repeat (apply Forall_cons; [apply Hname; assumption|]);
    apply Forall_nil.
Qed.

Lemma firstn_incl {A} (n : nat) (l : list A) (x : A) :
  In x (firstn n l) -> In x l.
Proof.
  revert l. induction n as [|n IH]; intros [|y l]; simpl; try tauto.
  intros [H | H]; [left; exact H | right; apply IH, H].
Qed.

Lemma recommended_in_ranked V (self : ModelManager) r D :
  fst (get_model_recommendations V self) = Py.Returns r ->
  In D (observe.recommended r) ->
  In D (ranked_models V (model_catalog self)).
Proof.
  unfold get_model_recommendations, Py.bind, Py.gets, Py.lift, Py.ret.
  destruct (ranked_models V (model_catalog self)) as [|first rest].
  - simpl. intros [= <-]. simpl. tauto.
  - destruct (_generate_ai_profiles V (first :: rest)); simpl; [|discriminate].
    intros [= <-]. unfold observe.recommended.
    cbn [primary_model alternative_models].
    intros [<- | H]; [left; reflexivity|].
    unfold Py.slice_1_4 in H. cbn [skipn] in H.
    right. eapply firstn_incl, H.
Qed.

(** The whole result in terms of the ranked list. *)
Lemma get_model_recommendations_result V (self : ModelManager) :
  exists r,
    get_model_recommendations V self = (Py.Returns r, self) /\
    observe.recommended r = firstn 4 (ranked_models V (model_catalog self)) /\
    primary_model r = hd_error (ranked_models V (model_catalog self)) /\
    alternative_models r = firstn 3 (tl (ranked_models V (model_catalog self))) /\
    match primary_model r with
    | None => profiles r = []
    | Some _ =>
        map fst (profiles r)
          = ["balanced_daily_driver"; "specialist_ensemble"; "speed_demon";
             "power_user_config"] /\
        length (observe.mentioned_models (profiles r)) = 10%nat /\
        Forall (fun n => In n (map name (ranked_models V (model_catalog self))))
          (observe.mentioned_models (profiles r))
    end.
Proof.
  unfold get_model_recommendations, Py.bind, Py.gets, Py.lift, Py.ret.
  destruct (ranked_models V (model_catalog self)) as [|first rest].
  - eexists. split; [reflexivity|]. repeat split.
  - destruct (_generate_ai_profiles_shape V first rest) as (p & -> & Hk & Hn & Hm).
    eexists. split; [reflexivity|].
    cbn [primary_model alternative_models profiles observe.recommended hd_error tl].
    repeat split; assumption.
Qed.

(** A model that passed the filter fits in RAM, and on a machine without
    usable VRAM it is not of size class 7B or 32B. *)
Lemma appended_fits_ram V D :
  appended V D = true -> ram_requirement_gb D <= ram_gb V.
Proof.
  unfold appended.
  destruct (Qle_bool (ram_requirement_gb D) (ram_gb V)) eqn:E; [|discriminate].
  intros _. apply Qle_bool_iff, E.
Qed.


Lemma appended_more_ram V V' D :
  gpu_vram_gb V' = gpu_vram_gb V -> ram_gb V <= ram_gb V' ->
  appended V D = true -> appended V' D = true.
Proof.
  intros Hv Hr. unfold appended. rewrite Hv.
  destruct (Qle_bool (ram_requirement_gb D) (ram_gb V)) eqn:E; [|discriminate].
  apply Qle_bool_iff in E.
  assert (E' : Qle_bool (ram_requirement_gb D) (ram_gb V') = true)
    by (apply Qle_bool_iff; eapply Qle_trans; eassumption).
  rewrite E'. tauto.
Qed.

(** Every model of the result passed the filter; so did every model a
    profile mentions. *)
Lemma recommended_pass_filter V (self : ModelManager) :
  exists r,
    fst (get_model_recommendations V self) = Py.Returns r /\
    Forall (fun D => In D (model_catalog self) /\ appended V D = true)
      (observe.recommended r).
Proof.
  destruct (get_model_recommendations_returns V self) as [r Hr].
  exists r. rewrite Hr. split; [reflexivity|].
  apply Forall_forall. intros D HD.
  apply ranked_models_In.
  apply (recommended_in_ranked V self r D); [rewrite Hr; reflexivity | exact HD].
Qed.

Lemma mentioned_pass_filter V (self : ModelManager) :
  exists r,
    fst (get_model_recommendations V self) = Py.Returns r /\
    length (observe.mentioned_models (profiles r))
      = match primary_model r with Some _ => 10%nat | None => 0%nat end /\
    Forall (fun n => exists D, In D (model_catalog self) /\
                               appended V D = true /\ name D = n)
      (observe.mentioned_models (profiles r)).
Proof.
  destruct (get_model_recommendations_result V self)
    as (r & Hr & _ & _ & _ & Hprof).
  exists r. rewrite Hr. split; [reflexivity|].
  destruct (primary_model r).
  - destruct Hprof as (_ & Hlen & Hall). split; [exact Hlen|].
    eapply Forall_impl; [|exact Hall].
    intros n Hn. apply in_map_iff in Hn. destruct Hn as (D & Hname & HD).
    apply ranked_models_In in HD. exists D. tauto.
  - rewrite Hprof. split; [reflexivity | constructor].
Qed.

(** X1.  Profile generation raises [AttributeError] when it is handed an
    empty list and returns for every non-empty one;
    [get_model_recommendations] only calls it on a non-empty list, so it
    returns for every capability vector and every manager state, and it
    leaves the manager unchanged. *)
Theorem profile_generation_is_guarded (V : HardwareCapabilityVector)
    (self : ModelManager) (first : ModelSpec) (rest : list ModelSpec) :
  _generate_ai_profiles V []
    = Py.Raises (Py.AttributeError "'NoneType' object has no attribute 'name'") /\
  (exists profiles, _generate_ai_profiles V (first :: rest) = Py.Returns profiles) /\
  (exists r, get_model_recommendations V self = (Py.Returns r, self)).
Proof.
  split; [reflexivity|]. split.
  - apply _generate_ai_profiles_returns.
  - apply get_model_recommendations_returns.
Qed.

(** X2.  The ranked list is a rearrangement of the catalog entries that
    pass the filter, in descending order of RAM requirement, and entries
    with equal requirement keep their catalog order. *)
Theorem ranking_is_descending_and_stable (V : HardwareCapabilityVector)
    (catalog : list ModelSpec) :
  Permutation (filter (appended V) catalog) (ranked_models V catalog) /\
  StronglySorted (fun a b => ram_requirement_gb b <= ram_requirement_gb a)
    (ranked_models V catalog) /\
  (forall k : Q,
     filter (fun m => Qeq_bool (ram_requirement_gb m) k) (ranked_models V catalog)
     = filter (fun m => Qeq_bool (ram_requirement_gb m) k)
         (filter (appended V) catalog)).
Proof.
  split; [|split].
  - unfold ranked_models. rewrite suitable_models_loop_filter.
    apply sort_desc_perm.
  - apply ranked_models_sorted.
  - intros k. apply ranked_models_stable.
Qed.

(** X3.  As soon as one catalog entry passes the filter there is a primary
    model, and its RAM requirement is at least that of every entry that
    passes. *)
Theorem primary_dominates_suitable_models (V : HardwareCapabilityVector)
    (self : ModelManager) (D : ModelSpec) :
  In D (model_catalog self) -> appended V D = true ->
  exists r p,
    fst (get_model_recommendations V self) = Py.Returns r /\
    primary_model r = Some p /\
    ram_requirement_gb D <= ram_requirement_gb p.
Proof.
  intros HD Happ.
  destruct (get_model_recommendations_result V self) as (r & Hr & _ & Hp & _).
  assert (Hin : In D (ranked_models V (model_catalog self)))
    by (apply ranked_models_In; auto).
  pose proof (ranked_models_sorted V (model_catalog self)) as Hs.
  destruct (ranked_models V (model_catalog self)) as [|first rest];
    [destruct Hin|].
  exists r, first. rewrite Hr. split; [reflexivity|]. split; [exact Hp|].
  destruct Hin as [<- | Hin]; [apply Qle_refl|].
  apply StronglySorted_inv in Hs. destruct Hs as [_ Hall].
  rewrite Forall_forall in Hall. exact (Hall D Hin).
Qed.

Lemma primary_dominates_suitable_models_witness :
  exists r p,
    fst (get_model_recommendations scenario.vector_desktop scenario_more.manager)
      = Py.Returns r /\
    primary_model r = Some p /\
    ram_requirement_gb scenario_more.qwen_1_5b <= ram_requirement_gb p.
Proof.
  apply (primary_dominates_suitable_models scenario.vector_desktop
           scenario_more.manager scenario_more.qwen_1_5b).
  - vm_compute. tauto.
  - reflexivity.
Defined.

(** X4.  The result lists the first four ranked models: the first as
    primary model, the next three (or fewer) as alternatives.  The profiles
    map is empty exactly when there is no primary model; otherwise it has
    the four profile keys, in this order. *)
Theorem recommendation_lists_top_four (V : HardwareCapabilityVector)
    (self : ModelManager) :
  exists r,
    fst (get_model_recommendations V self) = Py.Returns r /\
    observe.recommended r = firstn 4 (ranked_models V (model_catalog self)) /\
    primary_model r = hd_error (ranked_models V (model_catalog self)) /\
    (length (alternative_models r) <= 3)%nat /\
    map fst (profiles r)
      = match primary_model r with
        | Some _ => ["balanced_daily_driver"; "specialist_ensemble";
                     "speed_demon"; "power_user_config"]
        | None => []
        end.
Proof.
  destruct (get_model_recommendations_result V self)
    as (r & Hr & Hrec & Hp & Ha & Hprof).
  exists r. rewrite Hr. split; [reflexivity|].
  split; [exact Hrec|]. split; [exact Hp|]. split.
  - rewrite Ha. apply firstn_le_length.
  - destruct (primary_model r); [apply Hprof | rewrite Hprof; reflexivity].
Qed.

(** X5.  Every model in the result (primary or alternative) is a catalog
    entry that passed the filter, and its RAM requirement does not exceed
    the RAM of the vector. *)
Theorem recommended_models_fit_in_ram (V : HardwareCapabilityVector)
    (self : ModelManager) :
  exists r,
    fst (get_model_recommendations V self) = Py.Returns r /\
    Forall (fun D => In D (model_catalog self) /\ appended V D = true /\
                     ram_requirement_gb D <= ram_gb V)
      (observe.recommended r).
Proof.
  destruct (recommended_pass_filter V self) as (r & Hr & Hall).
  exists r. split; [exact Hr|].
  eapply Forall_impl; [|exact Hall].
  intros D [Hc Ha]. auto using appended_fits_ram.
Qed.

(** X6.  When there is a primary model the four profiles mention ten model
    names (recommended, ensemble, routing, fallback), and each of them is
    the name of a catalog entry that passed the filter: no profile points
    to a model the hardware was found unfit for. *)
Theorem profiles_mention_suitable_models (V : HardwareCapabilityVector)
    (self : ModelManager) :
  exists r,
    fst (get_model_recommendations V self) = Py.Returns r /\
    length (observe.mentioned_models (profiles r))
      = match primary_model r with Some _ => 10%nat | None => 0%nat end /\
    Forall (fun n => exists D, In D (model_catalog self) /\
                               appended V D = true /\ name D = n)
      (observe.mentioned_models (profiles r)).
Proof. apply mentioned_pass_filter. Qed.


End RecommendationMore.

Section RecommendationMore2.
Import hardware_profiler model_manager.


(** X8.  More RAM never costs a model: if two vectors report the same VRAM
    and the second has at least as much RAM, every model ranked for the
    first is ranked for the second, and the primary model of the second
    needs at least as much RAM as that of the first. *)
Theorem more_ram_keeps_models (V V' : HardwareCapabilityVector)
    (catalog : list ModelSpec) (D : ModelSpec) :
  gpu_vram_gb V' = gpu_vram_gb V -> ram_gb V <= ram_gb V' ->
  In D (ranked_models V catalog) ->
  In D (ranked_models V' catalog) /\
  exists p', hd_error (ranked_models V' catalog) = Some p' /\
             (forall p, hd_error (ranked_models V catalog) = Some p ->
                        ram_requirement_gb p <= ram_requirement_gb p').
Proof.
  intros Hv Hr HD.
  assert (Hkeep : forall E, In E (ranked_models V catalog) ->
                            In E (ranked_models V' catalog)).
  { intros E HE. apply ranked_models_In in HE. apply ranked_models_In.
    destruct HE as [Hc Ha]. split; [exact Hc|].
    exact (appended_more_ram V V' E Hv Hr Ha). }
  split; [apply Hkeep, HD|].
  pose proof (ranked_models_sorted V' catalog) as Hs.
  pose proof (Hkeep D HD) as HD'.
  destruct (ranked_models V' catalog) as [|p' rest'] eqn:E'; [destruct HD'|].
  exists p'. split; [reflexivity|].
  intros p Hp.
  assert (Hin : In p (p' :: rest')).
  { apply Hkeep.
    destruct (ranked_models V catalog); [discriminate|].
    injection Hp as ->. left; reflexivity. }
  destruct Hin as [<- | Hin]; [apply Qle_refl|].
  apply StronglySorted_inv in Hs. destruct Hs as [_ Hall].
  rewrite Forall_forall in Hall. exact (Hall p Hin).
Qed.

Lemma more_ram_keeps_models_witness :
  In scenario_more.qwen_vl_2b
    (ranked_models scenario_more.vector_no_gpu _initialize_model_catalog) /\
  exists p',
    hd_error (ranked_models scenario_more.vector_no_gpu _initialize_model_catalog)
      = Some p' /\
    (forall p,
       hd_error (ranked_models scenario_more.vector_no_gpu_8 _initialize_model_catalog)
         = Some p ->
       ram_requirement_gb p <= ram_requirement_gb p').
Proof.
  apply (more_ram_keeps_models scenario_more.vector_no_gpu_8
           scenario_more.vector_no_gpu _initialize_model_catalog
           scenario_more.qwen_vl_2b).
  - reflexivity.
  - vm_compute. discriminate.
  - vm_compute. tauto.
Defined.

(** The built-in catalog: small entries need at most 2 GB, entries of size
    class 7B or 32B need at least 6.5 GB. *)
Lemma catalog_size_classes :
  Forall (fun D => (size_in_7B_32B D = false /\ ram_requirement_gb D <= 2) \/
                   (size_in_7B_32B D = true /\ 6.5 <= ram_requirement_gb D))
    _initialize_model_catalog.
Proof.
  repeat (apply Forall_cons;
          [first [left; split; [reflexivity | vm_compute; discriminate]
                 | right; split; [reflexivity | vm_compute; discriminate]] |]).
  apply Forall_nil.
Qed.

(** With at least 2 GB of RAM, and VRAM present but below 4.55 GB, the
    filter keeps exactly the entries that are not of class 7B or 32B. *)
Lemma appended_below_vram_gate V v D :
  In D _initialize_model_catalog ->
  2 <= ram_gb V -> gpu_vram_gb V = Some v -> 0 < v -> v < 4.55 ->
  appended V D = negb (size_in_7B_32B D).
Proof.
  intros HD Hram Hv Hpos Hlt.
  pose proof catalog_size_classes as Hc. rewrite Forall_forall in Hc.
  unfold appended. rewrite Hv. simpl Py.truthy.
  assert (Hnz : Qeq_bool v 0 = false).
  { destruct (Qeq_bool v 0) eqn:E; [|reflexivity].
    apply Qeq_bool_iff in E. rewrite E in Hpos. discriminate. }
  rewrite Hnz. simpl negb.
  destruct (Hc D HD) as [[Hs Hr] | [Hs Hr]]; rewrite Hs; simpl.
  - assert (E : Qle_bool (ram_requirement_gb D) (ram_gb V) = true).
    { apply Qle_bool_iff. eapply Qle_trans; eassumption. }
    rewrite E. reflexivity.
  - destruct (Qle_bool (ram_requirement_gb D) (ram_gb V)); [|reflexivity].
    apply Qle_bool_false_iff. lra.
Qed.

(** X9.  The two recommendation paths disagree.  For every vector with at
    least 16 GB of RAM and between 4 and 4.55 GB of VRAM,
    [HardwareProfiler.get_recommendations] names the 7B model, while
    [ModelManager.get_model_recommendations] on the built-in catalog
    recommends no 7B or 32B model at all and returns the 2B vision model
    as primary model. *)
Theorem recommendation_paths_disagree (V : HardwareCapabilityVector) (v : Q)
    (self : ModelManager) :
  model_catalog self = _initialize_model_catalog ->
  16 <= ram_gb V -> gpu_vram_gb V = Some v -> 4 <= v -> v < 4.55 ->
  text_primary_model (get_recommendations V) = "Qwen2.5-7B (Q6_K)" /\
  exists r,
    fst (get_model_recommendations V self) = Py.Returns r /\
    option_map name (primary_model r) = Some "qwen2.5-vl-2b-q4_k_m.gguf" /\
    Forall (fun D => size D <> "7B" /\ size D <> "32B") (observe.recommended r).
Proof.
  intros Hcat Hram Hv H4 Hlt.
  split.
  - unfold get_recommendations. rewrite Hv. simpl Py.truthy_and_ge.
    assert (E8 : Qle_bool 8 v = false) by (apply Qle_bool_false_iff; lra).
    assert (E4 : Qle_bool 4 v = true) by (apply Qle_bool_iff; exact H4).
    assert (Enz : Qeq_bool v 0 = false).
    { destruct (Qeq_bool v 0) eqn:E; [|reflexivity].
      apply Qeq_bool_iff in E. lra. }
    assert (E16 : Qle_bool 16 (ram_gb V) = true) by (apply Qle_bool_iff; exact Hram).
    rewrite E8, E4, Enz, E16. rewrite andb_false_r. reflexivity.
  - assert (Hfilter : filter (appended V) _initialize_model_catalog
                      = filter (fun D => negb (size_in_7B_32B D))
                          _initialize_model_catalog).
    { apply filter_ext_in. intros D HD.
      apply (appended_below_vram_gate V v D HD); [lra | exact Hv | lra | exact Hlt]. }
    assert (Hranked : ranked_models V _initialize_model_catalog
                      = Py.sort_desc ram_requirement_gb
                          (filter (fun D => negb (size_in_7B_32B D))
                             _initialize_model_catalog)).
    { unfold ranked_models. rewrite suitable_models_loop_filter, Hfilter.
      reflexivity. }
    destruct (get_model_recommendations_result V self) as (r & Hr & Hrec & Hp & _).
    exists r. rewrite Hr. split; [reflexivity|].
    rewrite Hcat, Hranked in Hrec, Hp.
    split.
    + rewrite Hp. reflexivity.
    + rewrite Hrec. vm_compute.
      repeat (apply Forall_cons; [split; discriminate|]). apply Forall_nil.
Qed.

Lemma recommendation_paths_disagree_witness :
  text_primary_model (get_recommendations scenario.vector_desktop)
    = "Qwen2.5-7B (Q6_K)" /\
  exists r,
    fst (get_model_recommendations scenario.vector_desktop scenario_more.manager)
      = Py.Returns r /\
    option_map name (primary_model r) = Some "qwen2.5-vl-2b-q4_k_m.gguf" /\
    Forall (fun D => size D <> "7B" /\ size D <> "32B") (observe.recommended r).
Proof.
  apply (recommendation_paths_disagree scenario.vector_desktop 4
           scenario_more.manager).
  - reflexivity.
  - vm_compute. discriminate.
  - reflexivity.
  - vm_compute. discriminate.
  - reflexivity.
Defined.

(** X10.  Catalog lookup by name: a name that no entry carries gives
    [None]; when the names of the catalog are pairwise different (as in
    the built-in catalog) looking up the name of an entry gives back that
    entry.  The lookup never raises and never changes the manager. *)
Theorem get_model_by_name_round_trip (self : ModelManager) :
  (forall n, ~ In n (map name (model_catalog self)) ->
             get_model_by_name n self = (Py.Returns None, self)) /\
  (NoDup (map name (model_catalog self)) ->
   forall D, In D (model_catalog self) ->
             get_model_by_name (name D) self = (Py.Returns (Some D), self)) /\
  NoDup (map name _initialize_model_catalog).
Proof.
  unfold get_model_by_name, Py.bind, Py.gets, Py.ret, Py.next_or.
  split; [|split].
  - intros n Hn.
    destruct (find (fun m => String.eqb (name m) n) (model_catalog self)) eqn:E;
      [|reflexivity].
    apply find_some in E. destruct E as [Hin Heq].
    apply String.eqb_eq in Heq. exfalso. apply Hn.
    rewrite <- Heq. apply in_map, Hin.
  - induction (model_catalog self) as [|E l IH]; intros Hnd D HD; [destruct HD|].
    simpl in Hnd. apply NoDup_cons_iff in Hnd. destruct Hnd as [Hnot Hnd].
    simpl. destruct (String.eqb (name E) (name D)) eqn:Heq.
    + apply String.eqb_eq in Heq. destruct HD as [-> | HD]; [reflexivity|].
      exfalso. apply Hnot. rewrite Heq. apply in_map, HD.
    + destruct HD as [-> | HD]; [rewrite String.eqb_refl in Heq; discriminate|].
      apply (IH Hnd D HD).
  - repeat (apply NoDup_cons; [vm_compute; intuition discriminate|]).
    apply NoDup_nil.
Qed.

Lemma get_model_by_name_round_trip_witness :
  get_model_by_name "qwen2.5-vl-2b-q4_k_m.gguf" scenario_more.manager
  = (Py.Returns (Some scenario_more.qwen_vl_2b), scenario_more.manager).
Proof.
  apply (proj1 (proj2 (get_model_by_name_round_trip scenario_more.manager))
           (proj2 (proj2 (get_model_by_name_round_trip scenario_more.manager)))
           scenario_more.qwen_vl_2b).
  vm_compute. tauto.
Defined.

End RecommendationMore2.

(* ===================================================================== *)
(** * Further properties of rules and initialization *)
(* ===================================================================== *)

Section RulesMore.
Import nexus_core.

Lemma custom_rules_ids (n : nat) (calls : list (string * string * Z)) :
  map model_manager.id (observe.custom_rules n calls)
  = map Z.of_nat (seq n (length calls)).
Proof.
  revert n. induction calls as [|[[c a] p] calls IH]; intros n; simpl.
  - reflexivity.
  - rewrite IH. reflexivity.
Qed.

Lemma custom_rules_length (n : nat) (calls : list (string * string * Z)) :
  length (observe.custom_rules n calls) = length calls.
Proof.
  revert n. induction calls as [|[[c a] p] calls IH]; intros n; simpl;
    [reflexivity | rewrite IH; reflexivity].
Qed.

Lemma add_custom_orchestration_rules_appends calls (self : QwenNexus) :
  model_manager.orchestration_rules
    (model_manager (snd (add_custom_orchestration_rules calls self)))
  = model_manager.orchestration_rules (model_manager self)
    ++ observe.custom_rules
         (length (model_manager.orchestration_rules (model_manager self))) calls.
Proof.
  revert self. induction calls as [|[[c a] p] calls IH]; intros self; simpl.
  - rewrite app_nil_r. reflexivity.
  - unfold Py.bind. simpl.
    specialize (IH (set_model_manager
                      (snd (model_manager.add_orchestration_rule c a p
                              (model_manager self))) self)).
    simpl in IH.
    destruct (add_custom_orchestration_rules calls _) as [o s'].
    simpl in *. rewrite IH. rewrite <- app_assoc. simpl.
    rewrite length_app. simpl. rewrite Nat.add_1_r. reflexivity.
Qed.

(** X11.  Orchestration rules are only ever appended.  After any sequence
    of [add_custom_orchestration_rule] calls the rule list is the old list
    followed by one rule per call, in call order, carrying the given
    condition, action and priority and, as id, its position in the list.
    On a session that starts without rules the ids are therefore
    0, 1, 2, ... without gaps or repeats. *)
Theorem rules_are_appended_with_position_ids
    (calls : list (string * string * Z)) (self : QwenNexus) (dir : string) :
  model_manager.orchestration_rules
    (model_manager (snd (add_custom_orchestration_rules calls self)))
  = model_manager.orchestration_rules (model_manager self)
    ++ observe.custom_rules
         (length (model_manager.orchestration_rules (model_manager self))) calls /\
  map (fun r => (model_manager.condition r, model_manager.action r,
                 model_manager.priority r))
    (observe.custom_rules
       (length (model_manager.orchestration_rules (model_manager self))) calls)
  = calls /\
  map model_manager.id
    (model_manager.orchestration_rules
       (model_manager (snd (add_custom_orchestration_rules calls
                              (nexus_core.__init__ dir)))))
  = map Z.of_nat (seq 0 (length calls)).
Proof.
  split; [apply add_custom_orchestration_rules_appends|]. split.
  - generalize (length (model_manager.orchestration_rules (model_manager self))).
    induction calls as [|[[c a] p] calls IH]; intros n; simpl;
      [reflexivity | rewrite IH; reflexivity].
  - rewrite add_custom_orchestration_rules_appends. simpl.
    apply custom_rules_ids.
Qed.

(** The session that [initialize] leaves behind, field by field. *)
Lemma initialize_state {C} (host : hardware_profiler.Host)
    (progress_callback : option (hardware_profiler.callback C))
    (self : QwenNexus) (c : C) :
  exists self' r,
    initialize host progress_callback (self, c)
      = (Py.Returns true, (self', scenario.after_callbacks progress_callback c)) /\
    model_manager.get_model_recommendations (observe.assembled host)
      (model_manager self) = (Py.Returns r, model_manager self) /\
    initialized self' = true /\
    capability_vector self' = Some (observe.assembled host) /\
    hardware_profiler.capability_vector (hardware_profiler self')
      = Some (observe.assembled host) /\
    hardware_profiler.profiles (hardware_profiler self')
      = hardware_profiler.profiles (hardware_profiler self) /\
    trust_store self'
      = match model_manager.primary_model r with
        | Some p => set_add (model_manager.name p) (trust_store self)
        | None => trust_store self
        end /\
    privacy_mode self' = privacy_mode self /\
    sandboxed_execution self' = sandboxed_execution self /\
    model_manager.model_catalog (model_manager self')
      = model_manager.model_catalog (model_manager self) /\
    model_manager.downloaded_models (model_manager self')
      = model_manager.downloaded_models (model_manager self) /\
    model_manager.active_models (model_manager self')
      = model_manager.active_models (model_manager self) /\
    model_manager.models_dir (model_manager self')
      = model_manager.models_dir (model_manager self) /\
    model_manager.orchestration_rules (model_manager self')
      = model_manager.orchestration_rules (model_manager self)
        ++ observe.default_rules
             (length (model_manager.orchestration_rules (model_manager self))).
Proof.
  unfold initialize, Py.bind, Py.zoom at 1.
  cbn [fst snd].
  rewrite run_full_diagnostic_returns. fold (observe.assembled host).
  cbn [fst snd].
  unfold aside, Py.zoom, on_model_manager, Py.modify, Py.ret. cbn [fst snd].
  unfold Py.zoom.
  cbn [model_manager set_capability_vector set_hardware_profiler fst snd].
  destruct (get_model_recommendations_returns (observe.assembled host)
              (model_manager self)) as [r Hr].
  rewrite Hr.
  unfold _setup_recommended_config.
  destruct (model_manager.primary_model r) as [p|] eqn:Hp;
    (eexists; exists r; split; [reflexivity|]; split; [reflexivity|]);
    rewrite ?Hp; cbn; repeat split; try reflexivity.
  all: rewrite <- !app_assoc; simpl; rewrite !length_app; simpl;
    repeat f_equal; lia.
Qed.

End RulesMore.

Section SessionMore.
Import nexus_core.

(** X12.  Every call of [initialize] appends the three default rules to the
    rule list, after the rules that are there, with the next three ids;
    it does not check for rules it added before, so initializing a session
    again adds them a second time. *)
Theorem initialize_appends_default_rules {C} (host : hardware_profiler.Host)
    (progress_callback : option (hardware_profiler.callback C))
    (self : QwenNexus) (c : C) :
  let self' := fst (snd (initialize host progress_callback (self, c))) in
  let self'' := fst (snd (initialize host progress_callback (self', c))) in
  let n := length (model_manager.orchestration_rules (model_manager self)) in
  model_manager.orchestration_rules (model_manager self')
    = model_manager.orchestration_rules (model_manager self)
      ++ observe.default_rules n /\
  model_manager.orchestration_rules (model_manager self'')
    = model_manager.orchestration_rules (model_manager self)
      ++ observe.default_rules n ++ observe.default_rules (n + 3).
Proof.
  intros self' self'' n. subst self' self'' n.
  destruct (initialize_state host progress_callback self c)
    as (s1 & r1 & E1 & H1).
  rewrite E1. cbn [fst snd].
  destruct (initialize_state host progress_callback s1 c)
    as (s2 & r2 & E2 & H2).
  rewrite E2. cbn [fst snd].
  assert (R1 : model_manager.orchestration_rules (model_manager s1)
               = model_manager.orchestration_rules (model_manager self)
                 ++ observe.default_rules
                      (length (model_manager.orchestration_rules (model_manager self))))
    by apply H1.
  assert (R2 : model_manager.orchestration_rules (model_manager s2)
               = model_manager.orchestration_rules (model_manager s1)
                 ++ observe.default_rules
                      (length (model_manager.orchestration_rules (model_manager s1))))
    by apply H2.
  split; [exact R1|].
  rewrite R2, R1, length_app, <- app_assoc. reflexivity.
Qed.


(** X14.  After [initialize] the session answers
    [get_model_recommendations] with the full dictionary: it is what the
    model manager recommends for the assembled vector, the call leaves the
    session unchanged, and the primary model it names (if any) is in the
    trust store. *)
Theorem initialized_session_recommends {C} (host : hardware_profiler.Host)
    (progress_callback : option (hardware_profiler.callback C))
    (self : QwenNexus) (c : C) :
  let self' := fst (snd (initialize host progress_callback (self, c))) in
  exists r,
    get_model_recommendations self' = (Py.Returns (FullDict r), self') /\
    fst (model_manager.get_model_recommendations (observe.assembled host)
           (model_manager self)) = Py.Returns r /\
    (forall p, model_manager.primary_model r = Some p ->
               In (model_manager.name p) (trust_store self')).
Proof.
  intros self'. subst self'.
  destruct (initialize_state host progress_callback self c)
    as (s1 & r & E & Hr & _ & Hcv & _ & _ & Hts & _ & _ & Hcat & _).
  rewrite E. cbn [fst snd].
  destruct (nexus_get_model_recommendations_full s1 _ Hcv) as (r' & Hr' & Hfull).
  assert (Hsame : r' = r).
  { pose proof (get_model_recommendations_catalog (observe.assembled host)
                  (model_manager s1) (model_manager self) Hcat) as H.
    rewrite Hr', Hr in H. simpl in H. congruence. }
  subst r'. exists r. split; [exact Hfull|]. split; [rewrite Hr; reflexivity|].
  intros p Hp. rewrite Hts, Hp. unfold set_add.
  destruct (Py.str_in_list (model_manager.name p) (trust_store self)) eqn:Ein.
  - apply str_in_list_In, Ein.
  - apply in_or_app. right. left. reflexivity.
Qed.


(** [get_system_status] reports the state without changing it: the
    counts are the lengths of the manager's and the session's collections,
    so each [add_custom_orchestration_rule] raises
    [orchestration_rules_count] by one and changes nothing else in the
    report, and a new session reports zero everywhere. *)
Theorem system_status_tracks_rules (calls : list (string * string * Z))
    (self : QwenNexus) (dir : string) :
  let before := fst (nexus_more.get_system_status self) in
  let after :=
    fst (nexus_more.get_system_status
           (snd (add_custom_orchestration_rules calls self))) in
  snd (nexus_more.get_system_status self) = self /\
  (exists s s',
     before = Py.Returns s /\ after = Py.Returns s' /\
     nexus_more.orchestration_rules_count s'
       = (nexus_more.orchestration_rules_count s + Z.of_nat (length calls))%Z /\
     nexus_more.status_initialized s' = nexus_more.status_initialized s /\
     nexus_more.status_capability_vector s' = nexus_more.status_capability_vector s /\
     nexus_more.downloaded_models_count s' = nexus_more.downloaded_models_count s /\
     nexus_more.active_models_count s' = nexus_more.active_models_count s /\
     nexus_more.trust_store_size s' = nexus_more.trust_store_size s) /\
  fst (nexus_more.get_system_status (nexus_core.__init__ dir))
  = Py.Returns
      {| nexus_more.status_initialized := false;
         nexus_more.status_privacy_mode := true;
         nexus_more.status_sandboxed_execution := true;
         nexus_more.status_capability_vector := None;
         nexus_more.downloaded_models_count := 0;
         nexus_more.active_models_count := 0;
         nexus_more.orchestration_rules_count := 0;
         nexus_more.trust_store_size := 0 |}.
Proof.
  intros before after. subst before after.
  split; [destruct self as [hp mm cv i pm ts sb]; destruct mm; reflexivity|].
  split; [|reflexivity].
  pose proof (add_custom_orchestration_rules_appends calls self) as Hrules.
  assert (Hframe : forall calls self,
            let self' := snd (add_custom_orchestration_rules calls self) in
            capability_vector self' = capability_vector self /\
            initialized self' = initialized self /\
            privacy_mode self' = privacy_mode self /\
            sandboxed_execution self' = sandboxed_execution self /\
            trust_store self' = trust_store self /\
            model_manager.downloaded_models (model_manager self')
              = model_manager.downloaded_models (model_manager self) /\
            model_manager.active_models (model_manager self')
              = model_manager.active_models (model_manager self)).
  { clear. induction calls as [|[[c a] p] calls IH]; intros self; simpl.
    - repeat split.
    - unfold Py.bind. simpl.
      specialize (IH (set_model_manager
                        (snd (model_manager.add_orchestration_rule c a p
                                (model_manager self))) self)).
      simpl in IH.
      destruct (add_custom_orchestration_rules calls _) as [o s']. simpl in *.
      exact IH. }
  destruct (Hframe calls self) as (Hcv & Hi & Hpm & Hsb & Hts & Hd & Ha).
  unfold nexus_more.get_system_status, Py.bind, Py.get, Py.ret,
    on_model_manager, Py.zoom, model_storage.get_downloaded_models,
    model_storage.get_active_models, Py.gets.
  cbn [fst snd].
  eexists. eexists. split; [reflexivity|]. split; [reflexivity|].
  cbn. rewrite Hrules, Hcv, Hi, Hts, Hd, Ha, length_app, custom_rules_length.
  repeat split. lia.
Qed.

End SessionMore.

(* ===================================================================== *)
(** * Further properties of the diagnostic pipeline *)
(* ===================================================================== *)

Section DiagnosticMore.
Import hardware_profiler.

Lemma poll_fold_spec (ticks : list (option Q)) (m : Q) (rs : list Q) :
  snd (fold_left poll ticks (m, rs)) = rs ++ observe.recorded ticks /\
  (fst (fold_left poll ticks (m, rs)) = m \/
   In (fst (fold_left poll ticks (m, rs))) (observe.recorded ticks)).
Proof.
  revert m rs. induction ticks as [|t ticks IH]; intros m rs.
  - simpl. rewrite app_nil_r. auto.
  - destruct t as [x|]; [|apply IH].
    unfold observe.recorded. cbn [flat_map fold_left poll].
    fold (observe.recorded ticks).
    destruct (Qeq_bool x 0) eqn:Ez; cbn [negb andb app]; [apply IH|].
    destruct (Py.Qlt_bool m x);
      [destruct (IH x (rs ++ [x])) as [H1 H2]
      | destruct (IH m (rs ++ [x])) as [H1 H2]];
      (split; [rewrite H1, <- app_assoc; reflexivity|]);
      destruct H2 as [-> | H2]; simpl; auto.
Qed.

Lemma py_max_mono (a b b' : Q) : b <= b' -> Py.max a b <= Py.max a b'.
Proof.
  intros H.
  destruct (py_max_cases a b) as [[H1 ->] | [H1 ->]];
    destruct (py_max_cases a b') as [[H2 ->] | [H2 ->]]; lra.
Qed.

Lemma py_min_mono (a b b' : Q) : b <= b' -> Py.min a b <= Py.min a b'.
Proof.
  intros H.
  destruct (py_min_cases a b) as [[H1 ->] | [H1 ->]];
    destruct (py_min_cases a b') as [[H2 ->] | [H2 ->]]; lra.
Qed.

Lemma tenth (x : Q) : x / 10 == x * (1 # 10).
Proof. unfold Qdiv. reflexivity. Qed.

(** X16.  The thermal stage records exactly the readings that are
    available and not [0.0], in polling order.  The maximum temperature it
    reports is either the initial temperature (0 if that is unavailable)
    or one of the recorded readings; it is at least the initial value and
    at least every recorded reading, so the reported delta is never
    negative. *)
Theorem thermal_maximum_is_attained (host : Host) :
  let t := _thermal_characterization host in
  temp_readings t = observe.recorded (tick_readings host) /\
  (max_temp t = Py.or_zero (initial_reading host) \/
   In (max_temp t) (temp_readings t)) /\
  Py.or_zero (initial_reading host) <= max_temp t /\
  Forall (fun r => r <= max_temp t) (temp_readings t) /\
  0 <= temp_delta t /\
  initial_temp t = initial_reading host.
Proof.
  intros t. subst t. unfold _thermal_characterization.
  pose proof (poll_fold_spec (tick_readings host)
                (Py.or_zero (initial_reading host)) []) as [Hs Hm].
  pose proof (poll_invariant (tick_readings host)
                (Py.or_zero (initial_reading host)) [] (Forall_nil _)) as [Hle Hall].
  destruct (fold_left poll (tick_readings host)
              (Py.or_zero (initial_reading host), [])) as [m rs].
  simpl in *. subst rs.
  repeat split; auto. lra.
Qed.

(** X17.  When the first temperature read is unavailable (or reads [0.0])
    the stage measures the rise from 0: the reported delta is the maximum
    temperature itself, and the thermal profile is the classification of
    that absolute temperature. *)
Theorem thermal_delta_without_initial_reading (host : Host) :
  Py.truthy (initial_reading host) = false ->
  let t := _thermal_characterization host in
  temp_delta t == max_temp t /\
  thermal_data_profile t = classify_thermal (max_temp t).
Proof.
  intros Hinit t. subst t.
  assert (Hz : Py.or_zero (initial_reading host) = 0).
  { destruct (initial_reading host) as [x|]; [|reflexivity].
    simpl in *. destruct (Qeq_bool x 0); [reflexivity | discriminate]. }
  rewrite thermal_profile_of_delta.
  assert (Hd : temp_delta (_thermal_characterization host)
               == max_temp (_thermal_characterization host)).
  { unfold _thermal_characterization. rewrite Hz.
    destruct (fold_left poll (tick_readings host) (0, [])) as [m rs].
    simpl. lra. }
  split; [exact Hd | apply classify_thermal_compat, Hd].
Qed.

Lemma thermal_delta_without_initial_reading_witness :
  temp_delta (_thermal_characterization scenario_more.host_late_sensor)
    == max_temp (_thermal_characterization scenario_more.host_late_sensor) /\
  thermal_data_profile (_thermal_characterization scenario_more.host_late_sensor)
    = classify_thermal
        (max_temp (_thermal_characterization scenario_more.host_late_sensor)).
Proof.
  apply (thermal_delta_without_initial_reading scenario_more.host_late_sensor).
  reflexivity.
Defined.

(** X18.  What a diagnostic run can put into the capability vector: the
    thermal profile is one of the four classes (never ["Unknown"]), the
    storage tier is ["Fast"], ["Slow"] or ["Unknown"], the special
    instructions are a duplicate-free list of known tags that contains
    ["AMX"] exactly on Darwin, and GPU name and VRAM are absent exactly
    when no GPU is enumerated.  The run returns this vector and stores it
    in the profiler. *)
Theorem diagnostic_vector_fields {C} (host : Host)
    (progress_callback : option (callback C)) (self : HardwareProfiler) (c : C) :
  let v := observe.assembled host in
  In (thermal_profile v) ["Excellent"; "Good"; "Balanced"; "Limited"] /\
  In (storage_tier v) ["Fast"; "Slow"; "Unknown"] /\
  (exists tags,
     special_instructions v = Some tags /\ NoDup tags /\
     incl tags ["AVX"; "AVX2"; "AVX-512"; "NEON"; "AMX"] /\
     (In "AMX" tags <-> system host = "Darwin")) /\
  (gpu_name v = None <-> gpus host = []) /\
  (gpu_vram_gb v = None <-> gpus host = []) /\
  fst (run_full_diagnostic host progress_callback (self, c)) = Py.Returns v /\
  capability_vector (fst (snd (run_full_diagnostic host progress_callback (self, c))))
    = Some v.
Proof.
  intros v. subst v. unfold observe.assembled.
  split; [|split; [|split; [|split; [|split]]]].
  - cbn [_create_capability_vector thermal_profile].
    rewrite thermal_profile_of_delta. unfold classify_thermal.
    destruct (Py.Qlt_bool _ 10); [simpl; tauto|].
    destruct (Py.Qlt_bool _ 20); [simpl; tauto|].
    destruct (Py.Qlt_bool _ 30); simpl; tauto.
  - cbn [_create_capability_vector storage_tier _hardware_census
           census_storage_tier].
    unfold _assess_storage_tier.
    destruct (String.eqb (system host) "Linux").
    + destruct (rotational host) as [content|]; [|simpl; tauto].
      destruct (String.eqb content "1"); simpl; tauto.
    + destruct (write_time host) as [w|]; [|simpl; tauto].
      destruct (Py.Qlt_bool w 0.1); simpl; tauto.
  - cbn [_create_capability_vector special_instructions _hardware_census
           census_special_instructions].
    eexists. split; [reflexivity|].
    unfold _detect_special_instructions.
    destruct (String.eqb (system host) "Darwin") eqn:Esys.
    + apply String.eqb_eq in Esys.
      destruct (Py.str_in_list "avx" (flags host));
        destruct (Py.str_in_list "avx2" (flags host));
        destruct (Py.str_in_list "avx512f" (flags host));
        destruct (Py.str_in_list "neon" (flags host)); cbn [app];
        (split; [repeat (apply NoDup_cons; [simpl; intuition discriminate|]);
                 apply NoDup_nil|]);
        (split; [intros x Hx; simpl in *; intuition|]);
        (split; [intros _; exact Esys | intros _; simpl; tauto]).
    + apply String.eqb_neq in Esys.
      destruct (Py.str_in_list "avx" (flags host));
        destruct (Py.str_in_list "avx2" (flags host));
        destruct (Py.str_in_list "avx512f" (flags host));
        destruct (Py.str_in_list "neon" (flags host)); cbn [app];
        (split; [repeat (apply NoDup_cons; [simpl; intuition discriminate|]);
                 apply NoDup_nil|]);
        (split; [intros x Hx; simpl in *; intuition|]);
        (split; [simpl; intuition discriminate | intros E; contradiction]).
  - cbn [_create_capability_vector gpu_name _hardware_census census_gpu_name].
    destruct (gpus host); simpl; split; intros; congruence.
  - cbn [_create_capability_vector gpu_vram_gb _hardware_census census_gpu_vram_gb].
    destruct (gpus host); simpl; split; intros; congruence.
  - rewrite run_full_diagnostic_returns. split; reflexivity.
Qed.

(** X19.  The benchmark score lies in [[0, 100]] for all measurements,
    negative and arbitrarily large ones included, and so does the score of
    every benchmark run. *)
Theorem benchmark_score_is_clamped (latency memory_pressure parallel_time : Q)
    (host : Host) :
  0 <= _calculate_overall_score latency memory_pressure parallel_time <= 100 /\
  0 <= overall_score (_baseline_ai_benchmarking host) <= 100.
Proof.
  split; [apply overall_score_in_range|].
  unfold _baseline_ai_benchmarking. cbn [overall_score].
  apply overall_score_in_range.
Qed.

(** X20.  Lower measurements never lower the score: the benchmark score
    is monotonically non-increasing in latency, in memory pressure and in
    parallel time. *)
Theorem benchmark_score_is_monotone (l l' m m' p p' : Q) :
  l <= l' -> m <= m' -> p <= p' ->
  _calculate_overall_score l' m' p' <= _calculate_overall_score l m p.
Proof.
  intros Hl Hm Hp. unfold _calculate_overall_score. cbv zeta.
  apply py_min_mono, py_max_mono.
  assert (Ha : Py.max 0 (100 - l' / 10) <= Py.max 0 (100 - l / 10)).
  { apply py_max_mono. rewrite !tenth. lra. }
  assert (Hb : Py.max 0 (100 - m' / 10) <= Py.max 0 (100 - m / 10)).
  { apply py_max_mono. rewrite !tenth. lra. }
  assert (Hc : Py.max 0 (100 - p' * 1000) <= Py.max 0 (100 - p * 1000)).
  { apply py_max_mono. lra. }
  lra.
Qed.

Lemma benchmark_score_is_monotone_witness :
  _calculate_overall_score 200 50 0.05 <= _calculate_overall_score 100 (-10) 0.05.
Proof.
  apply (benchmark_score_is_monotone 100 200 (-10) 50 0.05 0.05);
    vm_compute; discriminate.
Defined.

(** X21.  The score is 0 exactly when all three measurements are at or
    beyond their saturation points: a latency of at least 1000 ms, a
    memory pressure of at least 1000 MB and a parallel time of at least
    0.1 s. *)
Theorem benchmark_score_zero_iff (l m p : Q) :
  _calculate_overall_score l m p == 0 <-> 1000 <= l /\ 1000 <= m /\ 0.1 <= p.
Proof.
  unfold _calculate_overall_score. cbv zeta.
  pose proof (tenth l) as Tl. pose proof (tenth m) as Tm.
  destruct (py_max_cases 0 (100 - l / 10)) as [[Ha ->] | [Ha ->]];
    destruct (py_max_cases 0 (100 - m / 10)) as [[Hb ->] | [Hb ->]];
    destruct (py_max_cases 0 (100 - p * 1000)) as [[Hc ->] | [Hc ->]];
    match goal with
    | |- Py.min 100 (Py.max 0 ?s) == 0 <-> _ =>
        destruct (py_max_cases 0 s) as [[Hs ->] | [Hs ->]];
        match goal with
        | |- Py.min 100 ?x == 0 <-> _ =>
            destruct (py_min_cases 100 x) as [[Hx ->] | [Hx ->]]
        end
    end;
    rewrite ?Tl, ?Tm in *;
    (split; [intros H; repeat split; lra | intros (H1 & H2 & H3); lra]).
Qed.

Lemma benchmark_score_zero_iff_witness :
  _calculate_overall_score 1500 1000 0.1 == 0.
Proof.
  apply (proj2 (benchmark_score_zero_iff 1500 1000 0.1)).
  repeat split; vm_compute; discriminate.
Defined.

(** X22.  The benchmark does not influence the outcome of a diagnostic:
    hosts that differ only in the clock and memory measurements taken
    during the thermal test and the benchmark get the same capability
    vector, and initialization leaves the same session behind (hence the
    same recommendations). *)
Theorem benchmark_does_not_reach_the_vector {C} (host : Host)
    (elapsed latency parallel : Q) (rss_before rss_after : Z)
    (progress_callback : option (callback C))
    (self : nexus_core.QwenNexus) (c : C) :
  let host' :=
    observe.with_measurements elapsed latency parallel rss_before rss_after host in
  observe.assembled host' = observe.assembled host /\
  nexus_core.initialize host' progress_callback (self, c)
  = nexus_core.initialize host progress_callback (self, c).
Proof.
  intros host'. subst host'.
  assert (Hv : observe.assembled
                 (observe.with_measurements elapsed latency parallel
                    rss_before rss_after host)
               = observe.assembled host).
  { unfold observe.assembled, _create_capability_vector.
    rewrite !thermal_profile_of_delta.
    unfold _thermal_characterization. cbn [tick_readings initial_reading
      observe.with_measurements].
    destruct (fold_left poll (tick_readings host)
                (Py.or_zero (initial_reading host), [])) as [mx rs].
    reflexivity. }
  split; [exact Hv|].
  unfold nexus_core.initialize, Py.bind. unfold Py.zoom.
  cbn [fst snd].
  rewrite !run_full_diagnostic_returns.
  fold (observe.assembled host).
  fold (observe.assembled (observe.with_measurements elapsed latency parallel
                             rss_before rss_after host)).
  rewrite Hv. reflexivity.
Qed.

End DiagnosticMore.

(* ===================================================================== *)
(** * Properties of downloads, loading and configuration *)
(* ===================================================================== *)

Section DictFacts.
Context {V : Type}.

Lemma dict_get_set_same (k : string) (v : V) (d : list (string * V)) :
  Py.dict_get k (PyMore.dict_set k v d) = Some v.
Proof.
  induction d as [|[k' v'] d IH]; simpl.
  - rewrite String.eqb_refl. reflexivity.
  - destruct (String.eqb k k') eqn:E; simpl.
    + rewrite String.eqb_refl. reflexivity.
    + rewrite E. exact IH.
Qed.

Lemma dict_get_set_other (k k0 : string) (v : V) (d : list (string * V)) :
  k0 <> k -> Py.dict_get k0 (PyMore.dict_set k v d) = Py.dict_get k0 d.
Proof.
  intros Hne. induction d as [|[k' v'] d IH]; simpl.
  - apply String.eqb_neq in Hne. rewrite Hne. reflexivity.
  - destruct (String.eqb k k') eqn:E; simpl.
    + apply String.eqb_eq in E. subst k'.
      apply String.eqb_neq in Hne. rewrite Hne. reflexivity.
    + destruct (String.eqb k0 k'); [reflexivity | exact IH].
Qed.

Lemma dict_set_length (k : string) (v : V) (d : list (string * V)) :
  length (PyMore.dict_set k v d)
  = if PyMore.dict_has k d then length d else S (length d).
Proof.
  unfold PyMore.dict_has.
  induction d as [|[k' v'] d IH]; simpl; [reflexivity|].
  destruct (String.eqb k k'); simpl; [reflexivity|].
  rewrite IH. destruct (Py.dict_get k d); reflexivity.
Qed.

Lemma dict_del_set_fresh (k : string) (v : V) (d : list (string * V)) :
  PyMore.dict_has k d = false -> PyMore.dict_del k (PyMore.dict_set k v d) = d.
Proof.
  unfold PyMore.dict_has.
  induction d as [|[k' v'] d IH]; simpl; intros H.
  - rewrite String.eqb_refl. reflexivity.
  - destruct (String.eqb k k') eqn:E; [discriminate|].
    simpl. rewrite E. rewrite IH; [reflexivity | exact H].
Qed.

Lemma dict_get_del_other (k k0 : string) (d : list (string * V)) :
  k0 <> k -> Py.dict_get k0 (PyMore.dict_del k d) = Py.dict_get k0 d.
Proof.
  intros Hne. induction d as [|[k' v'] d IH]; simpl; [reflexivity|].
  destruct (String.eqb k k') eqn:E; simpl.
  - apply String.eqb_eq in E. subst k'.
    apply String.eqb_neq in Hne. rewrite Hne. reflexivity.
  - destruct (String.eqb k0 k'); [reflexivity | exact IH].
Qed.

Lemma dict_get_del_same (k : string) (d : list (string * V)) :
  NoDup (map fst d) -> Py.dict_get k (PyMore.dict_del k d) = None.
Proof.
  induction d as [|[k' v'] d IH]; simpl; intros Hnd; [reflexivity|].
  apply NoDup_cons_iff in Hnd. destruct Hnd as [Hnot Hnd].
  destruct (String.eqb k k') eqn:E; simpl.
  - apply String.eqb_eq in E. subst k'.
    destruct (Py.dict_get k d) eqn:G; [|reflexivity].
    exfalso. apply Hnot. clear -G.
    induction d as [|[k1 v1] d IH]; simpl in *; [discriminate|].
    destruct (String.eqb k k1) eqn:E1.
    + apply String.eqb_eq in E1. left. congruence.
    + right. apply IH, G.
  - rewrite E. apply IH, Hnd.
Qed.

Lemma dict_del_length (k : string) (d : list (string * V)) :
  PyMore.dict_has k d = true -> S (length (PyMore.dict_del k d)) = length d.
Proof.
  unfold PyMore.dict_has.
  induction d as [|[k' v'] d IH]; simpl; intros H; [discriminate|].
  destruct (String.eqb k k'); simpl; [reflexivity|].
  rewrite IH; [reflexivity | exact H].
Qed.

End DictFacts.

Section DiskFacts.
Import model_storage.

Lemma file_exists_create_same (path : string) (disk : Disk) :
  file_exists path (create path disk) = true.
Proof.
  unfold create. destruct (file_exists path disk) eqn:E; [exact E|].
  unfold file_exists. apply str_in_list_In, in_or_app.
  right. left. reflexivity.
Qed.

Lemma file_exists_create_other (path q : string) (disk : Disk) :
  q <> path -> file_exists q (create path disk) = file_exists q disk.
Proof.
  intros Hne. unfold create.
  destruct (file_exists path disk); [reflexivity|].
  unfold file_exists, Py.str_in_list. rewrite existsb_app. simpl.
  apply String.eqb_neq in Hne. rewrite Hne, !orb_false_r. reflexivity.
Qed.

Lemma file_exists_unlink_same (path : string) (disk : Disk) :
  file_exists path (unlink path disk) = false.
Proof.
  unfold file_exists, unlink.
  destruct (Py.str_in_list path (filter _ disk)) eqn:E; [|reflexivity].
  apply str_in_list_In, filter_In in E. destruct E as [_ E].
  rewrite String.eqb_refl in E. discriminate.
Qed.

Lemma file_exists_unlink_other (path q : string) (disk : Disk) :
  q <> path -> file_exists q (unlink path disk) = file_exists q disk.
Proof.
  intros Hne. unfold file_exists, unlink.
  destruct (Py.str_in_list q disk) eqn:E.
  - apply str_in_list_In. apply str_in_list_In in E.
    apply filter_In. split; [exact E|].
    apply negb_true_iff, String.eqb_neq. congruence.
  - destruct (Py.str_in_list q (filter _ disk)) eqn:E'; [|reflexivity].
    apply str_in_list_In, filter_In in E'. destruct E' as [E' _].
    apply str_in_list_In in E'. congruence.
Qed.

End DiskFacts.

Section DownloadFacts.
Import model_manager model_storage.
Import hardware_profiler(callback).

Variable joinpath : string -> string -> string.

Lemma unlink_create_absent (path : string) (disk : Disk) :
  file_exists path disk = false -> unlink path (create path disk) = disk.
Proof.
  intros H. unfold create. rewrite H. unfold unlink.
  rewrite filter_app. simpl. rewrite String.eqb_refl. simpl.
  rewrite app_nil_r.
  assert (Hall : forall p, In p disk -> negb (String.eqb path p) = true).
  { intros p Hp. apply negb_true_iff, String.eqb_neq. intros ->.
    unfold file_exists in H. apply str_in_list_In in Hp. congruence. }
  clear H. induction disk as [|p disk IH]; simpl; [reflexivity|].
  rewrite (Hall p (or_introl eq_refl)). f_equal. apply IH.
  intros q Hq. apply Hall. right. exact Hq.
Qed.

(** [download_model], case by case. *)
Lemma download_model_cases {C} (network : Network) (model_name : string)
    (progress_callback : option (callback C))
    (self : ModelManager) (disk : Disk) (c : C) :
  let model_path := joinpath (models_dir self) model_name in
  download_model joinpath network model_name progress_callback (self, disk, c)
  = match Py.next_or (fun m => String.eqb (name m) model_name)
            (model_catalog self) None with
    | None => (Py.Returns false, (self, disk, c))
    | Some model_spec =>
        if file_exists model_path disk then (Py.Returns true, (self, disk, c))
        else
          let t := network (download_url model_spec) in
          let c' :=
            if status_ok t
               && match length_header t with Malformed => false | _ => true end
               && file_opens t
            then snd (fold_left
                        (receive (observe.total_size_of (length_header t))
                           progress_callback model_name)
                        (chunks t) (0%Z, c))
            else c in
          if observe.transfer_succeeds t
          then (Py.Returns true,
                (set_downloaded_models (downloaded_models self ++ [model_spec]) self,
                 create model_path disk, c'))
          else (Py.Returns false, (self, disk, c'))
    end.
Proof.
  intros model_path. unfold download_model. fold model_path.
  destruct (Py.next_or _ (model_catalog self) None) as [spec|]; [|reflexivity].
  unfold _verify_model_checksum. rewrite andb_true_r.
  destruct (file_exists model_path disk) eqn:Hfile; [reflexivity|].
  unfold observe.transfer_succeeds, on_exception.
  destruct (status_ok (network (download_url spec))); simpl;
    [|rewrite Hfile; reflexivity].
  destruct (length_header (network (download_url spec))) as [|n|]; simpl;
    try (rewrite Hfile; reflexivity);
    (destruct (file_opens (network (download_url spec))); simpl;
     [|rewrite Hfile; reflexivity]);
    (destruct (fold_left _ (chunks (network (download_url spec))) (0%Z, c))
       as [d c']; simpl);
    (destruct (stream_completes (network (download_url spec))); simpl;
     [reflexivity|]);
    rewrite file_exists_create_same, (unlink_create_absent _ _ Hfile);
    reflexivity.
Qed.

(** What the recording callback has received after the download loop. *)
Lemma receive_percentages (total : Z) (model_name : string) (chunks : list nat)
    (downloaded : Z) (log : list Z) :
  (0 < total)%Z -> (0 <= downloaded)%Z ->
  (downloaded + Z.of_nat (list_sum chunks) <= total)%Z ->
  exists ps,
    snd (fold_left (receive total (Some observe.percent_log) model_name) chunks
           (downloaded, log)) = log ++ ps /\
    Forall (fun p => (Z.quot (100 * downloaded) total <= p <= 100)%Z) ps /\
    StronglySorted Z.le ps /\
    length ps = length (filter (fun n => negb (n =? 0)%nat) chunks).
Proof.
  intros Htotal. revert downloaded log.
  induction chunks as [|chunk chunks IH]; intros d log Hd Hsum.
  - exists []. simpl. rewrite app_nil_r. repeat split; constructor.
  - simpl in Hsum. cbn [fold_left]. unfold receive at 2.
    destruct (chunk =? 0)%nat eqn:Ez.
    + apply Nat.eqb_eq in Ez. subst chunk.
      destruct (IH d log Hd) as (ps & E & Hr & Hs & Hl); [simpl in Hsum; lia|].
      exists ps. simpl. auto.
    + assert (Hnz : (total =? 0)%Z = false) by (apply Z.eqb_neq; lia).
      rewrite Hnz. unfold observe.percent_log at 2.
      set (d' := (d + Z.of_nat chunk)%Z).
      destruct (IH d' (log ++ [Z.quot (100 * d') total]))
        as (ps & E & Hr & Hs & Hl); [subst d'; lia | subst d'; lia |].
      exists (Z.quot (100 * d') total :: ps).
      assert (Hlow : (Z.quot (100 * d) total <= Z.quot (100 * d') total)%Z)
        by (apply Z.quot_le_mono; subst d'; lia).
      assert (Hup : (Z.quot (100 * d') total <= 100)%Z)
        by (apply Z.quot_le_upper_bound; subst d'; lia).
      split; [rewrite E, <- app_assoc; reflexivity|].
      split; [constructor; [split; assumption|]|].
      * eapply Forall_impl; [|exact Hr]. simpl. intros p Hp.
        split; [eapply Z.le_trans; [exact Hlow | apply Hp] | apply Hp].
      * split.
        -- constructor; [exact Hs|].
           eapply Forall_impl; [|exact Hr]. simpl. intros p Hp. apply Hp.
        -- simpl. rewrite Ez. simpl. rewrite Hl. reflexivity.
Qed.

End DownloadFacts.

Section StorageMore.
Import model_manager model_storage.
Import hardware_profiler(callback).

Variable joinpath : string -> string -> string.

Lemma lookup_miss (n : string) (l : list ModelSpec) :
  ~ In n (map name l) ->
  Py.next_or (fun m => String.eqb (name m) n) l None = None.
Proof.
  intros Hn. unfold Py.next_or.
  destruct (find (fun m => String.eqb (name m) n) l) eqn:E; [|reflexivity].
  apply find_some in E. destruct E as [Hin Heq].
  apply String.eqb_eq in Heq. exfalso. apply Hn.
  rewrite <- Heq. apply in_map, Hin.
Qed.

Lemma lookup_hit (n : string) (l : list ModelSpec) :
  In n (map name l) ->
  exists D, Py.next_or (fun m => String.eqb (name m) n) l None = Some D /\
            In D l /\ name D = n.
Proof.
  intros Hn. unfold Py.next_or.
  destruct (find (fun m => String.eqb (name m) n) l) eqn:E.
  - apply find_some in E. destruct E as [Hin Heq].
    apply String.eqb_eq in Heq. eauto.
  - exfalso. apply in_map_iff in Hn. destruct Hn as (D & Hname & HD).
    pose proof (find_none _ _ E D HD) as H. simpl in H.
    rewrite Hname, String.eqb_refl in H. discriminate.
Qed.

Lemma receive_silent {C} (model_name : string) (chunks : list nat)
    (progress_callback : option (callback C)) (downloaded : Z) (c : C) :
  snd (fold_left (receive 0 progress_callback model_name) chunks (downloaded, c)) = c.
Proof.
  revert downloaded. induction chunks as [|chunk chunks IH]; intros d;
    [reflexivity|].
  cbn [fold_left]. unfold receive at 2.
  destruct (chunk =? 0)%nat; [apply IH|].
  destruct progress_callback; simpl; apply IH.
Qed.

(** X23.  [download_model] does nothing in two cases: for a name that no
    catalog entry carries it returns [False]; for a catalog model whose
    file is already in the models directory it returns [True].  In both
    cases no transfer is started, the progress callback is not called, and
    manager and disk stay as they are; in particular a file that was
    already there is not added to [downloaded_models]. *)
Theorem download_without_transfer {C} (network : Network) (model_name : string)
    (progress_callback : option (callback C))
    (self : ModelManager) (disk : Disk) (c : C) :
  (~ In model_name (map name (model_catalog self)) ->
   download_model joinpath network model_name progress_callback (self, disk, c)
   = (Py.Returns false, (self, disk, c))) /\
  (In model_name (map name (model_catalog self)) ->
   file_exists (joinpath (models_dir self) model_name) disk = true ->
   download_model joinpath network model_name progress_callback (self, disk, c)
   = (Py.Returns true, (self, disk, c))).
Proof.
  split.
  - intros Hn. rewrite download_model_cases, (lookup_miss _ _ Hn). reflexivity.
  - intros Hn Hfile. rewrite download_model_cases.
    destruct (lookup_hit _ _ Hn) as (D & -> & _). rewrite Hfile. reflexivity.
Qed.

(** What a call of [download_model] for a catalog model leaves behind. *)
Lemma download_model_post {C} (network : Network) (model_name : string)
    (progress_callback : option (callback C))
    (self : ModelManager) (disk : Disk) (c : C) :
  In model_name (map name (model_catalog self)) ->
  let model_path := joinpath (models_dir self) model_name in
  exists spec b self' disk' c',
    In spec (model_catalog self) /\ name spec = model_name /\
    download_model joinpath network model_name progress_callback (self, disk, c)
      = (Py.Returns b, (self', disk', c')) /\
    b = file_exists model_path disk' /\
    b = (file_exists model_path disk
         || observe.transfer_succeeds (network (download_url spec))) /\
    downloaded_models self'
      = (if file_exists model_path disk then downloaded_models self
         else if b then downloaded_models self ++ [spec]
         else downloaded_models self) /\
    (b = false -> self' = self /\ disk' = disk) /\
    (forall q, q <> model_path -> file_exists q disk' = file_exists q disk) /\
    model_catalog self' = model_catalog self /\
    active_models self' = active_models self /\
    orchestration_rules self' = orchestration_rules self /\
    models_dir self' = models_dir self.
Proof.
  intros Hn model_path.
  destruct (lookup_hit _ _ Hn) as (spec & Hlook & Hin & Hname).
  exists spec.
  pose proof (download_model_cases joinpath network model_name
                progress_callback self disk c) as E.
  cbv zeta in E. fold model_path in E. rewrite Hlook in E.
  destruct (file_exists model_path disk) eqn:Hfile.
  - exists true, self, disk, c. rewrite E, Hfile.
    repeat split; auto; discriminate.
  - destruct (observe.transfer_succeeds (network (download_url spec))) eqn:Hok.
    + eexists true, _, _, _. rewrite E.
      split; [exact Hin|]. split; [exact Hname|]. split; [reflexivity|].
      split; [symmetry; apply file_exists_create_same|].
      split; [reflexivity|]. split; [reflexivity|].
      split; [discriminate|].
      split; [intros q Hq; apply file_exists_create_other, Hq|].
      repeat split.
    + eexists false, _, _, _. rewrite E.
      split; [exact Hin|]. split; [exact Hname|]. split; [reflexivity|].
      split; [symmetry; exact Hfile|].
      repeat split; reflexivity.
Qed.

(** X24.  For a catalog model, [download_model] returns [True] exactly
    when the model file is in the models directory afterwards, which is
    the case when it was there before or the transfer went through.  A
    transfer that went through appends the catalog entry to
    [downloaded_models]; a failed attempt leaves no file behind and leaves
    manager and disk exactly as they were.  No other file is created or
    removed, and catalog, active models and rules are never touched. *)
Theorem download_postcondition {C} (network : Network) (model_name : string)
    (progress_callback : option (callback C))
    (self : ModelManager) (disk : Disk) (c : C) :
  In model_name (map name (model_catalog self)) ->
  let model_path := joinpath (models_dir self) model_name in
  exists spec b self' disk' c',
    In spec (model_catalog self) /\ name spec = model_name /\
    download_model joinpath network model_name progress_callback (self, disk, c)
      = (Py.Returns b, (self', disk', c')) /\
    b = file_exists model_path disk' /\
    b = (file_exists model_path disk
         || observe.transfer_succeeds (network (download_url spec))) /\
    downloaded_models self'
      = (if file_exists model_path disk then downloaded_models self
         else if b then downloaded_models self ++ [spec]
         else downloaded_models self) /\
    (b = false -> self' = self /\ disk' = disk) /\
    (forall q, q <> model_path -> file_exists q disk' = file_exists q disk) /\
    model_catalog self' = model_catalog self /\
    active_models self' = active_models self /\
    orchestration_rules self' = orchestration_rules self /\
    models_dir self' = models_dir self.
Proof. apply download_model_post. Qed.

(** X25.  The progress values of a download are percentages: when the
    [content-length] header announces a positive size that the received
    chunks do not exceed, every value passed to the callback lies between
    0 and 100 and the values never decrease; empty chunks produce no call,
    and without the header (or with a size of 0) the callback is not
    called at all. *)
Theorem download_progress_is_a_percentage (network : Network)
    (model_name : string) (spec : ModelSpec)
    (self : ModelManager) (disk : Disk) (log : list Z) :
  fst (get_model_by_name model_name self) = Py.Returns (Some spec) ->
  let t := network (download_url spec) in
  let total := observe.total_size_of (length_header t) in
  (0 <= total)%Z ->
  (Z.of_nat (list_sum (chunks t)) <= total \/ total = 0)%Z ->
  exists ps,
    snd (snd (download_model joinpath network model_name
                (Some observe.percent_log) (self, disk, log)))
      = log ++ ps /\
    Forall (fun p => (0 <= p <= 100)%Z) ps /\
    StronglySorted Z.le ps /\
    (length ps <= length (filter (fun n => negb (n =? 0)%nat) (chunks t)))%nat /\
    (total = 0%Z -> ps = []).
Proof.
  intros Hlook t total Hnonneg Hsum.
  assert (Hnone : exists ps : list Z,
            log = log ++ ps /\ Forall (fun p => (0 <= p <= 100)%Z) ps /\
            StronglySorted Z.le ps /\
            (length ps <= length (filter (fun n => negb (n =? 0)%nat) (chunks t)))%nat /\
            (total = 0%Z -> ps = [])).
  { exists []. rewrite app_nil_r. repeat split; try constructor. simpl. lia. }
  rewrite download_model_cases.
  unfold get_model_by_name, Py.bind, Py.gets, Py.ret in Hlook. simpl in Hlook.
  injection Hlook as Hlook. rewrite Hlook.
  destruct (file_exists _ disk); [exact Hnone|].
  fold t. fold total.
  assert (Hloop : exists ps : list Z,
            snd (fold_left (receive total (Some observe.percent_log) model_name)
                   (chunks t) (0%Z, log)) = log ++ ps /\
            Forall (fun p => (0 <= p <= 100)%Z) ps /\
            StronglySorted Z.le ps /\
            (length ps <= length (filter (fun n => negb (n =? 0)%nat) (chunks t)))%nat /\
            (total = 0%Z -> ps = [])).
  { destruct (Z.eq_dec total 0) as [Hz | Hz].
    - rewrite Hz. rewrite receive_silent. exists []. rewrite app_nil_r.
      repeat split; try constructor. simpl. lia.
    - destruct (receive_percentages total model_name (chunks t) 0 log)
        as (ps & E & Hr & Hs & Hl); [lia | lia | lia|].
      exists ps. split; [exact E|]. split.
      + eapply Forall_impl; [|exact Hr]. simpl. intros p Hp.
        rewrite Z.quot_0_l in Hp by exact Hz. exact Hp.
      + split; [exact Hs|]. split; [lia | contradiction]. }
  cbv zeta.
  destruct (status_ok t
            && match length_header t with Malformed => false | _ => true end
            && file_opens t);
    destruct (observe.transfer_succeeds t); simpl; assumption.
Qed.

(** X26.  [load_model] returns [False] and changes nothing when the model
    file is missing.  When the file is there -- whether or not the name is
    in the catalog or the trust store -- it returns [True] and records the
    model under its name with status ['loaded'], its path and the given
    configuration ([{}] if none); loading a model that is already active
    replaces its entry instead of adding one, and the other entries, the
    rest of the manager and the disk are unchanged. *)
Theorem load_model_outcome (model_name : string) (config : option Py.dict)
    (self : ModelManager) (disk : Disk) :
  let model_path := joinpath (models_dir self) model_name in
  let result := load_model joinpath model_name config (self, disk) in
  let self' := fst (snd result) in
  snd (snd result) = disk /\
  fst result = Py.Returns (file_exists model_path disk) /\
  (file_exists model_path disk = false -> self' = self) /\
  (file_exists model_path disk = true ->
   Py.dict_get model_name (active_models self')
     = Some (Py.PDict [("path", Py.PStr model_path);
                       ("config",
                          Py.PDict (match config with Some d => d | None => [] end));
                       ("status", Py.PStr "loaded");
                       ("load_time", Py.PStr "simulated")]) /\
   length (active_models self')
     = (if PyMore.dict_has model_name (active_models self)
        then length (active_models self)
        else S (length (active_models self))) /\
   (forall k, k <> model_name ->
              Py.dict_get k (active_models self') = Py.dict_get k (active_models self)) /\
   model_catalog self' = model_catalog self /\
   downloaded_models self' = downloaded_models self /\
   orchestration_rules self' = orchestration_rules self).
Proof.
  intros model_path result self'. subst result self'.
  unfold load_model. fold model_path.
  destruct (file_exists model_path disk); simpl.
  - repeat split; try discriminate.
    + apply dict_get_set_same.
    + apply dict_set_length.
    + intros k Hk. apply dict_get_set_other, Hk.
  - repeat split; discriminate.
Qed.

(** X27.  [unload_model] returns [False] and changes nothing for a model
    that is not active.  Loading a model that was not active and
    unloading it again returns [True] and restores the manager exactly;
    and after unloading, the model is no longer active while all other
    active models are kept. *)
Theorem load_then_unload_restores (model_name : string) (config : option Py.dict)
    (self : ModelManager) (disk : Disk) :
  file_exists (joinpath (models_dir self) model_name) disk = true ->
  PyMore.dict_has model_name (active_models self) = false ->
  unload_model model_name self = (Py.Returns false, self) /\
  unload_model model_name
    (fst (snd (load_model joinpath model_name config (self, disk))))
  = (Py.Returns true, self) /\
  (forall other : ModelManager,
     NoDup (map fst (active_models other)) ->
     PyMore.dict_has model_name (active_models (snd (unload_model model_name other)))
     = false /\
     forall k, k <> model_name ->
       Py.dict_get k (active_models (snd (unload_model model_name other)))
       = Py.dict_get k (active_models other)).
Proof.
  intros Hfile Hfresh. split; [|split].
  - unfold unload_model. rewrite Hfresh. reflexivity.
  - unfold load_model. rewrite Hfile. simpl.
    unfold unload_model. simpl.
    unfold PyMore.dict_has. rewrite dict_get_set_same.
    rewrite dict_del_set_fresh by exact Hfresh.
    destruct self; reflexivity.
  - intros other Hnd. unfold unload_model.
    destruct (PyMore.dict_has model_name (active_models other)) eqn:E; simpl.
    + split.
      * unfold PyMore.dict_has. rewrite dict_get_del_same by exact Hnd.
        reflexivity.
      * intros k Hk. apply dict_get_del_other, Hk.
    + split; [exact E | reflexivity].
Qed.

(** X28.  The configuration wizard raises [ValueError] for a name that is
    not in the catalog.  For a catalog model it returns a configuration
    whose thread count is the logical CPU count capped at 16 and whose
    context window and GPU layer count follow the size class alone
    (8192 and 30 for a size containing "32B", 4096 and 20 for one
    containing "7B", 2048 and 5 otherwise), independent of the hardware
    that was profiled.  The manager is not changed. *)
Theorem configure_model_outcome (cpu_count : Z) (model_name : string)
    (self : ModelManager) :
  (~ In model_name (map name (model_catalog self)) ->
   configure_model joinpath cpu_count model_name self
   = (PyMore.Raises (PyMore.ValueError ("Model " ++ model_name ++ " not found")%string),
      self)) /\
  (In model_name (map name (model_catalog self)) ->
   exists spec config,
     In spec (model_catalog self) /\ name spec = model_name /\
     configure_model joinpath cpu_count model_name self
       = (PyMore.Returns config, self) /\
     model_path config = joinpath (models_dir self) model_name /\
     threads config = Z.min cpu_count 16 /\
     (context_window config, gpu_layers config)
       = (if Py.contains "32B" (size spec) then (8192, 30)
          else if Py.contains "7B" (size spec) then (4096, 20)
          else (2048, 5))%Z /\
     (batch_size config, n_batch config) = (512, 512)%Z /\
     temperature config == 0.7 /\ top_p config == 0.9 /\
     repeat_penalty config == 1.1).
Proof.
  unfold configure_model, PyMore.bind, PyMore.of_py, get_model_by_name,
    Py.bind, Py.gets, Py.ret, PyMore.raise, PyMore.ret.
  split.
  - intros Hn. simpl. rewrite (lookup_miss _ _ Hn). reflexivity.
  - intros Hn. destruct (lookup_hit _ _ Hn) as (spec & Hlook & Hin & Hname).
    simpl. rewrite Hlook. eexists spec, _.
    split; [exact Hin|]. split; [exact Hname|]. split; [reflexivity|].
    simpl. split; [reflexivity|]. split.
    + unfold _suggest_thread_count.
      destruct (16 <? cpu_count)%Z eqn:E;
        [apply Z.ltb_lt in E | apply Z.ltb_ge in E]; lia.
    + split.
      * unfold _suggest_context_window, _suggest_gpu_layers.
        destruct (Py.contains "32B" (size spec)); [reflexivity|].
        destruct (Py.contains "7B" (size spec)); reflexivity.
      * repeat split; reflexivity.
Qed.

End StorageMore.

Section StorageWitnesses.
Import model_manager model_storage.

Lemma download_without_transfer_witness :
  download_model scenario_more.posix_join scenario_more.network_up
    "qwen2.5-1.5b-q4_k_m.gguf" (Some observe.percent_log)
    (scenario_more.manager, scenario_more.disk_with_1_5b, [])
  = (Py.Returns true, (scenario_more.manager, scenario_more.disk_with_1_5b, [])).
Proof.
  apply (proj2 (download_without_transfer scenario_more.posix_join
                  scenario_more.network_up "qwen2.5-1.5b-q4_k_m.gguf"
                  (Some observe.percent_log) scenario_more.manager
                  scenario_more.disk_with_1_5b [])).
  - vm_compute. tauto.
  - reflexivity.
Defined.

Lemma download_postcondition_witness :
  exists spec b self' disk' c',
    In spec (model_catalog scenario_more.manager) /\
    name spec = "qwen2.5-1.5b-q4_k_m.gguf" /\
    download_model scenario_more.posix_join scenario_more.network_flaky
      "qwen2.5-1.5b-q4_k_m.gguf" (Some observe.percent_log)
      (scenario_more.manager, [], [])
      = (Py.Returns b, (self', disk', c')) /\
    b = file_exists
          (scenario_more.posix_join (models_dir scenario_more.manager)
             "qwen2.5-1.5b-q4_k_m.gguf") disk' /\
    b = (file_exists
           (scenario_more.posix_join (models_dir scenario_more.manager)
              "qwen2.5-1.5b-q4_k_m.gguf") []
         || observe.transfer_succeeds (scenario_more.network_flaky (download_url spec))) /\
    downloaded_models self'
      = (if file_exists
              (scenario_more.posix_join (models_dir scenario_more.manager)
                 "qwen2.5-1.5b-q4_k_m.gguf") []
         then downloaded_models scenario_more.manager
         else if b then downloaded_models scenario_more.manager ++ [spec]
         else downloaded_models scenario_more.manager) /\
    (b = false -> self' = scenario_more.manager /\ disk' = []) /\
    (forall q,
       q <> scenario_more.posix_join (models_dir scenario_more.manager)
              "qwen2.5-1.5b-q4_k_m.gguf" ->
       file_exists q disk' = file_exists q []) /\
    model_catalog self' = model_catalog scenario_more.manager /\
    active_models self' = active_models scenario_more.manager /\
    orchestration_rules self' = orchestration_rules scenario_more.manager /\
    models_dir self' = models_dir scenario_more.manager.
Proof.
  apply (download_postcondition scenario_more.posix_join
           scenario_more.network_flaky "qwen2.5-1.5b-q4_k_m.gguf"
           (Some observe.percent_log) scenario_more.manager [] []).
  vm_compute. tauto.
Defined.

Lemma download_progress_is_a_percentage_witness :
  exists ps,
    snd (snd (download_model scenario_more.posix_join scenario_more.network_up
                "qwen2.5-1.5b-q4_k_m.gguf" (Some observe.percent_log)
                (scenario_more.manager, [], [])))
      = [] ++ ps /\
    Forall (fun p => (0 <= p <= 100)%Z) ps /\
    StronglySorted Z.le ps /\
    (length ps
     <= length (filter (fun n => negb (n =? 0)%nat)
                  (chunks scenario_more.transfer_complete)))%nat /\
    (observe.total_size_of (length_header scenario_more.transfer_complete) = 0%Z ->
     ps = []).
Proof.
  apply (download_progress_is_a_percentage scenario_more.posix_join
           scenario_more.network_up "qwen2.5-1.5b-q4_k_m.gguf"
           scenario_more.qwen_1_5b scenario_more.manager [] []).
  - reflexivity.
  - vm_compute. discriminate.
  - left. vm_compute. discriminate.
Defined.

Lemma load_then_unload_restores_witness :
  unload_model "qwen2.5-1.5b-q4_k_m.gguf"
    (fst (snd (load_model scenario_more.posix_join "qwen2.5-1.5b-q4_k_m.gguf" None
                 (scenario_more.manager, scenario_more.disk_with_1_5b))))
  = (Py.Returns true, scenario_more.manager).
Proof.
  apply (proj1 (proj2 (load_then_unload_restores scenario_more.posix_join
                         "qwen2.5-1.5b-q4_k_m.gguf" None scenario_more.manager
                         scenario_more.disk_with_1_5b eq_refl eq_refl))).
Defined.

Lemma configure_model_outcome_witness :
  configure_model scenario_more.posix_join 32 "no-such-model.gguf"
    scenario_more.manager
  = (PyMore.Raises (PyMore.ValueError "Model no-such-model.gguf not found"),
     scenario_more.manager).
Proof.
  apply (proj1 (configure_model_outcome scenario_more.posix_join 32
                  "no-such-model.gguf" scenario_more.manager)).
  vm_compute. intuition discriminate.
Defined.

End StorageWitnesses.

Section RecommendedDownloads.
Import nexus_core nexus_more.
Import model_storage(Disk, Network, file_exists).

Variable joinpath : string -> string -> string.

Lemma dict_get_absent {V} (k : string) (d : list (string * V)) :
  ~ In k (map fst d) -> Py.dict_get k d = None.
Proof.
  induction d as [|[k' v] d IH]; simpl; intros H; [reflexivity|].
  destruct (String.eqb k k') eqn:E.
  - apply String.eqb_eq in E. exfalso. apply H. left. congruence.
  - apply IH. intros Hin. apply H. right. exact Hin.
Qed.

Lemma recommendations_none (self : QwenNexus) :
  capability_vector self = None ->
  get_model_recommendations self = (Py.Returns EmptyDict, self).
Proof.
  intros H. unfold get_model_recommendations, Py.bind, Py.gets.
  rewrite H. reflexivity.
Qed.


(** On a session without a vector, or for a profile name that is not one
    of the four keys, nothing is downloaded. *)
Lemma download_recommended_models_nothing (network : Network)
    (profile_name : string) (self : QwenNexus) (disk : Disk) :
  capability_vector self = None \/
  ~ In profile_name ["balanced_daily_driver"; "specialist_ensemble";
                     "speed_demon"; "power_user_config"] ->
  download_recommended_models joinpath network profile_name (self, disk)
  = (PyMore.Returns false, (self, disk)).
Proof.
  intros H.
  unfold download_recommended_models, PyMore.bind, PyMore.of_py, aside, Py.zoom.
  cbn [fst snd].
  destruct (capability_vector self) as [v|] eqn:Hcv.
  - destruct H as [H | H]; [discriminate|].
    destruct (nexus_get_model_recommendations_full self v Hcv)
      as (r & Hr & ->). cbn [fst snd].
    destruct (get_model_recommendations_result v (model_manager self))
      as (r' & Hr' & _ & _ & _ & Hprof).
    rewrite Hr in Hr'. injection Hr' as <-.
    assert (Hnone : Py.dict_get profile_name (model_manager.profiles r) = None).
    { apply dict_get_absent.
      destruct (model_manager.primary_model r).
      - destruct Hprof as [-> _]. exact H.
      - rewrite Hprof. simpl. tauto. }
    rewrite Hnone. reflexivity.
  - rewrite (recommendations_none self Hcv). reflexivity.
Qed.


(** X29.  [download_recommended_models] returns [False] without touching
    the session, the disk or the network when the diagnostic has not run
    (the empty recommendation dictionary has no profiles) and when the
    profile name is not one of the four profile keys. *)
Theorem download_recommended_models_without_profile (network : Network)
    (profile_name : string) (self : QwenNexus) (disk : Disk) :
  capability_vector self = None \/
  ~ In profile_name ["balanced_daily_driver"; "specialist_ensemble";
                     "speed_demon"; "power_user_config"] ->
  download_recommended_models joinpath network profile_name (self, disk)
  = (PyMore.Returns false, (self, disk)).
Proof. apply download_recommended_models_nothing. Qed.


End RecommendedDownloads.

Section RecommendedDownloadsWitnesses.
Import nexus_core nexus_more.

Lemma download_recommended_models_without_profile_witness :
  download_recommended_models scenario_more.posix_join scenario_more.network_up
    default_profile_name (scenario.fresh_session, [])
  = (PyMore.Returns false, (scenario.fresh_session, [])).
Proof.
  apply (download_recommended_models_without_profile scenario_more.posix_join
           scenario_more.network_up default_profile_name scenario.fresh_session []).
  left. reflexivity.
Defined.


End RecommendedDownloadsWitnesses.
